(** * OT-editor: the collaboration engine of [poc/server]

    A shallow embedding of [ot-service.js] (the operation record, the
    pairwise transform, transform-against-sequence, application and
    merging) and of [enhanced-document-manager.js] together with the
    socket handlers of the server's [index.js] (document store, operation
    queue, debounced flush, presence).

    Conventions.
    - JavaScript numbers that hold offsets, lengths, versions and clock
      readings are integers of [Z].
    - A JavaScript string used as document text is a [text], the list of
      its code units; [txt "abc"] writes a literal.  Identifiers (operation
      ids, user ids, socket ids, document ids) are [string]s.
    - [uuidv4()] is a draw from an external generator: the model threads a
      counter [g] and the [g]-th draw is [uuidv4 g], for an arbitrary
      function [uuidv4] of the enclosing section.
    - [Date.now()] / [new Date()] is the argument [now] of each entry point.
    - [JSON.parse] and [JSON.stringify] are section variables; [JSON_parse]
      answers [None] where the library throws a [SyntaxError].
    - Console output is part of the trace of effects, each line shortened
      to a fixed string.
    - An entry point runs to completion before the next one starts, except
      where the flush is split at the [await] of its save ([flush_begin],
      [flush_resume]). *)

From Stdlib Require Import ZArith Ascii String Lia.
From stdpp Require Import base option list gmap strings pretty.

Local Open Scope Z_scope.

(** ** Text and [String.prototype.slice] *)

Definition text := list ascii.

Definition txt (s : string) : text := list_ascii_of_string s.

Definition text_length (s : text) : Z := Z.of_nat (length s).

(** A relative index of [slice]: negative counts from the end, and the
    result is clamped to [0 .. len]. *)
Definition clamp_index (len i : Z) : Z :=
  if i <? 0 then Z.max (len + i) 0 else Z.min i len.

(** [s.slice(start, stop)] *)
Definition slice (s : text) (start stop : Z) : text :=
  let len := text_length s in
  let from := clamp_index len start in
  let to := clamp_index len stop in
  take (Z.to_nat (to - from)) (drop (Z.to_nat from) s).

(** [s.slice(start)] *)
Definition slice_from (s : text) (start : Z) : text :=
  drop (Z.to_nat (clamp_index (text_length s) start)) s.

(** ** Operations *)

Inductive OpType :=
  | Insert
  | Delete
  | Replace
  | Retain
  | OtherType (tag : string).

(** The [type] string of a wire message. *)
Definition OpType_of_string (s : string) : OpType :=
  if String.eqb s "insert" then Insert
  else if String.eqb s "delete" then Delete
  else if String.eqb s "replace" then Replace
  else if String.eqb s "retain" then Retain
  else OtherType s.

Record DocumentOperation := mkOp {
  op_type : OpType;
  op_position : Z;
  op_content : option text;
  op_length : option Z;
  op_userId : string;
  op_timestamp : Z;
  op_clientId : option string;
  op_id : string;
  op_version : Z;
  op_applied : bool
}.

(** [op.content?.length || 0] *)
Definition content_length (op : DocumentOperation) : Z :=
  match op_content op with
  | Some c => text_length c
  | None => 0
  end.

(** [op.length || 0] *)
Definition length_or_0 (op : DocumentOperation) : Z :=
  match op_length op with
  | Some l => l
  | None => 0
  end.

(** [op.content || ''] *)
Definition content_or_empty (op : DocumentOperation) : text :=
  match op_content op with
  | Some c => c
  | None => []
  end.

(** ** The id generator *)

Definition Gen (A : Type) : Type := nat -> A * nat.

Definition gret {A} (a : A) : Gen A := fun g => (a, g).

Definition gbind {A B} (m : Gen A) (k : A -> Gen B) : Gen B :=
  fun g => let (a, g') := m g in k a g'.

Notation "x <- m ;;; k" := (gbind m (fun x => k))
  (at level 100, m at next level, right associativity).

Section Service.

Variable uuidv4 : nat -> string.

(** [new DocumentOperation(type, position, content, length, userId,
    timestamp, clientId)] *)
Definition new_DocumentOperation (type : OpType) (position : Z)
    (content : option text) (length : option Z) (userId : string)
    (timestamp : Z) (clientId : option string) : Gen DocumentOperation :=
  fun g =>
    ({| op_type := type; op_position := position; op_content := content;
        op_length := length; op_userId := userId; op_timestamp := timestamp;
        op_clientId := clientId; op_id := uuidv4 g; op_version := 1;
        op_applied := false |}, S g).

(** [op.clone()]: a new object, then id, version and applied copied over. *)
Definition clone (this : DocumentOperation) : Gen DocumentOperation :=
  op <- new_DocumentOperation (op_type this) (op_position this)
          (op_content this) (op_length this) (op_userId this)
          (op_timestamp this) (op_clientId this) ;;;
  gret {| op_type := op_type op; op_position := op_position op;
          op_content := op_content op; op_length := op_length op;
          op_userId := op_userId op; op_timestamp := op_timestamp op;
          op_clientId := op_clientId op; op_id := op_id this;
          op_version := op_version this; op_applied := op_applied this |}.

(** The constructor call every branch of the transform makes: all fields
    of [op] but the position. *)
Definition moved (op : DocumentOperation) (position : Z) : Gen DocumentOperation :=
  new_DocumentOperation (op_type op) position (op_content op) (op_length op)
    (op_userId op) (op_timestamp op) (op_clientId op).

(** The same with the length replaced as well. *)
Definition resized (op : DocumentOperation) (position : Z) (length : Z)
    : Gen DocumentOperation :=
  new_DocumentOperation (op_type op) position (op_content op) (Some length)
    (op_userId op) (op_timestamp op) (op_clientId op).

Definition TransformResult : Type :=
  option DocumentOperation * option DocumentOperation.

Definition transformInsertInsert (op1 op2 : DocumentOperation)
    (op1HasPriority : bool) : Gen TransformResult :=
  if (op_position op1 <? op_position op2)
     || ((op_position op1 =? op_position op2) && op1HasPriority)
  then o <- moved op2 (op_position op2 + content_length op1) ;;;
       gret (Some op1, Some o)
  else o <- moved op1 (op_position op1 + content_length op2) ;;;
       gret (Some o, Some op2).

Definition transformInsertDelete (op1 op2 : DocumentOperation)
    : Gen TransformResult :=
  if op_position op1 <=? op_position op2
  then o <- moved op2 (op_position op2 + content_length op1) ;;;
       gret (Some op1, Some o)
  else if op_position op1 >=? op_position op2 + length_or_0 op2
  then o <- moved op1 (op_position op1 - length_or_0 op2) ;;;
       gret (Some o, Some op2)
  else o <- moved op1 (op_position op2) ;;;
       gret (Some o, Some op2).

Definition transformInsertReplace (op1 op2 : DocumentOperation)
    : Gen TransformResult :=
  if op_position op1 <=? op_position op2
  then o <- moved op2 (op_position op2 + content_length op1) ;;;
       gret (Some op1, Some o)
  else if op_position op1 >=? op_position op2 + length_or_0 op2
  then o <- moved op1 (op_position op1 - length_or_0 op2 + content_length op2) ;;;
       gret (Some o, Some op2)
  else o <- moved op1 (op_position op2 + content_length op2) ;;;
       gret (Some o, Some op2).

Definition transformDeleteInsert (op1 op2 : DocumentOperation)
    : Gen TransformResult :=
  if op_position op2 <=? op_position op1
  then o <- moved op1 (op_position op1 + content_length op2) ;;;
       gret (Some o, Some op2)
  else if op_position op2 >=? op_position op1 + length_or_0 op1
  then o <- moved op2 (op_position op2 - length_or_0 op1) ;;;
       gret (Some op1, Some o)
  else o <- moved op2 (op_position op1) ;;;
       gret (Some op1, Some o).

Definition transformDeleteDelete (op1 op2 : DocumentOperation)
    : Gen TransformResult :=
  if op_position op1 + length_or_0 op1 <=? op_position op2
  then o <- moved op2 (op_position op2 - length_or_0 op1) ;;;
       gret (Some op1, Some o)
  else if op_position op2 + length_or_0 op2 <=? op_position op1
  then o <- moved op1 (op_position op1 - length_or_0 op2) ;;;
       gret (Some o, Some op2)
  else
    let op1Start := op_position op1 in
    let op1End := op_position op1 + length_or_0 op1 in
    let op2Start := op_position op2 in
    let op2End := op_position op2 + length_or_0 op2 in
    let overlapStart := Z.max op1Start op2Start in
    let overlapEnd := Z.min op1End op2End in
    let overlapLength := Z.max 0 (overlapEnd - overlapStart) in
    newOp1 <- resized op1 (op_position op1)
                (Z.max 0 (length_or_0 op1 - overlapLength)) ;;;
    newOp2 <- resized op2 (op_position op2)
                (Z.max 0 (length_or_0 op2 - overlapLength)) ;;;
    gret (if length_or_0 newOp1 >? 0 then Some newOp1 else None,
          if length_or_0 newOp2 >? 0 then Some newOp2 else None).

Definition transformDeleteReplace (op1 op2 : DocumentOperation)
    : Gen TransformResult :=
  if op_position op1 + length_or_0 op1 <=? op_position op2
  then o <- moved op2 (op_position op2 - length_or_0 op1) ;;;
       gret (Some op1, Some o)
  else if op_position op2 + length_or_0 op2 <=? op_position op1
  then o <- moved op1 (op_position op1 - length_or_0 op2 + content_length op2) ;;;
       gret (Some o, Some op2)
  else
    let overlap :=
      Z.min (op_position op1 + length_or_0 op1)
            (op_position op2 + length_or_0 op2)
      - Z.max (op_position op1) (op_position op2) in
    o <- resized op1 (op_position op1) (Z.max 0 (length_or_0 op1 - overlap)) ;;;
    gret (Some o, Some op2).

Definition transformReplaceInsert (op1 op2 : DocumentOperation)
    : Gen TransformResult :=
  if op_position op2 <=? op_position op1
  then o <- moved op1 (op_position op1 + content_length op2) ;;;
       gret (Some o, Some op2)
  else if op_position op2 >=? op_position op1 + length_or_0 op1
  then o <- moved op2 (op_position op2 - length_or_0 op1 + content_length op1) ;;;
       gret (Some op1, Some o)
  else o <- moved op2 (op_position op1 + content_length op1) ;;;
       gret (Some op1, Some o).

Definition transformReplaceDelete (op1 op2 : DocumentOperation)
    : Gen TransformResult :=
  if op_position op2 + length_or_0 op2 <=? op_position op1
  then o <- moved op1 (op_position op1 - length_or_0 op2) ;;;
       gret (Some o, Some op2)
  else if op_position op1 + length_or_0 op1 <=? op_position op2
  then o <- moved op2 (op_position op2 - length_or_0 op1 + content_length op1) ;;;
       gret (Some op1, Some o)
  else
    let overlap :=
      Z.min (op_position op1 + length_or_0 op1)
            (op_position op2 + length_or_0 op2)
      - Z.max (op_position op1) (op_position op2) in
    o <- resized op2 (op_position op1) (Z.max 0 (length_or_0 op2 - overlap)) ;;;
    gret (Some op1, Some o).

Definition transformReplaceReplace (op1 op2 : DocumentOperation)
    (op1HasPriority : bool) : Gen TransformResult :=
  if op_position op1 + length_or_0 op1 <=? op_position op2
  then o <- moved op2 (op_position op2 - length_or_0 op1 + content_length op1) ;;;
       gret (Some op1, Some o)
  else if op_position op2 + length_or_0 op2 <=? op_position op1
  then o <- moved op1 (op_position op1 - length_or_0 op2 + content_length op2) ;;;
       gret (Some o, Some op2)
  else if op1HasPriority then gret (Some op1, None)
  else gret (None, Some op2).

(** [EnhancedOTService.transform(op1, op2, op1HasPriority)]; [None] is the
    source's [null]. *)
Definition transform (op1 op2 : DocumentOperation) (op1HasPriority : bool)
    : Gen TransformResult :=
  if String.eqb (op_id op1) (op_id op2) then gret (Some op1, None)
  else match op_type op1, op_type op2 with
       | Insert, Insert => transformInsertInsert op1 op2 op1HasPriority
       | Insert, Delete => transformInsertDelete op1 op2
       | Insert, Replace => transformInsertReplace op1 op2
       | Delete, Insert => transformDeleteInsert op1 op2
       | Delete, Delete => transformDeleteDelete op1 op2
       | Delete, Replace => transformDeleteReplace op1 op2
       | Replace, Insert => transformReplaceInsert op1 op2
       | Replace, Delete => transformReplaceDelete op1 op2
       | Replace, Replace => transformReplaceReplace op1 op2 op1HasPriority
       | _, _ => gret (Some op1, Some op2)
       end.

(** The guard of the loop of [transformAgainstOperations]: [op] is earlier
    than [transformedOp] by (timestamp, userId). *)
Definition earlier (op transformedOp : DocumentOperation) : bool :=
  (op_timestamp op <? op_timestamp transformedOp)
  || ((op_timestamp op =? op_timestamp transformedOp)
      && String.ltb (op_userId op) (op_userId transformedOp)).

Fixpoint transformAgainst_loop (transformedOp : DocumentOperation)
    (operations : list DocumentOperation) : Gen (option DocumentOperation) :=
  match operations with
  | [] => gret (Some transformedOp)
  | op :: rest =>
      if earlier op transformedOp then
        r <- transform transformedOp op false ;;;
        match fst r with
        | Some newOp => transformAgainst_loop newOp rest
        | None => gret None
        end
      else transformAgainst_loop transformedOp rest
  end.

(** [EnhancedOTService.transformAgainstOperations(operation, operations)] *)
Definition transformAgainstOperations (operation : DocumentOperation)
    (operations : list DocumentOperation) : Gen (option DocumentOperation) :=
  transformedOp <- clone operation ;;;
  transformAgainst_loop transformedOp operations.

End Service.

(** [EnhancedOTService.applyOperation(content, operation)]; the
    [console.warn] of the default case is not an effect the engine
    observes. *)
Definition applyOperation (content : text) (operation : option DocumentOperation)
    : text :=
  match operation with
  | None => content
  | Some operation =>
      if op_applied operation then content
      else match op_type operation with
           | Insert =>
               slice content 0 (op_position operation)
               ++ content_or_empty operation
               ++ slice_from content (op_position operation)
           | Delete =>
               slice content 0 (op_position operation)
               ++ slice_from content (op_position operation + length_or_0 operation)
           | Replace =>
               slice content 0 (op_position operation)
               ++ content_or_empty operation
               ++ slice_from content (op_position operation + length_or_0 operation)
           | Retain => content
           | OtherType _ => content
           end
  end.

(** ** Merging *)

(** What [mergeOperations] returns: [null], one operation, or an array. *)
Inductive MergeResult :=
  | MergedNull
  | MergedOne (op : DocumentOperation)
  | MergedMany (ops : list DocumentOperation).

(** [Array.prototype.sort(cmp)], which is stable: insertion from the right,
    an element passing only the strictly smaller ones. *)
Fixpoint sort_insert {A} (cmp : A -> A -> Z) (x : A) (l : list A) : list A :=
  match l with
  | [] => [x]
  | y :: l' => if cmp y x <? 0 then y :: sort_insert cmp x l' else x :: l
  end.

Definition js_sort {A} (cmp : A -> A -> Z) (l : list A) : list A :=
  foldr (sort_insert cmp) [] l.

Definition by_position_then_timestamp (a b : DocumentOperation) : Z :=
  if op_position a =? op_position b
  then op_timestamp a - op_timestamp b
  else op_position a - op_position b.

Definition by_timestamp (a b : DocumentOperation) : Z :=
  op_timestamp a - op_timestamp b.

Definition is_insert (t : OpType) : bool :=
  match t with Insert => true | _ => false end.

Definition is_delete (t : OpType) : bool :=
  match t with Delete => true | _ => false end.

Definition set_content (op : DocumentOperation) (c : option text) : DocumentOperation :=
  {| op_type := op_type op; op_position := op_position op; op_content := c;
     op_length := op_length op; op_userId := op_userId op;
     op_timestamp := op_timestamp op; op_clientId := op_clientId op;
     op_id := op_id op; op_version := op_version op;
     op_applied := op_applied op |}.

Definition set_length (op : DocumentOperation) (l : option Z) : DocumentOperation :=
  {| op_type := op_type op; op_position := op_position op;
     op_content := op_content op; op_length := l; op_userId := op_userId op;
     op_timestamp := op_timestamp op; op_clientId := op_clientId op;
     op_id := op_id op; op_version := op_version op;
     op_applied := op_applied op |}.

Definition set_applied (op : DocumentOperation) (b : bool) : DocumentOperation :=
  {| op_type := op_type op; op_position := op_position op;
     op_content := op_content op; op_length := op_length op;
     op_userId := op_userId op; op_timestamp := op_timestamp op;
     op_clientId := op_clientId op; op_id := op_id op;
     op_version := op_version op; op_applied := b |}.

Section Merge.

Variable uuidv4 : nat -> string.

(** The [for] loop of [mergeOperations]. *)
Fixpoint merge_loop (merged : list DocumentOperation) (current : DocumentOperation)
    (rest : list DocumentOperation) : Gen (list DocumentOperation) :=
  match rest with
  | [] => gret (merged ++ [current])
  | op :: rest' =>
      if is_insert (op_type current) && is_insert (op_type op)
         && (op_position current + content_length current =? op_position op)
         && String.eqb (op_userId current) (op_userId op)
      then merge_loop merged
             (set_content current
                (Some (content_or_empty current ++ content_or_empty op)))
             rest'
      else if is_delete (op_type current) && is_delete (op_type op)
              && (op_position current =? op_position op)
              && String.eqb (op_userId current) (op_userId op)
      then merge_loop merged
             (set_length current (Some (length_or_0 current + length_or_0 op)))
             rest'
      else c <- clone uuidv4 op ;;;
           merge_loop (merged ++ [current]) c rest'
  end.

(** [EnhancedOTService.mergeOperations(operations)] *)
Definition mergeOperations (operations : list DocumentOperation)
    : Gen MergeResult :=
  match operations with
  | [] => gret MergedNull
  | [op] => gret (MergedOne op)
  | _ =>
      match js_sort by_position_then_timestamp operations with
      | [] => gret MergedNull
      | first :: rest =>
          current <- clone uuidv4 first ;;;
          merged <- merge_loop [] current rest ;;;
          gret (match merged with
                | [m] => MergedOne m
                | _ => MergedMany merged
                end)
      end
  end.

End Merge.

(** ** Documents, sessions and the server's state *)

Record User := mkUser {
  user_id : string;
  user_name : string;
  user_color : string;
  user_avatar : string
}.

Record UserSession := mkSession {
  session_user : User;
  session_documentId : string;
  session_socketId : string
}.

Record Cursor := mkCursor {
  cursor_position : Z;
  cursor_selection : option Z
}.

Record ActiveUser := mkActiveUser {
  au_user : User;
  au_joinedAt : Z;
  au_cursor : Cursor
}.

Record Metadata := mkMetadata {
  createdBy : option string;
  lastModifiedBy : option string;
  wordCount : Z;
  characterCount : Z;
  status : string;
  lastAccessedBy : option string;
  lastAccessedAt : option Z
}.

(** [activeUsers] is a JavaScript [Map]: an association list in insertion
    order. *)
Record Document := mkDocument {
  doc_id : string;
  doc_title : string;
  doc_content : text;
  doc_operations : list DocumentOperation;
  doc_createdAt : Z;
  doc_updatedAt : Z;
  doc_version : Z;
  doc_activeUsers : list (string * ActiveUser);
  doc_metadata : Metadata
}.

Fixpoint Map_set {V} (k : string) (v : V) (m : list (string * V)) : list (string * V) :=
  match m with
  | [] => [(k, v)]
  | (k', v') :: m' =>
      if String.eqb k' k then (k', v) :: m' else (k', v') :: Map_set k v m'
  end.

Definition Map_delete {V} (k : string) (m : list (string * V)) : list (string * V) :=
  filter (fun kv => negb (String.eqb (fst kv) k)) m.

(** Messages a client can receive. *)
Inductive Message :=
  | DocumentState (content : text) (version : Z) (metadata : Metadata)
      (activeUsers : list (string * ActiveUser))
  | OperationImmediate (operation : DocumentOperation) (tempContent : text)
      (user : option UserSession)
  | DocumentSync (content : text) (version : Z)
      (operations : list DocumentOperation) (metadata : Metadata)
  | UserJoined (user : User) (socketId : string)
  | UserLeft (session : UserSession) (socketId : string)
  | UsersUpdated (activeUsers : list (string * ActiveUser))
  | ErrorMessage (message : string).

(** What the server does to the outside, in order. *)
Inductive Effect :=
  | SocketEmit (socketId : string) (m : Message)
  | SocketToRoom (socketId room : string) (m : Message)
  | IoToRoom (room : string) (m : Message)
  | SocketJoin (socketId room : string)
  | ConsoleLog (line : string)
  | ConsoleError (line : string).

Inductive Exn :=
  | SyntaxError
  | IoError
  | TypeError.

(** The directory of snapshots.  One flag stands for every way a write
    can fail. *)
Record FileSystem := mkFs {
  files : gmap string string;
  writable : bool
}.

Record Manager := mkManager {
  documentsDir : string;
  activeDocuments : gmap string Document;
  operationQueues : gmap string (list DocumentOperation);
  debouncedSaves : gmap string nat;
  userSessions : gmap string UserSession
}.

(** [timers] holds the armed [setTimeout] callbacks: handle to
    (documentId, socket id) of the pending [processOperationQueue]. *)
Record World := mkWorld {
  manager : Manager;
  fs : FileSystem;
  timers : gmap nat (string * string);
  next_timer : nat;
  uuid_next : nat;
  trace : list Effect
}.

Definition set_manager (w : World) (m : Manager) : World :=
  {| manager := m; fs := fs w; timers := timers w; next_timer := next_timer w;
     uuid_next := uuid_next w; trace := trace w |}.

Definition set_fs (w : World) (f : FileSystem) : World :=
  {| manager := manager w; fs := f; timers := timers w;
     next_timer := next_timer w; uuid_next := uuid_next w; trace := trace w |}.

Definition set_timers (w : World) (t : gmap nat (string * string)) (n : nat) : World :=
  {| manager := manager w; fs := fs w; timers := t; next_timer := n;
     uuid_next := uuid_next w; trace := trace w |}.

Definition effect (e : Effect) (w : World) : World :=
  {| manager := manager w; fs := fs w; timers := timers w;
     next_timer := next_timer w; uuid_next := uuid_next w;
     trace := trace w ++ [e] |}.

(** Run a computation that draws ids. *)
Definition draw {A} (m : Gen A) (w : World) : A * World :=
  let (a, g) := m (uuid_next w) in
  (a, {| manager := manager w; fs := fs w; timers := timers w;
         next_timer := next_timer w; uuid_next := g; trace := trace w |}).

Definition set_activeDocuments (m : Manager) (d : gmap string Document) : Manager :=
  {| documentsDir := documentsDir m; activeDocuments := d;
     operationQueues := operationQueues m; debouncedSaves := debouncedSaves m;
     userSessions := userSessions m |}.

Definition set_operationQueues (m : Manager)
    (q : gmap string (list DocumentOperation)) : Manager :=
  {| documentsDir := documentsDir m; activeDocuments := activeDocuments m;
     operationQueues := q; debouncedSaves := debouncedSaves m;
     userSessions := userSessions m |}.

Definition set_debouncedSaves (m : Manager) (d : gmap string nat) : Manager :=
  {| documentsDir := documentsDir m; activeDocuments := activeDocuments m;
     operationQueues := operationQueues m; debouncedSaves := d;
     userSessions := userSessions m |}.

Definition set_userSessions (m : Manager) (u : gmap string UserSession) : Manager :=
  {| documentsDir := documentsDir m; activeDocuments := activeDocuments m;
     operationQueues := operationQueues m; debouncedSaves := debouncedSaves m;
     userSessions := u |}.

(** The document object stored under [key], written back after a mutation
    in place. *)
Definition store_document (key : string) (d : Document) (w : World) : World :=
  set_manager w
    (set_activeDocuments (manager w) (<[key := d]> (activeDocuments (manager w)))).

(** White space of [\s] and of [trim()] among 8-bit code units. *)
Definition is_space (c : ascii) : bool :=
  let n := N_of_ascii c in
  ((9 <=? n) && (n <=? 13) || (n =? 32) || (n =? 160))%N.

(** [content.split(/\s+/).filter(word => word.length > 0).length]: the
    number of maximal runs of non-space code units. *)
Fixpoint count_words (in_word : bool) (s : text) : Z :=
  match s with
  | [] => 0
  | c :: s' =>
      if is_space c then count_words false s'
      else (if in_word then 0 else 1) + count_words true s'
  end.

(** [path.join(documentsDir, `${docId}.json`)] *)
Definition file_path (dir docId : string) : string :=
  (dir +:+ "/" +:+ docId +:+ ".json")%string.

(** A value returned or an exception thrown. *)
Inductive Result (A : Type) :=
  | Ok (a : A)
  | Throw (e : Exn).
Arguments Ok {A} a.
Arguments Throw {A} e.

(** The socket.io server object [io]; [processOperationQueue] is also
    called with [null] in its place. *)
Inductive Server := IoServer.

(** The [Map] from user id to that user's queued operations, in the order
    of first appearance. *)
Fixpoint group_push (op : DocumentOperation)
    (groups : list (string * list DocumentOperation))
    : list (string * list DocumentOperation) :=
  match groups with
  | [] => [(op_userId op, [op])]
  | (u, ops) :: rest =>
      if String.eqb u (op_userId op) then (u, ops ++ [op]) :: rest
      else (u, ops) :: group_push op rest
  end.

Definition operationsByUser (queue : list DocumentOperation)
    : list (string * list DocumentOperation) :=
  fold_left (fun groups op => group_push op groups) queue [].

(** [array.slice(-10)] *)
Definition last_10 {A} (l : list A) : list A := drop (length l - 10)%nat l.

Section Engine.

Variable uuidv4 : nat -> string.
Variable JSON_parse : string -> option Document.
Variable JSON_stringify : Document -> Z -> string.

Definition uuid : Gen string := fun g => (uuidv4 g, S g).

(** [saveDocument(document)]: write [<id>.json.tmp], rename it to
    [<id>.json]; on failure log, remove the temporary file and rethrow. *)
Definition saveDocument (document : Document) (now : Z) (w : World)
    : option Exn * World :=
  let filePath := file_path (documentsDir (manager w)) (doc_id document) in
  let tempFilePath := (filePath +:+ ".tmp")%string in
  if writable (fs w) then
    let w1 := set_fs w
      {| files := <[filePath := JSON_stringify document now]>
                    (delete tempFilePath (files (fs w)));
         writable := true |} in
    (None,
     effect (ConsoleLog ("Document " +:+ doc_id document +:+ " saved successfully")) w1)
  else
    let w1 := effect (ConsoleError "Error saving document:") w in
    (Some IoError,
     set_fs w1 {| files := delete tempFilePath (files (fs w1)); writable := false |}).

(** [createDocument(title, userId)] *)
Definition createDocument (title : option string) (userId : option string)
    (now : Z) (w : World) : Result Document * World :=
  let (docId, w1) := draw uuid w in
  let document :=
    {| doc_id := docId;
       doc_title := default "Untitled Document"%string title;
       doc_content := [];
       doc_operations := [];
       doc_createdAt := now;
       doc_updatedAt := now;
       doc_version := 1;
       doc_activeUsers := [];
       doc_metadata :=
         {| createdBy := userId; lastModifiedBy := userId; wordCount := 0;
            characterCount := 0; status := "draft";
            lastAccessedBy := None; lastAccessedAt := None |} |} in
  match saveDocument document now w1 with
  | (Some e, w2) => (Throw e, w2)
  | (None, w2) =>
      let m := manager w2 in
      (Ok document,
       set_manager w2
         (set_operationQueues
            (set_activeDocuments m (<[docId := document]> (activeDocuments m)))
            (<[docId := []]> (operationQueues m))))
  end.

(** [return await this.createDocument(`Document ${docId}`, null)].  The
    document object lives in [activeDocuments] under its own id, and the
    model returns that key with it. *)
Definition create_for (docId : string) (now : Z) (w : World)
    : Result (option (string * Document)) * World :=
  match createDocument (Some ("Document " +:+ docId)) None now w with
  | (Ok d, w1) => (Ok (Some (doc_id d, d)), w1)
  | (Throw e, w1) => (Throw e, w1)
  end.

(** The [catch] block of [loadDocument]. *)
Definition loadDocument_catch (docId : string) (e : Exn) (now : Z) (w : World)
    : Result (option (string * Document)) * World :=
  let w1 := effect (ConsoleError "Error loading document:") w in
  match e with
  | SyntaxError =>
      create_for docId now
        (effect (ConsoleLog ("Invalid JSON in document " +:+ docId
                             +:+ ", creating new document")) w1)
  | _ => (Ok None, w1)
  end.

(** A call of [create_for] inside the [try] block. *)
Definition create_in_try (docId : string) (now : Z) (w : World)
    : Result (option (string * Document)) * World :=
  match create_for docId now w with
  | (Throw e, w1) => loadDocument_catch docId e now w1
  | r => r
  end.

(** [loadDocument(docId)]: the document object it returns, with the key of
    [activeDocuments] that holds this object. *)
Definition loadDocument (docId : string) (now : Z) (w : World)
    : Result (option (string * Document)) * World :=
  match activeDocuments (manager w) !! docId with
  | Some d => (Ok (Some (docId, d)), w)
  | None =>
      match files (fs w) !! file_path (documentsDir (manager w)) docId with
      | None =>
          create_in_try docId now
            (effect (ConsoleLog ("Document " +:+ docId
                                 +:+ " not found, creating new document")) w)
      | Some data =>
          if forallb is_space (list_ascii_of_string data) then
            create_in_try docId now
              (effect (ConsoleLog ("Document " +:+ docId
                                   +:+ " is empty, creating new document")) w)
          else
            match JSON_parse data with
            | None => loadDocument_catch docId SyntaxError now w
            | Some document =>
                let m := manager w in
                let queues :=
                  match operationQueues m !! docId with
                  | Some _ => operationQueues m
                  | None => <[docId := []]> (operationQueues m)
                  end in
                (Ok (Some (docId, document)),
                 set_manager w
                   (set_operationQueues
                      (set_activeDocuments m
                         (<[docId := document]> (activeDocuments m)))
                      queues))
            end
      end
  end.

(** [applyOperationImmediate(document, operation, socket, io)] *)
Definition applyOperationImmediate (document : Document)
    (operation : DocumentOperation) (socket : string) (w : World)
    : option DocumentOperation * World :=
  let recentOps := last_10 (doc_operations document) in
  let (transformedOp, w1) :=
    draw (transformAgainstOperations uuidv4 operation recentOps) w in
  match transformedOp with
  | None => (None, w1)
  | Some t =>
      let tempContent := applyOperation (doc_content document) (Some t) in
      (Some t,
       effect (SocketToRoom socket (doc_id document)
                 (OperationImmediate t tempContent
                    (userSessions (manager w1) !! socket))) w1)
  end.

(** [queueOperation(documentId, operation, socket, io)] *)
Definition queueOperation (documentId : string) (operation : DocumentOperation)
    (socket : string) (w : World) : option DocumentOperation * World :=
  match activeDocuments (manager w) !! documentId with
  | None => (None, effect (ConsoleError "Document not found:") w)
  | Some document =>
      let m := manager w in
      let queue := default [] (operationQueues m !! documentId) in
      let m1 := set_operationQueues m
                  (<[documentId := queue ++ [operation]]> (operationQueues m)) in
      let cleared :=
        match debouncedSaves m1 !! documentId with
        | Some h => delete h (timers w)
        | None => timers w
        end in
      let timeout := next_timer w in
      let w1 :=
        set_timers
          (set_manager w
             (set_debouncedSaves m1 (<[documentId := timeout]> (debouncedSaves m1))))
          (<[timeout := (documentId, socket)]> cleared) (S timeout) in
      applyOperationImmediate document operation socket w1
  end.

(** The body of [for (const [userId, userOps] of operationsByUser)]. *)
Fixpoint merge_groups (groups : list (string * list DocumentOperation))
    (processedOperations : list DocumentOperation)
    : Gen (list DocumentOperation) :=
  match groups with
  | [] => gret processedOperations
  | (_, userOps) :: rest =>
      merged <- mergeOperations uuidv4 userOps ;;;
      merge_groups rest
        (match merged with
         | MergedMany ops => processedOperations ++ ops
         | MergedOne op => processedOperations ++ [op]
         | MergedNull => processedOperations
         end)
  end.

(** The state of [for (const operation of processedOperations)]:
    [currentContent], [appliedOperations] and [document.operations]. *)
Record Applying := mkApplying {
  currentContent : text;
  appliedOperations : list DocumentOperation;
  documentOperations : list DocumentOperation
}.

Fixpoint apply_queue (processedOperations : list DocumentOperation)
    (a : Applying) : Gen Applying :=
  match processedOperations with
  | [] => gret a
  | operation :: rest =>
      transformedOp <-
        transformAgainstOperations uuidv4 operation (appliedOperations a) ;;;
      match transformedOp with
      | Some t =>
          let t' := set_applied t true in
          apply_queue rest
            {| currentContent := applyOperation (currentContent a) (Some t);
               appliedOperations := appliedOperations a ++ [t'];
               documentOperations := documentOperations a ++ [t'] |}
      | None => apply_queue rest a
      end
  end.

Definition set_wordCount_characterCount (md : Metadata) (words chars : Z)
    : Metadata :=
  {| createdBy := createdBy md; lastModifiedBy := lastModifiedBy md;
     wordCount := words; characterCount := chars; status := status md;
     lastAccessedBy := lastAccessedBy md; lastAccessedAt := lastAccessedAt md |}.

(** The document as the [try] block of [processOperationQueue] leaves it
    before saving. *)
Definition flushed (document : Document) (a : Applying) (now : Z) : Document :=
  {| doc_id := doc_id document;
     doc_title := doc_title document;
     doc_content := currentContent a;
     doc_operations := documentOperations a;
     doc_createdAt := doc_createdAt document;
     doc_updatedAt := now;
     doc_version := doc_version document + 1;
     doc_activeUsers := doc_activeUsers document;
     doc_metadata :=
       set_wordCount_characterCount (doc_metadata document)
         (count_words false (currentContent a))
         (text_length (currentContent a)) |}.

(** The transformed batch of a queue: group, merge, sort, apply. *)
Definition run_queue (document : Document) (queue : list DocumentOperation)
    : Gen Applying :=
  processedOperations <- merge_groups (operationsByUser queue) [] ;;;
  apply_queue (js_sort by_timestamp processedOperations)
    {| currentContent := doc_content document;
       appliedOperations := [];
       documentOperations := doc_operations document |}.

(** [processOperationQueue(documentId, socket, io)] *)
Definition processOperationQueue (documentId : string) (socket : option string)
    (io : option Server) (now : Z) (w : World) : World :=
  match activeDocuments (manager w) !! documentId with
  | None => w
  | Some document =>
      match default [] (operationQueues (manager w) !! documentId) with
      | [] => w
      | queue =>
          let w1 := effect (ConsoleLog "Processing queued operations") w in
          let (a, w2) := draw (run_queue document queue) w1 in
          let document' := flushed document a now in
          let w3 := store_document documentId document' w2 in
          match saveDocument document' now w3 with
          | (Some _, w4) =>
              effect (ConsoleError "Error processing operation queue:") w4
          | (None, w4) =>
              match io with
              | None =>
                  effect (ConsoleError "Error processing operation queue:") w4
              | Some _ =>
                  let w5 :=
                    effect (IoToRoom documentId
                              (DocumentSync (doc_content document')
                                 (doc_version document') (appliedOperations a)
                                 (doc_metadata document'))) w4 in
                  let m := manager w5 in
                  set_manager w5
                    (set_debouncedSaves
                       (set_operationQueues m
                          (<[documentId := []]> (operationQueues m)))
                       (delete documentId (debouncedSaves m)))
              end
          end
      end
  end.

(** The [setTimeout] callback of [queueOperation] firing. *)
Definition fire_timer (h : nat) (now : Z) (w : World) : World :=
  match timers w !! h with
  | None => w
  | Some (documentId, socket) =>
      processOperationQueue documentId (Some socket) (Some IoServer) now
        (set_timers w (delete h (timers w)) (next_timer w))
  end.

Definition set_presence (document : Document)
    (users : list (string * ActiveUser)) (md : Metadata) : Document :=
  {| doc_id := doc_id document; doc_title := doc_title document;
     doc_content := doc_content document;
     doc_operations := doc_operations document;
     doc_createdAt := doc_createdAt document;
     doc_updatedAt := doc_updatedAt document;
     doc_version := doc_version document;
     doc_activeUsers := users; doc_metadata := md |}.

Definition set_lastAccessed (md : Metadata) (by_ : string) (at_ : Z) : Metadata :=
  {| createdBy := createdBy md; lastModifiedBy := lastModifiedBy md;
     wordCount := wordCount md; characterCount := characterCount md;
     status := status md; lastAccessedBy := Some by_;
     lastAccessedAt := Some at_ |}.

(** [addUserToDocument(documentId, socketId, user)] *)
Definition addUserToDocument (documentId socketId : string) (user : User)
    (now : Z) (w : World) : Result (option (string * Document)) * World :=
  match loadDocument documentId now w with
  | (Throw e, w1) => (Throw e, w1)
  | (Ok None, w1) => (Ok None, w1)
  | (Ok (Some (key, document)), w1) =>
      let m := manager w1 in
      let w2 :=
        set_manager w1
          (set_userSessions m
             (<[socketId := {| session_user := user;
                               session_documentId := documentId;
                               session_socketId := socketId |}]>
                (userSessions m))) in
      let document' :=
        set_presence document
          (Map_set socketId
             {| au_user := user; au_joinedAt := now;
                au_cursor := {| cursor_position := 0; cursor_selection := None |} |}
             (doc_activeUsers document))
          (set_lastAccessed (doc_metadata document) (user_id user) now) in
      let w3 := store_document key document' w2 in
      match saveDocument document' now w3 with
      | (Some e, w4) => (Throw e, w4)
      | (None, w4) => (Ok (Some (key, document')), w4)
      end
  end.

(** [removeUserFromDocument(documentId, socketId)] *)
Definition removeUserFromDocument (documentId socketId : string) (now : Z)
    (w : World) : option Exn * World :=
  match activeDocuments (manager w) !! documentId with
  | None => (None, w)
  | Some document =>
      let w1 :=
        store_document documentId
          (set_presence document
             (Map_delete socketId (doc_activeUsers document))
             (doc_metadata document)) w in
      let w2 :=
        set_manager w1
          (set_userSessions (manager w1)
             (delete socketId (userSessions (manager w1)))) in
      let queue := default [] (operationQueues (manager w2) !! documentId) in
      let userSession := userSessions (manager w2) !! socketId in
      let w3 :=
        match userSession with
        | Some us =>
            if existsb
                 (fun op => String.eqb (op_userId op) (user_id (session_user us)))
                 queue
            then
              match debouncedSaves (manager w2) !! documentId with
              | Some h =>
                  processOperationQueue documentId None None now
                    (set_manager
                       (set_timers w2 (delete h (timers w2)) (next_timer w2))
                       (set_debouncedSaves (manager w2)
                          (delete documentId (debouncedSaves (manager w2)))))
              | None => w2
              end
            else w2
        | None => w2
        end in
      match activeDocuments (manager w3) !! documentId with
      | Some d => saveDocument d now w3
      | None => (None, w3)
      end
  end.

(** The name and colour tables of [generateDummyUser]. *)
Definition names : list string :=
  ["Alice"; "Bob"; "Charlie"; "Diana"; "Eve"; "Frank"; "Grace"; "Henry"]%string.

Definition colors : list string :=
  ["#FF6B6B"; "#4ECDC4"; "#45B7D1"; "#96CEB4"; "#FFEAA7"; "#DDA0DD";
   "#98D8C8"; "#F7DC6F"]%string.

(** [generateDummyUser()], the two random indices being [i] and [j]. *)
Definition generateDummyUser (i j : nat) : Gen User :=
  let name := nth (i mod 8)%nat names ""%string in
  let color := nth (j mod 8)%nat colors ""%string in
  id <- uuid ;;;
  gret {| user_id := id; user_name := name; user_color := color;
          user_avatar := String.substring 0 1 name |}.

(** [socket.on('join-document', ...)] *)
Definition on_join_document (socket documentId : string) (i j : nat) (now : Z)
    (w : World) : World :=
  let (user, w1) := draw (generateDummyUser i j) w in
  match addUserToDocument documentId socket user now w1 with
  | (Throw _, w2) =>
      effect (SocketEmit socket (ErrorMessage "Failed to join document"))
        (effect (ConsoleError "Error joining document:") w2)
  | (Ok None, w2) =>
      effect (SocketEmit socket (ErrorMessage "Document not found")) w2
  | (Ok (Some (_, document)), w2) =>
      let w3 := effect (SocketJoin socket documentId) w2 in
      let w4 :=
        effect (SocketEmit socket
                  (DocumentState (doc_content document) (doc_version document)
                     (doc_metadata document) (doc_activeUsers document))) w3 in
      let w5 := effect (SocketToRoom socket documentId (UserJoined user socket)) w4 in
      let w6 :=
        effect (IoToRoom documentId (UsersUpdated (doc_activeUsers document))) w5 in
      effect (ConsoleLog "User joined document") w6
  end.

(** The [operation] field of an inbound [operation] message. *)
Record WireOperation := mkWire {
  wire_type : string;
  wire_position : Z;
  wire_content : option text;
  wire_length : option Z
}.

(** [socket.on('operation', ...)] on a message whose [operation] field is
    present: nothing in the [try] block throws. *)
Definition on_operation (socket documentId : string) (operation : WireOperation)
    (now : Z) (w : World) : World :=
  match userSessions (manager w) !! socket with
  | None => w
  | Some userSession =>
      let (op, w1) :=
        draw (new_DocumentOperation uuidv4
                (OpType_of_string (wire_type operation))
                (wire_position operation) (wire_content operation)
                (wire_length operation) (user_id (session_user userSession))
                now (Some socket)) w in
      match queueOperation documentId op socket w1 with
      | (Some _, w2) => effect (ConsoleLog "Operation queued") w2
      | (None, w2) => w2
      end
  end.

(** [socket.on('operation', ...)] on any message [{ documentId, operation }].
    [operation] is [None] when the message has no [operation] field: reading
    [operation.type] then throws a [TypeError] inside the [try] block, and the
    [catch] logs it and reports to the sender. *)
Definition on_operation_message (socket documentId : string)
    (operation : option WireOperation) (now : Z) (w : World) : World :=
  match userSessions (manager w) !! socket with
  | None => w
  | Some _ =>
      match operation with
      | Some operation => on_operation socket documentId operation now w
      | None =>
          let w1 := effect (ConsoleError "Error processing operation:") w in
          effect (SocketEmit socket (ErrorMessage "Failed to process operation")) w1
      end
  end.

(** [socket.on('disconnect', ...)] *)
Definition on_disconnect (socket : string) (now : Z) (w : World) : World :=
  match userSessions (manager w) !! socket with
  | None => effect (ConsoleLog "Unknown user disconnected") w
  | Some userSession =>
      let documentId := session_documentId userSession in
      match removeUserFromDocument documentId socket now w with
      | (Some _, w1) => effect (ConsoleError "Error handling user disconnect:") w1
      | (None, w1) =>
          let w2 :=
            effect (SocketToRoom socket documentId (UserLeft userSession socket)) w1 in
          let w3 :=
            match activeDocuments (manager w2) !! documentId with
            | Some document =>
                effect (IoToRoom documentId
                          (UsersUpdated (doc_activeUsers document))) w2
            | None => w2
            end in
          effect (ConsoleLog "User disconnected from document") w3
      end
  end.

End Engine.

(** The server at start-up: nothing in memory, an empty directory. *)
Definition initial_world (dir : string) : World :=
  {| manager := {| documentsDir := dir; activeDocuments := ∅;
                   operationQueues := ∅; debouncedSaves := ∅;
                   userSessions := ∅ |};
     fs := {| files := ∅; writable := true |};
     timers := ∅; next_timer := 0%nat; uuid_next := 0%nat; trace := [] |}.

(** * Properties *)

(** A generator and an input used by the closed examples below. *)
Definition demo_uuid (n : nat) : string := ("uuid-" +:+ pretty n)%string.

Definition demo_op (type : OpType) (position : Z) (content : option text)
    (length : option Z) (userId : string) (timestamp : Z) (id : string)
    : DocumentOperation :=
  {| op_type := type; op_position := position; op_content := content;
     op_length := length; op_userId := userId; op_timestamp := timestamp;
     op_clientId := None; op_id := id; op_version := 1; op_applied := false |}.

(** ** Slices inside the text *)

Lemma slice_prefix (s : text) (p : Z) :
  0 <= p <= text_length s -> slice s 0 p = take (Z.to_nat p) s.
Proof.
  intros Hp. unfold slice, clamp_index, text_length in *.
  destruct (Z.ltb_spec p 0); [lia|]. simpl.
  rewrite Z.min_l by lia. rewrite Z.min_l by lia. simpl.
  rewrite drop_0. f_equal. lia.
Qed.

Lemma slice_from_suffix (s : text) (p : Z) :
  0 <= p <= text_length s -> slice_from s p = drop (Z.to_nat p) s.
Proof.
  intros Hp. unfold slice_from, clamp_index, text_length in *.
  destruct (Z.ltb_spec p 0); [lia|]. rewrite Z.min_l by lia. reflexivity.
Qed.

(** Replacing [l] code units at offset [p] by [c]. *)
Definition splice (p l : nat) (c s : text) : text :=
  take p s ++ c ++ drop (p + l) s.

Lemma splice_app3 (p l : nat) (c x y z : text) :
  length x = p -> length y = l -> splice p l c (x ++ y ++ z) = x ++ c ++ z.
Proof.
  intros Hx Hy. unfold splice.
  rewrite take_app_length' by done.
  rewrite (app_assoc x y z).
  rewrite drop_app_length' by (rewrite length_app; lia).
  reflexivity.
Qed.

Lemma length_splice (p l : nat) (c s : text) :
  (p + l <= length s)%nat ->
  length (splice p l c s) = (length s - l + length c)%nat.
Proof.
  intros H. unfold splice.
  rewrite !length_app, length_take, length_drop. lia.
Qed.

(** Two splices on disjoint ranges commute once the later one is shifted by
    the net change of the earlier one. *)
Lemma splice_commute (p1 l1 p2 l2 : nat) (c1 c2 s : text) :
  (p1 + l1 <= p2)%nat -> (p2 + l2 <= length s)%nat ->
  splice (p2 - l1 + length c1) l2 c2 (splice p1 l1 c1 s)
  = splice p1 l1 c1 (splice p2 l2 c2 s).
Proof.
  intros H1 H2.
  set (A := take p1 s).
  set (B := take l1 (drop p1 s)).
  set (C := take (p2 - (p1 + l1)) (drop (p1 + l1) s)).
  set (D := take l2 (drop p2 s)).
  set (E := drop (p2 + l2) s).
  assert (Hs : s = A ++ B ++ C ++ D ++ E).
  { subst A B C D E.
    rewrite <- (take_drop p1 s) at 1. f_equal.
    rewrite <- (take_drop l1 (drop p1 s)) at 1. f_equal.
    rewrite drop_drop.
    rewrite <- (take_drop (p2 - (p1 + l1)) (drop (p1 + l1) s)) at 1. f_equal.
    rewrite drop_drop. replace (p1 + l1 + (p2 - (p1 + l1)))%nat with p2 by lia.
    rewrite <- (take_drop l2 (drop p2 s)) at 1. f_equal.
    rewrite drop_drop. reflexivity. }
  assert (HA : length A = p1) by (subst A; rewrite length_take; lia).
  assert (HB : length B = l1)
    by (subst B; rewrite length_take, length_drop; lia).
  assert (HC : length C = (p2 - (p1 + l1))%nat)
    by (subst C; rewrite length_take, length_drop; lia).
  assert (HD : length D = l2)
    by (subst D; rewrite length_take, length_drop; lia).
  clearbody A B C D E. subst s.
  rewrite (splice_app3 p1 l1 c1 A B (C ++ D ++ E)) by done.
  replace (A ++ c1 ++ C ++ D ++ E) with ((A ++ c1 ++ C) ++ D ++ E)
    by (rewrite <- !app_assoc; reflexivity).
  rewrite (splice_app3 _ l2 c2 (A ++ c1 ++ C) D E)
    by (rewrite ?length_app; lia).
  replace (A ++ B ++ C ++ D ++ E) with ((A ++ B ++ C) ++ D ++ E)
    by (rewrite <- !app_assoc; reflexivity).
  rewrite (splice_app3 p2 l2 c2 (A ++ B ++ C) D E)
    by (rewrite ?length_app; lia).
  rewrite <- !app_assoc.
  rewrite (splice_app3 p1 l1 c1 A B (C ++ c2 ++ E)) by done.
  reflexivity.
Qed.

(** ** Operations as splices *)

(** The span an operation removes and the text it puts in its place. *)
Definition span_length (op : DocumentOperation) : Z :=
  match op_type op with
  | Delete | Replace => length_or_0 op
  | _ => 0
  end.

Definition inserted (op : DocumentOperation) : text :=
  match op_type op with
  | Insert | Replace => content_or_empty op
  | _ => []
  end.

Definition edits (op : DocumentOperation) : bool :=
  match op_type op with
  | Insert | Delete | Replace => true
  | _ => false
  end.

(** [op] lies inside [s]. *)
Definition in_bounds (s : text) (op : DocumentOperation) : Prop :=
  edits op = true ->
  0 <= op_position op /\ 0 <= span_length op
  /\ op_position op + span_length op <= text_length s.

Lemma applyOperation_splice (s : text) (op : DocumentOperation) :
  op_applied op = false -> edits op = true ->
  0 <= op_position op -> 0 <= span_length op ->
  op_position op + span_length op <= text_length s ->
  applyOperation s (Some op)
  = splice (Z.to_nat (op_position op)) (Z.to_nat (span_length op))
      (inserted op) s.
Proof.
  intros Ha He Hp Hl Hb. unfold applyOperation, splice, span_length, inserted,
    edits in *.
  rewrite Ha. destruct (op_type op); try discriminate.
  - rewrite slice_prefix, slice_from_suffix by lia.
    do 3 f_equal. lia.
  - rewrite slice_prefix, slice_from_suffix by lia.
    simpl. do 2 f_equal. lia.
  - rewrite slice_prefix, slice_from_suffix by lia.
    do 3 f_equal. lia.
Qed.

Lemma applyOperation_no_edit (s : text) (op : DocumentOperation) :
  edits op = false -> applyOperation s (Some op) = s.
Proof.
  unfold edits, applyOperation. destruct (op_applied op); [done|].
  destruct (op_type op); done.
Qed.

(** ** Convergence of a transformed pair *)

(** The convergence equation for [transform(a, b, true)] on [s], when the
    generator stands at [g]: [a] then [b'] against [b] then [a']. *)
Definition TP1_at (uuidv4 : nat -> string) (s : text)
    (a b : DocumentOperation) (g : nat) : Prop :=
  let r := fst (transform uuidv4 a b true g) in
  applyOperation (applyOperation s (Some a)) (snd r)
  = applyOperation (applyOperation s (Some b)) (fst r).

(** The ranges of two editing operations do not overlap: one ends at or
    before the position of the other (the range of an insert is empty). *)
Definition disjoint (a b : DocumentOperation) : Prop :=
  edits a = true -> edits b = true ->
  op_position a + span_length a <= op_position b
  \/ op_position b + span_length b <= op_position a.

Lemma shifted_commute (s : text) (x y y' : DocumentOperation) :
  op_applied x = false -> op_applied y = false -> op_applied y' = false ->
  edits x = true -> edits y = true ->
  op_type y' = op_type y -> op_content y' = op_content y ->
  op_length y' = op_length y ->
  0 <= op_position x -> 0 <= span_length x -> 0 <= span_length y ->
  op_position x + span_length x <= op_position y ->
  op_position y + span_length y <= text_length s ->
  op_position y' = op_position y - span_length x + text_length (inserted x) ->
  applyOperation (applyOperation s (Some x)) (Some y')
  = applyOperation (applyOperation s (Some y)) (Some x).
Proof.
  intros Hax Hay Hay' Hex Hey Ht Hc Hl Hpx Hlx Hly Hxy Hys Hq.
  assert (Hsp : span_length y' = span_length y)
    by (unfold span_length, length_or_0; rewrite Ht, Hl; reflexivity).
  assert (Hin : inserted y' = inserted y)
    by (unfold inserted, content_or_empty; rewrite Ht, Hc; reflexivity).
  assert (Hey' : edits y' = true) by (unfold edits in *; rewrite Ht; exact Hey).
  unfold text_length in *.
  rewrite (applyOperation_splice s x) by (unfold text_length; first [done | lia]).
  rewrite (applyOperation_splice s y) by (unfold text_length; first [done | lia]).
  rewrite (applyOperation_splice _ y');
    [ | done | done | lia | lia
      | unfold text_length; rewrite length_splice by lia; lia ].
  rewrite (applyOperation_splice _ x);
    [ | done | done | lia | lia
      | unfold text_length; rewrite length_splice by lia; lia ].
  rewrite Hsp, Hin.
  replace (Z.to_nat (op_position y'))
    with (Z.to_nat (op_position y) - Z.to_nat (span_length x)
          + length (inserted x))%nat by lia.
  apply splice_commute; lia.
Qed.

Section Convergence.

Variable uuidv4 : nat -> string.

Ltac bounds_of H :=
  let P := fresh "Hp" in
  let L := fresh "Hl" in
  let B := fresh "Hb" in
  destruct H as (P & L & B); [reflexivity|].

Ltac shifted :=
  cbn [fst snd gret gbind moved resized new_DocumentOperation];
  first
    [ apply shifted_commute
    | symmetry; apply shifted_commute ];
  cbn;
  unfold span_length, inserted, edits, content_length, content_or_empty,
    length_or_0, text_length in *;
  cbn in *;
  repeat match goal with
         | H : op_type _ = _ |- _ => rewrite H in *
         end;
  cbn in *;
  first [ done | lia | (repeat case_match; simplify_eq; cbn in *; lia) ].

(** C1 (amended) -- a transformed pair converges on [s] when the two
    operations have distinct ids, neither is already applied, each editing
    operation lies inside [s] and their ranges do not overlap. *)
Theorem TP1_disjoint (s : text) (a b : DocumentOperation) (g : nat) :
  op_id a <> op_id b ->
  op_applied a = false -> op_applied b = false ->
  in_bounds s a -> in_bounds s b -> disjoint a b ->
  TP1_at uuidv4 s a b g.
Proof.
  intros Hid Haa Hab Hia Hib Hd.
  unfold TP1_at, transform.
  destruct (String.eqb_spec (op_id a) (op_id b)) as [|_]; [done|].
  unfold in_bounds, disjoint in *.
  destruct (op_type a) eqn:Ta, (op_type b) eqn:Tb;
    cbn [fst snd gret];
    try (rewrite !(applyOperation_no_edit _ a)
           by (unfold edits; rewrite Ta; reflexivity); reflexivity);
    try (rewrite !(applyOperation_no_edit _ b)
           by (unfold edits; rewrite Tb; reflexivity); reflexivity).
  all: unfold edits, span_length in Hia, Hib, Hd.
  all: rewrite Ta in Hia, Hd; rewrite Tb in Hib, Hd.
  all: bounds_of Hia; bounds_of Hib.
  all: specialize (Hd eq_refl eq_refl).
  all: unfold transformInsertInsert, transformInsertDelete,
         transformInsertReplace, transformDeleteInsert, transformDeleteDelete,
         transformDeleteReplace, transformReplaceInsert, transformReplaceDelete,
         transformReplaceReplace.
  all: repeat match goal with
              | |- context [Z.leb ?x ?y] => destruct (Z.leb_spec x y)
              | |- context [Z.ltb ?x ?y] => destruct (Z.ltb_spec x y)
              | |- context [Z.geb ?x ?y] =>
                  rewrite (Z.geb_leb x y); destruct (Z.leb_spec y x)
              | |- context [Z.eqb ?x ?y] => destruct (Z.eqb_spec x y)
              end.
  all: try lia.
  all: shifted.
Qed.

End Convergence.

(** Two overlapping replaces: [a] rewrites "ab", [b] rewrites "bc". *)
Definition replace_ab : DocumentOperation :=
  demo_op Replace 0 (Some (txt "X")) (Some 2) "u1" 1 "a".

Definition replace_bc : DocumentOperation :=
  demo_op Replace 1 (Some (txt "Y")) (Some 2) "u2" 2 "b".

(** C1 (as stated) fails: with priority the overlapping replace [b] is
    discarded, so [a] alone gives "Xcd" while [b] then [a] gives "Xd". *)
Lemma TP1_fails_on_overlapping_replaces :
  ~ TP1_at demo_uuid (txt "abcd") replace_ab replace_bc 0.
Proof. unfold TP1_at. vm_compute. discriminate. Qed.

Lemma TP1_disjoint_witness :
  TP1_at demo_uuid (txt "abcdef")
    (demo_op Insert 1 (Some (txt "X")) None "u1" 1 "a")
    (demo_op Delete 3 None (Some 2) "u2" 2 "b") 0.
Proof.
  apply (TP1_disjoint demo_uuid).
  - discriminate.
  - reflexivity.
  - reflexivity.
  - intros _. repeat split; vm_compute; discriminate.
  - intros _. repeat split; vm_compute; discriminate.
  - intros _ _. left. vm_compute. discriminate.
Defined.

(** Each condition of the convergence theorem is needed: the equation
    fails for a pair with one id, for an operation already applied, for
    positions past the end of the text, for an insert inside a deleted
    range and for two overlapping deletes. *)
Definition insert_at (position : Z) (content : string) (id : string)
    : DocumentOperation :=
  demo_op Insert position (Some (txt content)) None "u1" 1 id.

Lemma convergence_needs_its_conditions :
  ~ TP1_at demo_uuid (txt "abcd") (insert_at 0 "X" "a") (insert_at 0 "X" "a") 0
  /\ ~ TP1_at demo_uuid (txt "abcd")
         (set_applied (insert_at 0 "X" "a") true) (insert_at 1 "Y" "b") 0
  /\ ~ TP1_at demo_uuid (txt "ab") (insert_at 5 "X" "a") (insert_at 7 "Y" "b") 0
  /\ ~ TP1_at demo_uuid (txt "ABCDEFGH") (insert_at 4 "*" "a")
         (demo_op Delete 2 None (Some 4) "u2" 2 "b") 0
  /\ ~ TP1_at demo_uuid (txt "0123456789")
         (demo_op Delete 2 None (Some 4) "u1" 300 "a")
         (demo_op Delete 4 None (Some 4) "u2" 301 "b") 0.
Proof. repeat split; unfold TP1_at; vm_compute; discriminate. Qed.

(** ** Application of an absent or already applied operation *)

Definition absent_or_applied (operation : option DocumentOperation) : Prop :=
  match operation with
  | None => True
  | Some op => op_applied op = true
  end.

(** C9 -- [applyOperation] returns the content unchanged for an absent
    operation and for one whose [applied] flag is set, whatever its kind and
    fields; so for such an operation with a non-zero net change
    [|content| - length] the length relation fails. *)
Theorem applyOperation_absent_or_applied (s : text)
    (operation : option DocumentOperation) :
  absent_or_applied operation ->
  applyOperation s operation = s
  /\ forall op, operation = Some op ->
       content_length op - length_or_0 op <> 0 ->
       text_length (applyOperation s operation)
       <> text_length s + content_length op - length_or_0 op.
Proof.
  intros H.
  assert (E : applyOperation s operation = s).
  { destruct operation as [op|]; [|reflexivity].
    simpl in H. unfold applyOperation. rewrite H. reflexivity. }
  split; [exact E|].
  intros op _ Hne. rewrite E. lia.
Qed.

Lemma applyOperation_absent_or_applied_witness :
  applyOperation (txt "abc")
    (Some (set_applied (demo_op Insert 1 (Some (txt "X")) None "u1" 1 "a") true))
  = txt "abc".
Proof.
  exact (proj1 (applyOperation_absent_or_applied (txt "abc")
                  (Some (set_applied
                           (demo_op Insert 1 (Some (txt "X")) None "u1" 1 "a")
                           true))
                  eq_refl)).
Defined.

(** ** Zero-length outputs *)

(** A delete of "de" inside a replace of "cdef". *)
Definition delete_de : DocumentOperation :=
  demo_op Delete 3 None (Some 2) "u1" 1 "a".

Definition replace_cdef : DocumentOperation :=
  demo_op Replace 2 (Some (txt "x")) (Some 4) "u2" 2 "b".

(** C8 -- what the code does on an overlapping delete/replace pair: the
    delete comes back with length 0 instead of being absent, in
    [transformDeleteReplace] and in [transformReplaceDelete] alike. *)
Theorem overlap_with_replace_keeps_zero_length (uuidv4 : nat -> string) (g : nat) :
  fst (transform uuidv4 delete_de replace_cdef false g)
  = (Some {| op_type := Delete; op_position := 3; op_content := None;
             op_length := Some 0; op_userId := "u1"; op_timestamp := 1;
             op_clientId := None; op_id := uuidv4 g; op_version := 1;
             op_applied := false |},
     Some replace_cdef)
  /\ fst (transform uuidv4 replace_cdef delete_de false g)
     = (Some replace_cdef,
        Some {| op_type := Delete; op_position := 2; op_content := None;
                op_length := Some 0; op_userId := "u1"; op_timestamp := 1;
                op_clientId := None; op_id := uuidv4 g; op_version := 1;
                op_applied := false |}).
Proof. split; reflexivity. Qed.

(** The sibling branch: an overlapping delete/delete pair never yields a
    delete of length 0. *)
Lemma transformDeleteDelete_absorbs (uuidv4 : nat -> string)
    (op1 op2 : DocumentOperation) (g : nat) (o : DocumentOperation) :
  op_position op2 < op_position op1 + length_or_0 op1 ->
  op_position op1 < op_position op2 + length_or_0 op2 ->
  fst (fst (transformDeleteDelete uuidv4 op1 op2 g)) = Some o
  \/ snd (fst (transformDeleteDelete uuidv4 op1 op2 g)) = Some o ->
  0 < length_or_0 o.
Proof.
  intros H1 H2. unfold transformDeleteDelete.
  destruct (Z.leb_spec (op_position op1 + length_or_0 op1) (op_position op2));
    [lia|].
  destruct (Z.leb_spec (op_position op2 + length_or_0 op2) (op_position op1));
    [lia|].
  cbn [fst snd gret gbind resized new_DocumentOperation].
  intros [E|E]; revert E;
    match goal with
    | |- context [Z.gtb ?x 0] => destruct (Z.gtb_spec x 0) as [Hgt|Hle]
    end; intros E; simplify_eq; exact Hgt.
Qed.

(** ** Rebuilt operations *)

Section Rebuild.

Variable uuidv4 : nat -> string.

(** [new] is what the constructor makes of [orig] with the [k]-th draw of
    the generator: kind, user, timestamp and client copied, a drawn id,
    version 1, not applied. *)
Definition rebuilt_from (orig new : DocumentOperation) (k : nat) : Prop :=
  op_type new = op_type orig
  /\ op_userId new = op_userId orig
  /\ op_timestamp new = op_timestamp orig
  /\ op_clientId new = op_clientId orig
  /\ op_id new = uuidv4 k
  /\ op_version new = 1
  /\ op_applied new = false.

(** An output of [transform] for the input [orig]: absent, [orig] itself,
    or rebuilt from it with a draw made during the call. *)
Definition output_of (orig : DocumentOperation) (out : option DocumentOperation)
    (g g' : nat) : Prop :=
  match out with
  | None => True
  | Some new =>
      new = orig \/ exists k, (g <= k < g')%nat /\ rebuilt_from orig new k
  end.

Lemma moved_rebuilt (op : DocumentOperation) (q : Z) (g : nat) :
  rebuilt_from op (fst (moved uuidv4 op q g)) g.
Proof. repeat split. Qed.

Lemma resized_rebuilt (op : DocumentOperation) (q l : Z) (g : nat) :
  rebuilt_from op (fst (resized uuidv4 op q l g)) g.
Proof. repeat split. Qed.

Ltac split_comparisons :=
  repeat match goal with
         | |- context [Z.leb ?x ?y] => destruct (Z.leb x y)
         | |- context [Z.ltb ?x ?y] => destruct (Z.ltb x y)
         | |- context [Z.geb ?x ?y] => destruct (Z.geb x y)
         | |- context [Z.gtb ?x ?y] => destruct (Z.gtb x y)
         | |- context [Z.eqb ?x ?y] => destruct (Z.eqb x y)
         | |- context [if ?p then _ else _] => destruct p
         end.

Ltac output_case g :=
  first
    [ exact I
    | left; reflexivity
    | right; exists g; split; [lia | solve [repeat split]]
    | right; exists (S g); split; [lia | solve [repeat split]] ].

Lemma transform_outputs (a b : DocumentOperation) (p : bool) (g : nat) :
  output_of a (fst (fst (transform uuidv4 a b p g))) g
    (snd (transform uuidv4 a b p g))
  /\ output_of b (snd (fst (transform uuidv4 a b p g))) g
       (snd (transform uuidv4 a b p g)).
Proof.
  unfold transform.
  destruct (String.eqb (op_id a) (op_id b)).
  { split; cbn; [left; reflexivity | exact I]. }
  destruct (op_type a), (op_type b);
    try (split; cbn; left; reflexivity);
    unfold transformInsertInsert, transformInsertDelete,
      transformInsertReplace, transformDeleteInsert, transformDeleteDelete,
      transformDeleteReplace, transformReplaceInsert, transformReplaceDelete,
      transformReplaceReplace;
    cbn [andb orb];
    split_comparisons;
    cbn [fst snd gret gbind moved resized new_DocumentOperation];
    unfold output_of;
    split_comparisons;
    (split; output_case g).
Qed.

(** C10 -- an output of [transform] that differs from its input (shifted,
    clamped or re-lengthed) is a newly constructed operation: it copies the
    input's kind, userId, timestamp and clientId, carries an id drawn from
    the generator during the call, version 1 and applied false; when the
    draws differ from the input's id, the equal-id check of [transform] no
    longer relates the output to its original. *)
Theorem transform_rebuilds (a b : DocumentOperation) (p : bool) (g : nat)
    (orig new : DocumentOperation) :
  (forall k, (g <= k < snd (transform uuidv4 a b p g))%nat ->
             uuidv4 k <> op_id orig) ->
  (orig = a /\ fst (fst (transform uuidv4 a b p g)) = Some new)
  \/ (orig = b /\ snd (fst (transform uuidv4 a b p g)) = Some new) ->
  new <> orig ->
  (exists k, (g <= k < snd (transform uuidv4 a b p g))%nat
             /\ rebuilt_from orig new k)
  /\ String.eqb (op_id new) (op_id orig) = false.
Proof.
  intros Hfresh Hout Hne.
  destruct (transform_outputs a b p g) as [Ha Hb].
  assert (Hk : exists k, (g <= k < snd (transform uuidv4 a b p g))%nat
                         /\ rebuilt_from orig new k).
  { destruct Hout as [[-> E]|[-> E]].
    - rewrite E in Ha. destruct Ha as [->|Hk]; [done | exact Hk].
    - rewrite E in Hb. destruct Hb as [->|Hk]; [done | exact Hk]. }
  split; [exact Hk|].
  destruct Hk as (k & Hr & Hb').
  destruct Hb' as (_ & _ & _ & _ & Hid & _).
  apply String.eqb_neq. rewrite Hid. apply Hfresh. exact Hr.
Qed.

End Rebuild.

Lemma demo_uuid_not_short (k : nat) (id : string) :
  (String.length id < 5)%nat -> demo_uuid k <> id.
Proof.
  intros Hlen E. rewrite <- E in Hlen. unfold demo_uuid in Hlen.
  simpl in Hlen. lia.
Qed.

Lemma transform_rebuilds_witness :
  (exists k, (0 <= k < 1)%nat
     /\ rebuilt_from demo_uuid
          (demo_op Insert 5 (Some (txt "Y")) None "u2" 101 "b")
          (fst (moved demo_uuid
                  (demo_op Insert 5 (Some (txt "Y")) None "u2" 101 "b") 6 0%nat))
          k)
  /\ String.eqb
       (op_id (fst (moved demo_uuid
                      (demo_op Insert 5 (Some (txt "Y")) None "u2" 101 "b") 6
                      0%nat)))
       "b" = false.
Proof.
  apply (transform_rebuilds demo_uuid
           (demo_op Insert 5 (Some (txt "X")) None "u1" 100 "a")
           (demo_op Insert 5 (Some (txt "Y")) None "u2" 101 "b")
           true 0%nat).
  - intros k _. apply demo_uuid_not_short. cbn. lia.
  - right. split; reflexivity.
  - discriminate.
Defined.

(** ** The flush *)

Lemma sort_insert_length {A} (cmp : A -> A -> Z) (x : A) (l : list A) :
  length (sort_insert cmp x l) = S (length l).
Proof.
  induction l as [|y l IH]; [reflexivity|].
  simpl. destruct (cmp y x <? 0); simpl; [rewrite IH|]; reflexivity.
Qed.

Lemma js_sort_length {A} (cmp : A -> A -> Z) (l : list A) :
  length (js_sort cmp l) = length l.
Proof.
  induction l as [|x l IH]; [reflexivity|].
  simpl. rewrite sort_insert_length, IH. reflexivity.
Qed.

Lemma js_sort_not_nil {A} (cmp : A -> A -> Z) (l : list A) :
  l <> [] -> js_sort cmp l <> [].
Proof.
  intros Hl E. apply (f_equal length) in E.
  rewrite js_sort_length in E. destruct l; [done | discriminate].
Qed.

Lemma group_push_head (op : DocumentOperation)
    (groups : list (string * list DocumentOperation)) :
  (forall u ops rest, groups = (u, ops) :: rest -> ops <> []) ->
  exists u ops rest, group_push op groups = (u, ops) :: rest /\ ops <> [].
Proof.
  intros H. destruct groups as [|[u ops] rest]; simpl.
  - eexists _, _, _. split; [reflexivity | discriminate].
  - destruct (String.eqb u (op_userId op)).
    + eexists _, _, _. split; [reflexivity|]. intros E.
      apply app_eq_nil in E. destruct E; discriminate.
    + eexists _, _, _. split; [reflexivity|]. eapply H. reflexivity.
Qed.

Lemma operationsByUser_head (queue : list DocumentOperation) :
  queue <> [] ->
  exists u ops rest, operationsByUser queue = (u, ops) :: rest /\ ops <> [].
Proof.
  unfold operationsByUser.
  enough (G : forall acc,
             (acc = [] -> queue <> []) ->
             (forall u ops rest, acc = (u, ops) :: rest -> ops <> []) ->
             exists u ops rest,
               fold_left (fun groups op => group_push op groups) queue acc
               = (u, ops) :: rest /\ ops <> []).
  { intros Hq. apply G; [intros _; exact Hq | discriminate]. }
  induction queue as [|op queue IH]; intros acc Hne Hhead.
  - destruct acc as [|[u ops] rest]; [exfalso; apply Hne; reflexivity|].
    eexists _, _, _. split; [reflexivity|]. eapply Hhead. reflexivity.
  - simpl. destruct (group_push_head op acc Hhead) as (u & ops & rest & E & Hops).
    apply IH.
    + rewrite E. discriminate.
    + intros u' ops' rest' E'. rewrite E in E'. simplify_eq. exact Hops.
Qed.

Section Flush.

Variable uuidv4 : nat -> string.
Variable JSON_parse : string -> option Document.
Variable JSON_stringify : Document -> Z -> string.

Lemma merge_loop_not_nil (rest merged : list DocumentOperation)
    (current : DocumentOperation) (g : nat) :
  fst (merge_loop uuidv4 merged current rest g) <> [].
Proof.
  revert merged current g.
  induction rest as [|op rest IH]; intros merged current g; simpl.
  - intros E. apply app_eq_nil in E. destruct E; discriminate.
  - repeat match goal with
           | |- context [if ?c then _ else _] => destruct c
           end; apply IH.
Qed.

(** What a non-empty group contributes to [processedOperations]. *)
Definition merged_ops (r : MergeResult) : list DocumentOperation :=
  match r with
  | MergedMany ops => ops
  | MergedOne op => [op]
  | MergedNull => []
  end.

Lemma mergeOperations_not_nil (ops : list DocumentOperation) (g : nat) :
  ops <> [] -> merged_ops (fst (mergeOperations uuidv4 ops g)) <> [].
Proof.
  intros Hne. destruct ops as [|a [|b ops]]; [done | discriminate |].
  unfold mergeOperations.
  destruct (js_sort by_position_then_timestamp (a :: b :: ops))
    as [|first rest] eqn:E.
  { exfalso. revert E. apply js_sort_not_nil. discriminate. }
  unfold gbind. destruct (clone uuidv4 first g) as [current g1].
  pose proof (merge_loop_not_nil rest [] current g1) as Hm.
  destruct (merge_loop uuidv4 [] current rest g1) as [merged g2].
  simpl in *. destruct merged as [|m [|m' merged]]; simpl; done.
Qed.

Lemma merge_groups_grows (groups : list (string * list DocumentOperation))
    (acc : list DocumentOperation) (g : nat) :
  acc <> [] -> fst (merge_groups uuidv4 groups acc g) <> [].
Proof.
  revert acc g. induction groups as [|[u ops] groups IH]; intros acc g Hacc.
  - exact Hacc.
  - simpl. unfold gbind. destruct (mergeOperations uuidv4 ops g) as [r g1].
    apply IH. destruct r; try exact Hacc; intros E; apply app_eq_nil in E;
      destruct E; done.
Qed.

Lemma merge_groups_not_nil (u : string) (ops : list DocumentOperation)
    (groups : list (string * list DocumentOperation)) (g : nat) :
  ops <> [] -> fst (merge_groups uuidv4 ((u, ops) :: groups) [] g) <> [].
Proof.
  intros Hops. simpl. unfold gbind.
  pose proof (mergeOperations_not_nil ops g Hops) as Hm.
  destruct (mergeOperations uuidv4 ops g) as [r g1]. simpl in Hm.
  apply merge_groups_grows. destruct r; simpl in *; done.
Qed.

Lemma apply_queue_grows (l : list DocumentOperation) (a : Applying) (g : nat) :
  appliedOperations a <> [] ->
  appliedOperations (fst (apply_queue uuidv4 l a g)) <> [].
Proof.
  revert a g. induction l as [|op l IH]; intros a g Ha; [exact Ha|].
  simpl. unfold gbind.
  destruct (transformAgainstOperations uuidv4 op (appliedOperations a) g)
    as [[t|] g1].
  - apply IH. simpl. intros E. apply app_eq_nil in E. destruct E; discriminate.
  - apply IH. exact Ha.
Qed.

(** The first operation of a batch is transformed against nothing and is
    never absorbed. *)
Lemma apply_queue_not_nil (l : list DocumentOperation) (a : Applying) (g : nat) :
  l <> [] -> appliedOperations a = [] ->
  appliedOperations (fst (apply_queue uuidv4 l a g)) <> [].
Proof.
  intros Hl Ha. destruct l as [|op l]; [done|].
  simpl. rewrite Ha. unfold gbind, transformAgainstOperations, gbind.
  destruct (clone uuidv4 op g) as [c g1]. simpl.
  apply apply_queue_grows. simpl. discriminate.
Qed.

Lemma run_queue_applies (document : Document) (queue : list DocumentOperation)
    (g : nat) :
  queue <> [] -> appliedOperations (fst (run_queue uuidv4 document queue g)) <> [].
Proof.
  intros Hq. unfold run_queue, gbind.
  destruct (operationsByUser_head queue Hq) as (u & ops & rest & E & Hops).
  rewrite E.
  pose proof (merge_groups_not_nil u ops rest g Hops) as Hm.
  destruct (merge_groups uuidv4 ((u, ops) :: rest) [] g) as [processed g1].
  apply apply_queue_not_nil; [|reflexivity].
  apply js_sort_not_nil. exact Hm.
Qed.

Lemma saveDocument_manager (d : Document) (now : Z) (w : World) :
  manager (snd (saveDocument JSON_stringify d now w)) = manager w.
Proof. unfold saveDocument. destruct (writable (fs w)); reflexivity. Qed.

(** The flush of a present document with a non-empty queue, step by step. *)
Lemma processOperationQueue_unfold (documentId : string) (socket : option string)
    (io : option Server) (now : Z) (w : World) (document : Document)
    (queue : list DocumentOperation) :
  activeDocuments (manager w) !! documentId = Some document ->
  operationQueues (manager w) !! documentId = Some queue ->
  queue <> [] ->
  processOperationQueue uuidv4 JSON_stringify documentId socket io now w
  = let w1 := effect (ConsoleLog "Processing queued operations") w in
    let (a, w2) := draw (run_queue uuidv4 document queue) w1 in
    let document' := flushed document a now in
    let w3 := store_document documentId document' w2 in
    match saveDocument JSON_stringify document' now w3 with
    | (Some _, w4) =>
        effect (ConsoleError "Error processing operation queue:") w4
    | (None, w4) =>
        match io with
        | None => effect (ConsoleError "Error processing operation queue:") w4
        | Some _ =>
            let w5 :=
              effect (IoToRoom documentId
                        (DocumentSync (doc_content document')
                           (doc_version document') (appliedOperations a)
                           (doc_metadata document'))) w4 in
            set_manager w5
              (set_debouncedSaves
                 (set_operationQueues (manager w5)
                    (<[documentId := []]> (operationQueues (manager w5))))
                 (delete documentId (debouncedSaves (manager w5))))
        end
    end.
Proof.
  intros Hd Hq Hne. unfold processOperationQueue. rewrite Hd, Hq.
  destruct queue; [done|]. reflexivity.
Qed.

(** After a flush the document in memory is the flushed one, whether or not
    the save and the broadcast went through. *)
Lemma processOperationQueue_document (documentId : string)
    (socket : option string) (io : option Server) (now : Z) (w : World)
    (document : Document) (queue : list DocumentOperation) :
  activeDocuments (manager w) !! documentId = Some document ->
  operationQueues (manager w) !! documentId = Some queue ->
  queue <> [] ->
  activeDocuments
    (manager (processOperationQueue uuidv4 JSON_stringify documentId socket io
                now w)) !! documentId
  = Some (flushed document
            (fst (run_queue uuidv4 document queue (uuid_next w))) now).
Proof.
  intros Hd Hq Hne.
  rewrite (processOperationQueue_unfold _ _ _ _ _ _ _ Hd Hq Hne).
  unfold draw. cbn [effect uuid_next].
  destruct (run_queue uuidv4 document queue (uuid_next w)) as [a g1].
  cbn [fst]. unfold saveDocument.
  cbn [store_document set_manager fs manager effect].
  destruct (writable (fs w)); [destruct io|]; cbn; apply lookup_insert_eq.
Qed.

(** C7 -- a flush of a non-empty queue bumps the version by exactly 1 when
    the list of applied operations is non-empty and leaves it alone when
    that list is empty; the first operation of a batch is never absorbed,
    so the list is never empty and every such flush bumps the version. *)
Theorem flush_bumps_version (documentId : string) (socket : option string)
    (io : option Server) (now : Z) (w : World) (document : Document)
    (queue : list DocumentOperation) :
  activeDocuments (manager w) !! documentId = Some document ->
  operationQueues (manager w) !! documentId = Some queue ->
  queue <> [] ->
  exists document',
    activeDocuments
      (manager (processOperationQueue uuidv4 JSON_stringify documentId socket
                  io now w)) !! documentId = Some document'
    /\ (appliedOperations (fst (run_queue uuidv4 document queue (uuid_next w)))
        <> [] -> doc_version document' = doc_version document + 1)
    /\ (appliedOperations (fst (run_queue uuidv4 document queue (uuid_next w)))
        = [] -> doc_version document' = doc_version document)
    /\ appliedOperations (fst (run_queue uuidv4 document queue (uuid_next w)))
       <> [].
Proof.
  intros Hd Hq Hne. eexists. split.
  { apply (processOperationQueue_document _ _ _ _ _ _ _ Hd Hq Hne). }
  pose proof (run_queue_applies document queue (uuid_next w) Hne) as Happ.
  split; [intros _; reflexivity|].
  split; [intros E; destruct (Happ E) | exact Happ].
Qed.

End Flush.

(** Scenarios A and B of the specification on [run_queue]: two inserts at
    the end of "HELLO", and an insert inside another user's delete. *)
Definition document_with (content : string) : Document :=
  {| doc_id := "D"; doc_title := "Untitled Document"; doc_content := txt content;
     doc_operations := []; doc_createdAt := 0; doc_updatedAt := 0;
     doc_version := 1; doc_activeUsers := [];
     doc_metadata :=
       {| createdBy := None; lastModifiedBy := None; wordCount := 1;
          characterCount := Z.of_nat (String.length content); status := "draft";
          lastAccessedBy := None; lastAccessedAt := None |} |}.

Example scenario_A :
  currentContent
    (fst (run_queue demo_uuid (document_with "HELLO")
            [demo_op Insert 5 (Some (txt "X")) None "u1" 100 "a";
             demo_op Insert 5 (Some (txt "Y")) None "u2" 101 "b"] 0%nat))
  = txt "HELLOXY".
Proof. reflexivity. Qed.

Example scenario_B :
  currentContent
    (fst (run_queue demo_uuid (document_with "ABCDEFGH")
            [demo_op Delete 2 None (Some 4) "u1" 200 "a";
             demo_op Insert 4 (Some (txt "*")) None "u2" 201 "b"] 0%nat))
  = txt "AB*GH".
Proof. reflexivity. Qed.

(** ** A flush whose save fails *)

(** A [document-sync] for [documentId] is among the effects. *)
Definition emitted_sync (documentId : string) (effects : list Effect) : bool :=
  existsb
    (fun e =>
       match e with
       | IoToRoom room (DocumentSync _ _ _ _) => String.eqb room documentId
       | _ => false
       end)
    effects.

(** The effects of a step from [before] to [after]. *)
Definition new_effects (before after : World) : list Effect :=
  drop (length (trace before)) (trace after).

(** The store comes back (or not) between two flushes. *)
Definition set_writable (w : World) (ok : bool) : World :=
  set_fs w {| files := files (fs w); writable := ok |}.

Section FlushFailure.

Variable uuidv4 : nat -> string.
Variable JSON_stringify : Document -> Z -> string.

Lemma new_effects_app (before after : World) (l : list Effect) :
  trace after = trace before ++ l -> new_effects before after = l.
Proof. intros E. unfold new_effects. rewrite E. apply drop_app_length. Qed.

Lemma flush_failure_state (documentId : string) (socket : option string)
    (io : option Server) (now : Z) (w : World) (document : Document)
    (queue : list DocumentOperation) :
  activeDocuments (manager w) !! documentId = Some document ->
  operationQueues (manager w) !! documentId = Some queue ->
  queue <> [] ->
  writable (fs w) = false ->
  let w' := processOperationQueue uuidv4 JSON_stringify documentId socket io
              now w in
  trace w'
  = trace w ++ [ConsoleLog "Processing queued operations";
                ConsoleError "Error saving document:";
                ConsoleError "Error processing operation queue:"]
  /\ operationQueues (manager w') = operationQueues (manager w)
  /\ debouncedSaves (manager w') = debouncedSaves (manager w)
  /\ writable (fs w') = false.
Proof.
  intros Hd Hq Hne Hw. cbv zeta.
  rewrite (processOperationQueue_unfold _ _ _ _ _ _ _ _ _ Hd Hq Hne).
  unfold draw. cbn [effect uuid_next].
  destruct (run_queue uuidv4 document queue (uuid_next w)) as [a g1].
  unfold saveDocument. cbn [store_document set_manager fs manager effect].
  rewrite Hw. cbn. rewrite <- !app_assoc. done.
Qed.

Lemma flush_success_state (documentId : string) (socket : option string)
    (now : Z) (w : World) (document : Document)
    (queue : list DocumentOperation) :
  activeDocuments (manager w) !! documentId = Some document ->
  operationQueues (manager w) !! documentId = Some queue ->
  queue <> [] ->
  writable (fs w) = true ->
  let a := fst (run_queue uuidv4 document queue (uuid_next w)) in
  let w' := processOperationQueue uuidv4 JSON_stringify documentId socket
              (Some IoServer) now w in
  files (fs w') !! file_path (documentsDir (manager w)) (doc_id document)
  = Some (JSON_stringify (flushed document a now) now)
  /\ new_effects w w'
     = [ConsoleLog "Processing queued operations";
        ConsoleLog ("Document " +:+ doc_id document +:+ " saved successfully");
        IoToRoom documentId
          (DocumentSync (currentContent a) (doc_version document + 1)
             (appliedOperations a)
             (doc_metadata (flushed document a now)))]
  /\ operationQueues (manager w') !! documentId = Some [].
Proof.
  intros Hd Hq Hne Hw. cbv zeta.
  rewrite (processOperationQueue_unfold _ _ _ _ _ _ _ _ _ Hd Hq Hne).
  unfold draw. cbn [effect uuid_next].
  destruct (run_queue uuidv4 document queue (uuid_next w)) as [a g1].
  unfold saveDocument. cbn [store_document set_manager fs manager effect].
  rewrite Hw. cbn. split; [apply lookup_insert_eq|].
  split; [|apply lookup_insert_eq].
  apply new_effects_app. cbn. rewrite <- !app_assoc. reflexivity.
Qed.

(** C6 (amended) -- when the save of a flush fails, the failure is only
    logged, the document in memory keeps the flushed content and the bumped
    version, no [document-sync] is emitted for the batch and the batch
    stays queued; the next flush saves again: it logs the failure again
    while the store keeps failing, and once the store is back it writes the
    document then in memory and emits the [document-sync]. *)
Theorem flush_save_failure (documentId : string) (socket : option string)
    (io : option Server) (now : Z) (w : World) (document : Document)
    (queue : list DocumentOperation) :
  activeDocuments (manager w) !! documentId = Some document ->
  operationQueues (manager w) !! documentId = Some queue ->
  queue <> [] ->
  writable (fs w) = false ->
  let a := fst (run_queue uuidv4 document queue (uuid_next w)) in
  let w' := processOperationQueue uuidv4 JSON_stringify documentId socket io
              now w in
  (exists document',
     activeDocuments (manager w') !! documentId = Some document'
     /\ doc_content document' = currentContent a
     /\ doc_version document' = doc_version document + 1)
  /\ new_effects w w'
     = [ConsoleLog "Processing queued operations";
        ConsoleError "Error saving document:";
        ConsoleError "Error processing operation queue:"]
  /\ emitted_sync documentId (new_effects w w') = false
  /\ operationQueues (manager w') !! documentId = Some queue
  /\ (forall socket2 io2 now2,
        new_effects w'
          (processOperationQueue uuidv4 JSON_stringify documentId socket2 io2
             now2 w')
        = [ConsoleLog "Processing queued operations";
           ConsoleError "Error saving document:";
           ConsoleError "Error processing operation queue:"])
  /\ (forall socket2 now2,
        let w2 := processOperationQueue uuidv4 JSON_stringify documentId
                    socket2 (Some IoServer) now2 (set_writable w' true) in
        exists document2,
          activeDocuments (manager w2) !! documentId = Some document2
          /\ files (fs w2) !! file_path (documentsDir (manager w)) (doc_id document)
             = Some (JSON_stringify document2 now2)
          /\ emitted_sync documentId (new_effects (set_writable w' true) w2)
             = true).
Proof.
  intros Hd Hq Hne Hw. cbv zeta.
  pose proof (processOperationQueue_document uuidv4 JSON_stringify documentId
                socket io now w document queue Hd Hq Hne) as Hdoc.
  destruct (flush_failure_state documentId socket io now w document queue
              Hd Hq Hne Hw) as (Htr & Hqs & _ & Hw').
  set (w' := processOperationQueue uuidv4 JSON_stringify documentId socket io
               now w) in *.
  assert (Hq' : operationQueues (manager w') !! documentId = Some queue)
    by (rewrite Hqs; exact Hq).
  assert (Hdir : documentsDir (manager w') = documentsDir (manager w)).
  { subst w'.
    rewrite (processOperationQueue_unfold _ _ _ _ _ _ _ _ _ Hd Hq Hne).
    unfold draw. cbn [effect uuid_next].
    destruct (run_queue uuidv4 document queue (uuid_next w)) as [a g1].
    unfold saveDocument. cbn [store_document set_manager fs manager effect].
    rewrite Hw. reflexivity. }
  split; [eexists; split; [exact Hdoc | split; reflexivity]|].
  split; [apply new_effects_app; exact Htr|].
  split; [rewrite (new_effects_app _ _ _ Htr); reflexivity|].
  split; [exact Hq'|].
  split.
  - intros socket2 io2 now2. apply new_effects_app.
    apply (flush_failure_state documentId socket2 io2 now2 w' _ queue
             Hdoc Hq' Hne Hw').
  - intros socket2 now2.
    destruct (flush_success_state documentId socket2 now2 (set_writable w' true)
                _ queue Hdoc Hq' Hne eq_refl) as (Hfile & Heff & _).
    eexists. split.
    { apply (processOperationQueue_document uuidv4 JSON_stringify documentId
               socket2 (Some IoServer) now2 (set_writable w' true) _ queue
               Hdoc Hq' Hne). }
    split.
    + cbn [set_writable set_fs manager] in Hfile. rewrite Hdir in Hfile.
      exact Hfile.
    + rewrite Heff. cbn. rewrite String.eqb_refl. reflexivity.
Qed.

End FlushFailure.

(** ** A running server

    A snapshot of document "D" holding ten digits is on disk; two sessions
    join it and each sends a delete. *)

Definition demo_stringify (d : Document) (lastSaved : Z) : string :=
  ("snapshot of " +:+ doc_id d +:+ ": "
   +:+ string_of_list_ascii (doc_content d))%string.

Definition digits : Document :=
  {| doc_id := "D"; doc_title := "Digits"; doc_content := txt "0123456789";
     doc_operations := []; doc_createdAt := 0; doc_updatedAt := 0;
     doc_version := 1; doc_activeUsers := [];
     doc_metadata :=
       {| createdBy := None; lastModifiedBy := None; wordCount := 1;
          characterCount := 10; status := "draft"; lastAccessedBy := None;
          lastAccessedAt := None |} |}.

Definition parse_digits (data : string) : option Document := Some digits.

Definition digits_server : World :=
  set_fs (initial_world "/docs")
    {| files := {[ "/docs/D.json"%string := "snapshot of D: 0123456789"%string ]};
       writable := true |}.

Definition two_users : World :=
  on_join_document demo_uuid parse_digits demo_stringify "s2" "D" 1 1 11
    (on_join_document demo_uuid parse_digits demo_stringify "s1" "D" 0 0 10
       digits_server).

Definition wire_delete (position length : Z) : WireOperation :=
  {| wire_type := "delete"; wire_position := position; wire_content := None;
     wire_length := Some length |}.

(** U1 deletes "2345" at time 300, U2 deletes "4567" at time 301. *)
Definition scenarioC_queued : World :=
  on_operation demo_uuid "s2" "D" (wire_delete 4 4) 301
    (on_operation demo_uuid "s1" "D" (wire_delete 2 4) 300 two_users).

(** The debounce timer armed by the second operation fires. *)
Definition scenarioC_flushed : World :=
  fire_timer demo_uuid demo_stringify 1 302 scenarioC_queued.

Definition scenarioC_document : Document :=
  Eval vm_compute in
    default digits (activeDocuments (manager scenarioC_queued) !! "D"%string).

Definition scenarioC_queue : list DocumentOperation :=
  Eval vm_compute in
    default [] (operationQueues (manager scenarioC_queued) !! "D"%string).

(** Kind, position, length and timestamp of an operation. *)
Definition shape (op : DocumentOperation) : OpType * Z * option Z * Z :=
  (op_type op, op_position op, op_length op, op_timestamp op).

Lemma scenarioC_document_eq :
  activeDocuments (manager scenarioC_queued) !! "D"%string
  = Some scenarioC_document.
Proof. vm_compute. reflexivity. Qed.

Lemma scenarioC_queue_eq :
  operationQueues (manager scenarioC_queued) !! "D"%string
  = Some scenarioC_queue.
Proof. vm_compute. reflexivity. Qed.

(** C2 -- the overlapping deletes of scenario C on the code: both deletes
    are queued as sent, neither is absorbed and both sides of the pairwise
    transform keep length 2; but the second delete is applied at its
    untouched position 4 of "016789", so the flush leaves "0167" (in
    memory and in the [document-sync]), not "0189". *)
Theorem scenario_C_leaves_0167 :
  map shape scenarioC_queue
  = [(Delete, 2, Some 4, 300); (Delete, 4, Some 4, 301)]
  /\ (forall g,
        match scenarioC_queue with
        | [U1; U2] =>
            (fmap shape (fst (fst (transform demo_uuid U2 U1 false g))),
             fmap shape (snd (fst (transform demo_uuid U2 U1 false g))))
            = (Some (Delete, 4, Some 2, 301), Some (Delete, 2, Some 2, 300))
        | _ => False
        end)
  /\ fmap doc_content (activeDocuments (manager scenarioC_flushed) !! "D"%string)
     = Some (txt "0167")
  /\ (exists metadata operations,
        last (trace scenarioC_flushed)
        = Some (IoToRoom "D" (DocumentSync (txt "0167") 2 operations metadata))
        /\ map shape operations
           = [(Delete, 2, Some 4, 300); (Delete, 4, Some 2, 301)]).
Proof.
  split; [reflexivity|].
  split; [intros g; reflexivity|].
  split; [vm_compute; reflexivity|].
  eexists _, _. split; vm_compute; reflexivity.
Qed.

Lemma flush_bumps_version_witness :
  exists document',
    activeDocuments
      (manager (processOperationQueue demo_uuid demo_stringify "D" None
                  (Some IoServer) 302 scenarioC_queued)) !! "D"%string
    = Some document'
    /\ doc_version document' = 2.
Proof.
  destruct (flush_bumps_version demo_uuid demo_stringify "D" None
              (Some IoServer) 302 scenarioC_queued scenarioC_document
              scenarioC_queue scenarioC_document_eq scenarioC_queue_eq)
    as (d & E & Hbump & _ & Hne).
  - discriminate.
  - exists d. split; [exact E|]. rewrite (Hbump Hne). reflexivity.
Defined.

(** The store stops accepting writes before the timer fires. *)
Definition scenarioC_store_down : World := set_writable scenarioC_queued false.

(** What C6 asks of a flush whose save fails: the [document-sync] of the
    batch is emitted all the same. *)
Definition sync_despite_failure (uuidv4 : nat -> string)
    (JSON_stringify : Document -> Z -> string) (h : nat) (now : Z)
    (documentId : string) (w : World) : Prop :=
  writable (fs w) = false ->
  emitted_sync documentId
    (new_effects w (fire_timer uuidv4 JSON_stringify h now w)) = true.

(** C6 (as stated) fails: with the store down the flush of scenario C
    emits no [document-sync]. *)
Lemma no_sync_when_save_fails :
  ~ sync_despite_failure demo_uuid demo_stringify 1 302 "D" scenarioC_store_down.
Proof.
  intros H. specialize (H eq_refl). vm_compute in H. discriminate.
Qed.

Lemma flush_save_failure_witness :
  emitted_sync "D"
    (new_effects scenarioC_store_down
       (processOperationQueue demo_uuid demo_stringify "D" (Some "s2"%string)
          (Some IoServer) 302 scenarioC_store_down)) = false.
Proof.
  refine (proj1 (proj2 (proj2
            (flush_save_failure demo_uuid demo_stringify "D"
               (Some "s2"%string) (Some IoServer) 302 scenarioC_store_down
               scenarioC_document scenarioC_queue _ _ _ _)))).
  - vm_compute. reflexivity.
  - vm_compute. reflexivity.
  - discriminate.
  - reflexivity.
Defined.

(** ** Loading a document that has no usable snapshot *)

Definition parse_nothing (data : string) : option Document := None.

(** The snapshot of [docId] is missing, blank or does not parse. *)
Definition snapshot_unusable (JSON_parse : string -> option Document)
    (w : World) (docId : string) : Prop :=
  match files (fs w) !! file_path (documentsDir (manager w)) docId with
  | None => True
  | Some data =>
      forallb is_space (list_ascii_of_string data) = true
      \/ JSON_parse data = None
  end.

Section Load.

Variable uuidv4 : nat -> string.
Variable JSON_parse : string -> option Document.
Variable JSON_stringify : Document -> Z -> string.

(** The record [createDocument] builds for [loadDocument]. *)
Definition created_for (docId : string) (now : Z) (w : World) : Document :=
  {| doc_id := uuidv4 (uuid_next w);
     doc_title := ("Document " +:+ docId)%string;
     doc_content := [];
     doc_operations := [];
     doc_createdAt := now;
     doc_updatedAt := now;
     doc_version := 1;
     doc_activeUsers := [];
     doc_metadata :=
       {| createdBy := None; lastModifiedBy := None; wordCount := 0;
          characterCount := 0; status := "draft"; lastAccessedBy := None;
          lastAccessedAt := None |} |}.

Lemma create_for_writable (docId : string) (now : Z) (w : World) :
  writable (fs w) = true ->
  exists w',
    create_for uuidv4 JSON_stringify docId now w
    = (Ok (Some (uuidv4 (uuid_next w), created_for docId now w)), w')
    /\ activeDocuments (manager w')
       = <[uuidv4 (uuid_next w) := created_for docId now w]>
           (activeDocuments (manager w))
    /\ files (fs w') !! file_path (documentsDir (manager w)) (uuidv4 (uuid_next w))
       = Some (JSON_stringify (created_for docId now w) now).
Proof.
  intros Hw. unfold create_for, createDocument, draw, uuid, saveDocument.
  cbn [fs manager effect set_fs]. rewrite Hw. cbn.
  eexists. split; [reflexivity|]. cbn. split; [reflexivity|].
  apply lookup_insert_eq.
Qed.

(** With a writable store, loading an id that has no usable snapshot
    returns a new empty record whose id is the next draw of the generator,
    kept in memory and on disk under that drawn id; the requested id stays
    unknown unless the draw happens to equal it. *)
Lemma loadDocument_unusable (docId : string) (now : Z) (w : World) :
  activeDocuments (manager w) !! docId = None ->
  snapshot_unusable JSON_parse w docId ->
  writable (fs w) = true ->
  exists w',
    loadDocument uuidv4 JSON_parse JSON_stringify docId now w
    = (Ok (Some (uuidv4 (uuid_next w), created_for docId now w)), w')
    /\ activeDocuments (manager w')
       = <[uuidv4 (uuid_next w) := created_for docId now w]>
           (activeDocuments (manager w))
    /\ (uuidv4 (uuid_next w) <> docId ->
        activeDocuments (manager w') !! docId = None).
Proof.
  intros Hd Hs Hw. unfold loadDocument, snapshot_unusable in *. rewrite Hd.
  assert (G : forall w1,
             uuid_next w1 = uuid_next w -> manager w1 = manager w ->
             writable (fs w1) = true ->
             exists w',
               create_in_try uuidv4 JSON_stringify docId now w1
               = (Ok (Some (uuidv4 (uuid_next w), created_for docId now w)), w')
               /\ activeDocuments (manager w')
                  = <[uuidv4 (uuid_next w) := created_for docId now w]>
                      (activeDocuments (manager w))).
  { intros w1 Hu Hm Hw1. unfold create_in_try.
    destruct (create_for_writable docId now w1 Hw1) as (w' & E & Ha & _).
    rewrite E. exists w'. unfold created_for in *. rewrite Hu, Hm in *.
    split; [reflexivity | exact Ha]. }
  assert (G' : forall w1,
             uuid_next w1 = uuid_next w -> manager w1 = manager w ->
             writable (fs w1) = true ->
             exists w',
               create_for uuidv4 JSON_stringify docId now w1
               = (Ok (Some (uuidv4 (uuid_next w), created_for docId now w)), w')
               /\ activeDocuments (manager w')
                  = <[uuidv4 (uuid_next w) := created_for docId now w]>
                      (activeDocuments (manager w))).
  { intros w1 Hu Hm Hw1.
    destruct (create_for_writable docId now w1 Hw1) as (w' & E & Ha & _).
    rewrite E. exists w'. unfold created_for in *. rewrite Hu, Hm in *.
    split; [reflexivity | exact Ha]. }
  assert (Hfin : forall w' : World,
             activeDocuments (manager w')
             = <[uuidv4 (uuid_next w) := created_for docId now w]>
                 (activeDocuments (manager w)) ->
             uuidv4 (uuid_next w) <> docId ->
             activeDocuments (manager w') !! docId = None).
  { intros w' Ha Hne. rewrite Ha, lookup_insert_ne by exact Hne. exact Hd. }
  destruct (files (fs w) !! file_path (documentsDir (manager w)) docId)
    as [data|].
  - destruct (forallb is_space (list_ascii_of_string data)) eqn:Hblank.
    + edestruct G as (w' & E & Ha); [| | | rewrite E]; [done..|].
      exists w'. eauto.
    + destruct Hs as [Hs|Hs]; [discriminate|]. rewrite Hs.
      unfold loadDocument_catch.
      edestruct G' as (w' & E & Ha); [| | | rewrite E]; [done..|].
      exists w'. eauto.
  - edestruct G as (w' & E & Ha); [| | | rewrite E]; [done..|].
    exists w'. eauto.
Qed.

End Load.

(** C3 -- loading the unknown id "D" twice on a fresh server: each load
    creates and registers an empty record under a newly drawn id ("uuid-0",
    then "uuid-1"), and "D" itself never becomes a known document. *)
Theorem lazy_creation_draws_a_new_id :
  let first :=
    loadDocument demo_uuid parse_nothing demo_stringify "D" 1
      (initial_world "/docs") in
  let second :=
    loadDocument demo_uuid parse_nothing demo_stringify "D" 2 (snd first) in
  let returned r :=
    match fst r with
    | Ok (Some (key, d)) => Some (key, doc_id d, doc_content d)
    | _ => None
    end in
  returned first = Some ("uuid-0"%string, "uuid-0"%string, [])
  /\ activeDocuments (manager (snd first)) !! "D"%string = None
  /\ files (fs (snd first)) !! "/docs/D.json"%string = None
  /\ files (fs (snd first)) !! "/docs/uuid-0.json"%string
     = Some "snapshot of uuid-0: "%string
  /\ returned second = Some ("uuid-1"%string, "uuid-1"%string, [])
  /\ activeDocuments (manager (snd second)) !! "D"%string = None.
Proof. vm_compute. repeat split. Qed.

(** ** Admission of an inbound operation *)

(** An [error] message for [socket] is among the effects. *)
Definition emitted_error (socket : string) (effects : list Effect) : bool :=
  existsb
    (fun e =>
       match e with
       | SocketEmit s (ErrorMessage _) => String.eqb s socket
       | _ => false
       end)
    effects.

(** What C4 asks for an invalid operation: an error to the sender and an
    untouched engine. *)
Definition admission_rejects (uuidv4 : nat -> string) (socket documentId : string)
    (operation : option WireOperation) (now : Z) (w : World) : Prop :=
  let w' := on_operation_message uuidv4 socket documentId operation now w in
  emitted_error socket (new_effects w w') = true /\ manager w' = manager w.

(** An operation of unknown kind at a negative position, with neither
    content nor length. *)
Definition bogus : WireOperation :=
  {| wire_type := "bogus"; wire_position := -5; wire_content := None;
     wire_length := None |}.

(** C4 (as stated) fails: the bogus operation is queued and no error is
    sent. *)
Lemma invalid_operation_is_queued :
  ~ admission_rejects demo_uuid "s1" "D" (Some bogus) 300 two_users.
Proof.
  intros [_ H].
  apply (f_equal (fun m => length (default [] (operationQueues m !! "D"%string))))
    in H.
  vm_compute in H. discriminate.
Qed.

Section Admission.

Variable uuidv4 : nat -> string.

(** An operation sent by a session with a user record to a document held
    in memory is appended unchanged to the queue of that document and the
    debounce timer is armed anew. *)
Lemma on_operation_known_document (socket documentId : string)
    (operation : WireOperation) (now : Z) (w : World)
    (userSession : UserSession) (document : Document) :
  userSessions (manager w) !! socket = Some userSession ->
  activeDocuments (manager w) !! documentId = Some document ->
  let op :=
    {| op_type := OpType_of_string (wire_type operation);
       op_position := wire_position operation;
       op_content := wire_content operation;
       op_length := wire_length operation;
       op_userId := user_id (session_user userSession);
       op_timestamp := now; op_clientId := Some socket;
       op_id := uuidv4 (uuid_next w); op_version := 1;
       op_applied := false |} in
  let w' := on_operation uuidv4 socket documentId operation now w in
  operationQueues (manager w') !! documentId
  = Some (default [] (operationQueues (manager w) !! documentId) ++ [op])
  /\ debouncedSaves (manager w') !! documentId = Some (next_timer w)
  /\ timers w' !! next_timer w = Some (documentId, socket)
  /\ activeDocuments (manager w') = activeDocuments (manager w)
  /\ emitted_error socket (new_effects w w') = false
  /\ new_effects w w'
     = match fst (transformAgainstOperations uuidv4 op
                    (last_10 (doc_operations document)) (S (uuid_next w))) with
       | Some t =>
           [SocketToRoom socket (doc_id document)
              (OperationImmediate t
                 (applyOperation (doc_content document) (Some t))
                 (Some userSession));
            ConsoleLog "Operation queued"]
       | None => []
       end.
Proof.
  intros Hs Hd. cbv zeta.
  unfold on_operation. rewrite Hs.
  unfold draw, new_DocumentOperation, queueOperation.
  cbn [manager activeDocuments]. rewrite Hd.
  unfold applyOperationImmediate, draw.
  cbn [uuid_next set_timers set_manager manager].
  match goal with
  | |- context [transformAgainstOperations uuidv4 ?o ?l ?g] =>
      destruct (transformAgainstOperations uuidv4 o l g) as [[t|] g1]
  end.
  - cbn [fst snd]. unfold new_effects. cbn.
    rewrite Hs, !lookup_insert_eq, <- app_assoc, drop_app_length. cbn.
    destruct (String.eqb socket socket); done.
  - cbn [fst snd]. unfold new_effects. cbn.
    rewrite !lookup_insert_eq, drop_all. done.
Qed.

(** A message from a socket without a user record is dropped. *)
Lemma on_operation_unknown_session (socket documentId : string)
    (operation : WireOperation) (now : Z) (w : World) :
  userSessions (manager w) !! socket = None ->
  on_operation uuidv4 socket documentId operation now w = w.
Proof. intros H. unfold on_operation. rewrite H. reflexivity. Qed.

(** An operation for a document that is not in memory is dropped with a
    console line only. *)
Lemma on_operation_unknown_document (socket documentId : string)
    (operation : WireOperation) (now : Z) (w : World)
    (userSession : UserSession) :
  userSessions (manager w) !! socket = Some userSession ->
  activeDocuments (manager w) !! documentId = None ->
  let w' := on_operation uuidv4 socket documentId operation now w in
  manager w' = manager w
  /\ timers w' = timers w
  /\ new_effects w w' = [ConsoleError "Document not found:"].
Proof.
  intros Hs H. cbv zeta. unfold on_operation. rewrite Hs.
  unfold draw, new_DocumentOperation, queueOperation.
  cbn [manager activeDocuments]. rewrite H.
  unfold new_effects. cbn. rewrite drop_app_length. done.
Qed.

(** C4 (amended) -- nothing about an inbound operation is validated.  A
    message that carries an operation, whatever its kind, position, content
    and length, sent by a session with a user record to a document held in
    memory is admitted: the operation is appended unchanged to the queue of
    that document and the debounce timer is armed anew, no error is sent,
    the documents in memory are untouched, and the operation is echoed to
    the peers unless it is absorbed against the last ten applied
    operations.  The one message answered with an error is a message
    without an operation: the sender gets "Failed to process operation",
    and neither the engine state nor the timers change.  A message from a
    socket without a user record changes nothing and has no effect; a
    message with an operation for a document that is not in memory only
    logs "Document not found:", with nothing sent and neither the engine
    state nor the timers changed. *)
Theorem operation_is_queued_unvalidated (socket documentId : string)
    (message : option WireOperation) (now : Z) (w : World) :
  let w' := on_operation_message uuidv4 socket documentId message now w in
  match userSessions (manager w) !! socket with
  | None => w' = w
  | Some userSession =>
      match message with
      | None =>
          manager w' = manager w
          /\ timers w' = timers w
          /\ new_effects w w'
             = [ConsoleError "Error processing operation:";
                SocketEmit socket (ErrorMessage "Failed to process operation")]
      | Some operation =>
          match activeDocuments (manager w) !! documentId with
          | None =>
              manager w' = manager w
              /\ timers w' = timers w
              /\ new_effects w w' = [ConsoleError "Document not found:"]
          | Some document =>
              let op :=
                {| op_type := OpType_of_string (wire_type operation);
                   op_position := wire_position operation;
                   op_content := wire_content operation;
                   op_length := wire_length operation;
                   op_userId := user_id (session_user userSession);
                   op_timestamp := now; op_clientId := Some socket;
                   op_id := uuidv4 (uuid_next w); op_version := 1;
                   op_applied := false |} in
              operationQueues (manager w') !! documentId
              = Some (default [] (operationQueues (manager w) !! documentId)
                      ++ [op])
              /\ debouncedSaves (manager w') !! documentId = Some (next_timer w)
              /\ timers w' !! next_timer w = Some (documentId, socket)
              /\ activeDocuments (manager w') = activeDocuments (manager w)
              /\ emitted_error socket (new_effects w w') = false
              /\ new_effects w w'
                 = match fst (transformAgainstOperations uuidv4 op
                                (last_10 (doc_operations document))
                                (S (uuid_next w))) with
                   | Some t =>
                       [SocketToRoom socket (doc_id document)
                          (OperationImmediate t
                             (applyOperation (doc_content document) (Some t))
                             (Some userSession));
                        ConsoleLog "Operation queued"]
                   | None => []
                   end
          end
      end
  end.
Proof.
  cbv zeta. unfold on_operation_message.
  destruct (userSessions (manager w) !! socket) as [userSession|] eqn:Hs;
    [|reflexivity].
  destruct message as [operation|].
  - destruct (activeDocuments (manager w) !! documentId) as [document|] eqn:Hd.
    + exact (on_operation_known_document socket documentId operation now w
               userSession document Hs Hd).
    + exact (on_operation_unknown_document socket documentId operation now w
               userSession Hs Hd).
  - unfold new_effects. cbn. rewrite <- app_assoc, drop_app_length. done.
Qed.

End Admission.

(** On the server of two sessions: the bogus operation of "s1" is queued
    for "D" as it came, a message of "s1" without an operation is answered
    with the error, and a message of the unknown socket "s9" is ignored. *)
Lemma admission_on_two_users :
  fmap (map shape) (operationQueues
     (manager (on_operation_message demo_uuid "s1" "D" (Some bogus) 300 two_users))
     !! "D"%string)
  = Some [(OtherType "bogus", -5, None, 300)]
  /\ new_effects two_users
       (on_operation_message demo_uuid "s1" "D" None 300 two_users)
     = [ConsoleError "Error processing operation:";
        SocketEmit "s1" (ErrorMessage "Failed to process operation")]
  /\ on_operation_message demo_uuid "s9" "D" (Some bogus) 300 two_users
     = two_users.
Proof. vm_compute. repeat split. Qed.

(** ** A session leaving with operations still queued *)

Definition is_user_left (e : Effect) : bool :=
  match e with
  | SocketToRoom _ _ (UserLeft _ _) => true
  | _ => false
  end.

Section Leave.

Variable uuidv4 : nat -> string.
Variable JSON_stringify : Document -> Z -> string.

(** [removeUserFromDocument] deletes the session before it looks it up, so
    the forced flush is never reached: queues, timers and the text and
    version of the document are as before. *)
Lemma removeUserFromDocument_never_flushes (documentId socket : string)
    (now : Z) (w : World) (d : Document) :
  activeDocuments (manager w) !! documentId = Some d ->
  let w' := snd (removeUserFromDocument uuidv4 JSON_stringify documentId
                   socket now w) in
  operationQueues (manager w') = operationQueues (manager w)
  /\ debouncedSaves (manager w') = debouncedSaves (manager w)
  /\ timers w' = timers w
  /\ userSessions (manager w') = delete socket (userSessions (manager w))
  /\ activeDocuments (manager w') !! documentId
     = Some (set_presence d (Map_delete socket (doc_activeUsers d))
               (doc_metadata d)).
Proof.
  intros Hd. cbv zeta. unfold removeUserFromDocument. rewrite Hd.
  cbn [store_document set_manager manager set_userSessions userSessions
       set_activeDocuments activeDocuments].
  rewrite lookup_delete_eq.
  cbn [set_manager manager set_userSessions set_activeDocuments
       activeDocuments].
  rewrite lookup_insert_eq, saveDocument_manager.
  unfold saveDocument. cbn [fs set_manager store_document].
  destruct (writable (fs w)); cbn; rewrite ?lookup_insert_eq; done.
Qed.

End Leave.

Definition wire_insert (position : Z) (content : text) : WireOperation :=
  {| wire_type := "insert"; wire_position := position;
     wire_content := Some content; wire_length := None |}.

(** Session "s1" inserts "X" at time 100 and disconnects at time 200,
    before the debounce timer (handle 0) fires at time 600. *)
Definition leave_queued : World :=
  on_operation demo_uuid "s1" "D" (wire_insert 0 (txt "X")) 100 two_users.

Definition leave_done : World :=
  on_disconnect demo_uuid demo_stringify "s1" 200 leave_queued.

Definition leave_later : World :=
  fire_timer demo_uuid demo_stringify 0 600 leave_done.

(** C5 -- what the code does when "s1" disconnects with its insert still
    queued: no flush happens.  The insert stays in the queue, the text and
    the version are unchanged in memory and in the snapshot written by the
    disconnect, [user-left] goes out with no [document-sync] before it, and
    the insert reaches the text and the peers only when the timer fires. *)
Theorem disconnect_skips_the_flush :
  fmap (map shape) (operationQueues (manager leave_queued) !! "D"%string)
  = Some [(Insert, 0, None, 100)]
  /\ operationQueues (manager leave_done) !! "D"%string
     = operationQueues (manager leave_queued) !! "D"%string
  /\ fmap (fun d => (doc_content d, doc_version d))
       (activeDocuments (manager leave_done) !! "D"%string)
     = Some (txt "0123456789", 1)
  /\ files (fs leave_done) !! "/docs/D.json"%string
     = Some "snapshot of D: 0123456789"%string
  /\ existsb is_user_left (new_effects leave_queued leave_done) = true
  /\ emitted_sync "D" (trace leave_done) = false
  /\ timers leave_done !! 0%nat = Some ("D"%string, "s1"%string)
  /\ emitted_sync "D" (new_effects leave_done leave_later) = true
  /\ fmap (fun d => (doc_content d, doc_version d))
       (activeDocuments (manager leave_later) !! "D"%string)
     = Some (txt "X0123456789", 2).
Proof. vm_compute. repeat split. Qed.

(** * Further properties of the service and the manager *)

(** ** Application at arbitrary offsets *)

Lemma clamp_index_range (len i : Z) :
  0 <= len -> 0 <= clamp_index len i <= len.
Proof. intros H. unfold clamp_index. destruct (Z.ltb_spec i 0); lia. Qed.

Lemma slice_0_take (s : text) (p : Z) :
  slice s 0 p = take (Z.to_nat (clamp_index (text_length s) p)) s.
Proof.
  unfold slice. replace (clamp_index (text_length s) 0) with 0
    by (unfold clamp_index, text_length; simpl; lia).
  rewrite Z.sub_0_r. simpl. rewrite drop_0. reflexivity.
Qed.

(** The two slices an insert takes always make up the whole text. *)
Lemma slice_split (s : text) (p : Z) : slice s 0 p ++ slice_from s p = s.
Proof. rewrite slice_0_take. unfold slice_from. apply take_drop. Qed.

(** X1 -- an insert that is not yet applied never removes or reorders a
    code unit, wherever its position points (negative, inside or past the
    end): the result is the text cut in two with the content in between,
    and it is longer by exactly the length of the content. *)
Theorem insert_keeps_every_code_unit (s : text) (op : DocumentOperation) :
  op_type op = Insert -> op_applied op = false ->
  (exists before after,
     s = before ++ after
     /\ applyOperation s (Some op) = before ++ content_or_empty op ++ after)
  /\ text_length (applyOperation s (Some op)) = text_length s + content_length op.
Proof.
  intros Ht Ha. unfold applyOperation. rewrite Ha, Ht. split.
  - exists (slice s 0 (op_position op)), (slice_from s (op_position op)).
    split; [symmetry; apply slice_split | reflexivity].
  - unfold text_length, content_length, content_or_empty.
    rewrite !length_app.
    pose proof (f_equal length (slice_split s (op_position op))) as E.
    rewrite length_app in E.
    destruct (op_content op); simpl; unfold text_length; lia.
Qed.

Lemma insert_keeps_every_code_unit_witness :
  text_length
    (applyOperation (txt "abc")
       (Some (demo_op Insert (-1) (Some (txt "XY")) None "u1" 1 "a")))
  = 5.
Proof.
  rewrite (proj2 (insert_keeps_every_code_unit (txt "abc")
                    (demo_op Insert (-1) (Some (txt "XY")) None "u1" 1 "a")
                    eq_refl eq_refl)).
  reflexivity.
Defined.

(** X2 -- for an operation that is not yet applied and lies inside the
    text, the length of the result is the length of the text, minus the
    span removed (the [length] of a delete or replace), plus the content
    put in (the [content] of an insert or replace); a delete's [content]
    and an insert's [length] play no part. *)
Theorem applyOperation_length (s : text) (op : DocumentOperation) :
  op_applied op = false -> edits op = true ->
  0 <= op_position op -> 0 <= span_length op ->
  op_position op + span_length op <= text_length s ->
  text_length (applyOperation s (Some op))
  = text_length s - span_length op + text_length (inserted op).
Proof.
  intros Ha He Hp Hl Hb.
  rewrite applyOperation_splice by assumption.
  unfold text_length in *. rewrite length_splice by lia. lia.
Qed.

Lemma applyOperation_length_witness :
  text_length
    (applyOperation (txt "abcdef")
       (Some (demo_op Replace 1 (Some (txt "X")) (Some 3) "u1" 1 "a")))
  = 6 - 3 + 1.
Proof.
  apply (applyOperation_length (txt "abcdef")
           (demo_op Replace 1 (Some (txt "X")) (Some 3) "u1" 1 "a"));
    first [reflexivity | vm_compute; discriminate].
Defined.

Lemma slice_0_past_end (s : text) (p : Z) :
  text_length s <= p -> slice s 0 p = s.
Proof.
  intros H. rewrite slice_0_take. unfold clamp_index, text_length in *.
  destruct (Z.ltb_spec p 0); [lia|]. apply take_ge. lia.
Qed.

Lemma slice_from_past_end (s : text) (p : Z) :
  text_length s <= p -> slice_from s p = [].
Proof.
  intros H. unfold slice_from, clamp_index, text_length in *.
  destruct (Z.ltb_spec p 0); [lia|]. apply drop_ge. lia.
Qed.

(** X3 -- a position at or past the end of the text is clamped to the end:
    an insert or a replace there appends its content and a delete there
    (of non-negative length) changes nothing. *)
Theorem applyOperation_past_the_end (s : text) (op : DocumentOperation) :
  op_applied op = false ->
  text_length s <= op_position op -> 0 <= length_or_0 op ->
  applyOperation s (Some op) = s ++ inserted op.
Proof.
  intros Ha Hp Hl. unfold applyOperation, inserted. rewrite Ha.
  destruct (op_type op);
    rewrite ?slice_0_past_end, ?slice_from_past_end by lia;
    rewrite ?app_nil_r; reflexivity.
Qed.

Lemma applyOperation_past_the_end_witness :
  applyOperation (txt "abc")
    (Some (demo_op Delete 7 None (Some 2) "u1" 1 "a"))
  = txt "abc".
Proof.
  rewrite (applyOperation_past_the_end (txt "abc")
             (demo_op Delete 7 None (Some 2) "u1" 1 "a") eq_refl).
  - reflexivity.
  - vm_compute. discriminate.
  - vm_compute. discriminate.
Defined.

(** ** What the transform leaves alone *)

(** [new] carries the kind, content, user, timestamp and client of [orig]. *)
Definition same_payload (orig new : DocumentOperation) : Prop :=
  op_type new = op_type orig
  /\ op_content new = op_content orig
  /\ op_userId new = op_userId orig
  /\ op_timestamp new = op_timestamp orig
  /\ op_clientId new = op_clientId orig.

Lemma same_payload_refl (op : DocumentOperation) : same_payload op op.
Proof. repeat split. Qed.

Lemma same_payload_trans (a b c : DocumentOperation) :
  same_payload a b -> same_payload b c -> same_payload a c.
Proof.
  unfold same_payload. intros (? & ? & ? & ? & ?) (? & ? & ? & ? & ?).
  repeat split; congruence.
Qed.

Section Payload.

Variable uuidv4 : nat -> string.

Ltac compare_positions :=
  repeat match goal with
         | |- context [Z.leb ?x ?y] => destruct (Z.leb_spec x y)
         | |- context [Z.ltb ?x ?y] => destruct (Z.ltb_spec x y)
         | |- context [Z.geb ?x ?y] =>
             rewrite (Z.geb_leb x y); destruct (Z.leb_spec y x)
         | |- context [Z.gtb ?x ?y] =>
             rewrite (Z.gtb_ltb x y); destruct (Z.ltb_spec y x)
         | |- context [Z.eqb ?x ?y] => destruct (Z.eqb_spec x y)
         | |- context [if ?p then _ else _] => destruct p
         end.

Ltac all_branches :=
  unfold transform;
  match goal with
  | |- context [String.eqb ?x ?y] => destruct (String.eqb x y)
  end;
  [ cbn [fst snd gret]
  | match goal with
    | |- context [op_type ?a] =>
        match goal with
        | |- context [op_type ?b] =>
            tryif constr_eq a b then fail else
              (destruct (op_type a) eqn:?, (op_type b) eqn:?)
        end
    end;
    unfold transformInsertInsert, transformInsertDelete,
      transformInsertReplace, transformDeleteInsert, transformDeleteDelete,
      transformDeleteReplace, transformReplaceInsert, transformReplaceDelete,
      transformReplaceReplace;
    cbn [andb orb];
    compare_positions;
    cbn [fst snd gret gbind moved resized new_DocumentOperation];
    compare_positions ].

Lemma transform_same_payload (a b : DocumentOperation) (p : bool) (g : nat) :
  (forall new, fst (fst (transform uuidv4 a b p g)) = Some new ->
               same_payload a new)
  /\ (forall new, snd (fst (transform uuidv4 a b p g)) = Some new ->
                  same_payload b new).
Proof.
  all_branches;
    (split; intros new E; simplify_eq; unfold same_payload; cbn;
     repeat split; congruence).
Qed.

(** With lengths that are not negative, no output is longer than its
    input and none has a negative length. *)
Lemma transform_never_lengthens (a b : DocumentOperation) (p : bool) (g : nat) :
  0 <= length_or_0 a -> 0 <= length_or_0 b ->
  (forall new, fst (fst (transform uuidv4 a b p g)) = Some new ->
               0 <= length_or_0 new <= length_or_0 a)
  /\ (forall new, snd (fst (transform uuidv4 a b p g)) = Some new ->
                  0 <= length_or_0 new <= length_or_0 b).
Proof.
  intros Ha Hb.
  all_branches;
    (split; intros new E; simplify_eq; unfold length_or_0 in *; cbn in *; lia).
Qed.

(** X4 -- identity: against a [retain] (or an operation of unknown kind)
    with another id, [transform] hands both operations back unchanged and
    draws no id; so does a [retain] against anything. *)
Theorem transform_leaves_non_edits (a b : DocumentOperation) (p : bool)
    (g : nat) :
  op_id a <> op_id b ->
  edits a = false \/ edits b = false ->
  transform uuidv4 a b p g = ((Some a, Some b), g).
Proof.
  intros Hid He. unfold transform.
  destruct (String.eqb_spec (op_id a) (op_id b)); [done|].
  unfold edits in He.
  destruct (op_type a), (op_type b); try reflexivity;
    destruct He; discriminate.
Qed.

(** X5 -- whatever [transform] does to an operation that survives, it
    keeps its kind, content, user, timestamp and client; and when both
    input lengths are non-negative the surviving operation is never
    longer than its input and never of negative length. *)
Theorem transform_keeps_payload (a b : DocumentOperation) (p : bool) (g : nat)
    (orig new : DocumentOperation) :
  (orig = a /\ fst (fst (transform uuidv4 a b p g)) = Some new)
  \/ (orig = b /\ snd (fst (transform uuidv4 a b p g)) = Some new) ->
  same_payload orig new
  /\ (0 <= length_or_0 a -> 0 <= length_or_0 b ->
      0 <= length_or_0 new <= length_or_0 orig).
Proof.
  intros H. destruct (transform_same_payload a b p g) as [Pa Pb].
  destruct H as [[-> E]|[-> E]].
  - split; [exact (Pa _ E)|]. intros Ha Hb.
    exact (proj1 (transform_never_lengthens a b p g Ha Hb) _ E).
  - split; [exact (Pb _ E)|]. intros Ha Hb.
    exact (proj2 (transform_never_lengthens a b p g Ha Hb) _ E).
Qed.

Lemma clone_same (op : DocumentOperation) (g : nat) :
  clone uuidv4 op g = (op, S g).
Proof. destruct op. reflexivity. Qed.

Lemma transformAgainst_loop_skips (t : DocumentOperation)
    (operations : list DocumentOperation) (g : nat) :
  Forall (fun op => earlier op t = false) operations ->
  transformAgainst_loop uuidv4 t operations g = (Some t, g).
Proof.
  induction 1 as [|op ops Hop _ IH]; [reflexivity|].
  simpl. rewrite Hop. exact IH.
Qed.

Lemma transformAgainst_loop_payload (operations : list DocumentOperation)
    (t : DocumentOperation) (g : nat) (r : DocumentOperation) :
  fst (transformAgainst_loop uuidv4 t operations g) = Some r ->
  same_payload t r.
Proof.
  revert t g. induction operations as [|op ops IH]; intros t g E.
  - simpl in E. simplify_eq. apply same_payload_refl.
  - simpl in E. destruct (earlier op t); [|eauto].
    unfold gbind in E.
    pose proof (proj1 (transform_same_payload t op false g)) as P.
    destruct (transform uuidv4 t op false g) as [[[n|] o2] g1];
      simpl in *; [|discriminate].
    eapply same_payload_trans; [apply P; reflexivity | eauto].
Qed.

(** X6 -- an operation transformed against operations none of which is
    earlier by (timestamp, userId) comes back as it went in, id included;
    in particular against the empty list.  One id is drawn (by the clone)
    and discarded. *)
Theorem transformAgainstOperations_skips_later (operation : DocumentOperation)
    (operations : list DocumentOperation) (g : nat) :
  Forall (fun op => earlier op operation = false) operations ->
  transformAgainstOperations uuidv4 operation operations g
  = (Some operation, S g).
Proof.
  intros H. unfold transformAgainstOperations, gbind.
  rewrite clone_same. apply transformAgainst_loop_skips. exact H.
Qed.

(** X7 -- an operation that survives [transformAgainstOperations] still has
    the kind, content, user, timestamp and client it came with. *)
Theorem transformAgainstOperations_keeps_payload (operation : DocumentOperation)
    (operations : list DocumentOperation) (g : nat) (r : DocumentOperation) :
  fst (transformAgainstOperations uuidv4 operation operations g) = Some r ->
  same_payload operation r.
Proof.
  unfold transformAgainstOperations, gbind. rewrite clone_same.
  apply transformAgainst_loop_payload.
Qed.

End Payload.

Lemma transform_leaves_non_edits_witness :
  transform demo_uuid (insert_at 0 "X" "a")
    (demo_op Retain 0 None None "u2" 2 "b") true 0%nat
  = ((Some (insert_at 0 "X" "a"), Some (demo_op Retain 0 None None "u2" 2 "b")),
     0%nat).
Proof.
  apply (transform_leaves_non_edits demo_uuid).
  - discriminate.
  - right. reflexivity.
Defined.

Lemma transform_keeps_payload_witness :
  same_payload delete_de
    {| op_type := Delete; op_position := 3; op_content := None;
       op_length := Some 0; op_userId := "u1"; op_timestamp := 1;
       op_clientId := None; op_id := demo_uuid 0; op_version := 1;
       op_applied := false |}.
Proof.
  refine (proj1 (transform_keeps_payload demo_uuid delete_de replace_cdef false
                   0%nat delete_de _ _)).
  left. split; reflexivity.
Defined.

Lemma transformAgainstOperations_skips_later_witness :
  transformAgainstOperations demo_uuid (insert_at 0 "X" "a")
    [demo_op Delete 0 None (Some 1) "u2" 2 "b"] 0%nat
  = (Some (insert_at 0 "X" "a"), 1%nat).
Proof.
  apply (transformAgainstOperations_skips_later demo_uuid).
  repeat constructor.
Defined.

Lemma transformAgainstOperations_keeps_payload_witness :
  same_payload (demo_op Insert 4 (Some (txt "*")) None "u2" 201 "b")
    {| op_type := Insert; op_position := 2; op_content := Some (txt "*");
       op_length := None; op_userId := "u2"; op_timestamp := 201;
       op_clientId := None; op_id := demo_uuid 1; op_version := 1;
       op_applied := false |}.
Proof.
  apply (transformAgainstOperations_keeps_payload demo_uuid
           (demo_op Insert 4 (Some (txt "*")) None "u2" 201 "b")
           [demo_op Delete 2 None (Some 4) "u1" 200 "a"] 0%nat).
  reflexivity.
Defined.

(** ** What a flush leaves behind *)

From Stdlib Require Import Sorting.Sorted.
From stdpp Require sorting.

(** [a] is not later than [b]. *)
Definition not_later (a b : DocumentOperation) : Prop :=
  op_timestamp a <= op_timestamp b.

Lemma sort_insert_Permutation {A} (cmp : A -> A -> Z) (x : A) (l : list A) :
  sort_insert cmp x l ≡ₚ x :: l.
Proof.
  induction l as [|y l IH]; [reflexivity|].
  simpl. destruct (cmp y x <? 0); [|reflexivity].
  rewrite IH. apply Permutation_swap.
Qed.

Lemma js_sort_Permutation {A} (cmp : A -> A -> Z) (l : list A) :
  js_sort cmp l ≡ₚ l.
Proof.
  induction l as [|x l IH]; [reflexivity|].
  simpl. rewrite sort_insert_Permutation. by rewrite IH.
Qed.

Lemma sort_insert_by_timestamp (x : DocumentOperation)
    (l : list DocumentOperation) :
  StronglySorted not_later l ->
  StronglySorted not_later (sort_insert by_timestamp x l).
Proof.
  induction 1 as [|y l Hl IH Hy]; simpl.
  - repeat constructor.
  - unfold by_timestamp at 1. destruct (Z.ltb_spec (op_timestamp y - op_timestamp x) 0).
    + constructor; [exact IH|].
      rewrite sort_insert_Permutation. constructor; [unfold not_later; lia|].
      exact Hy.
    + constructor; [constructor; assumption|].
      constructor; [unfold not_later; lia|].
      eapply Forall_impl; [exact Hy|]. unfold not_later. intros; lia.
Qed.

Lemma js_sort_by_timestamp_sorted (l : list DocumentOperation) :
  StronglySorted not_later (js_sort by_timestamp l).
Proof.
  induction l as [|x l IH]; [constructor|].
  simpl. apply sort_insert_by_timestamp. exact IH.
Qed.

Lemma set_applied_undo (t : DocumentOperation) :
  op_applied t = false -> set_applied (set_applied t true) false = t.
Proof. destruct t. simpl. intros ->. reflexivity. Qed.

Lemma count_words_bounds (s : text) (in_word : bool) :
  0 <= count_words in_word s <= text_length s.
Proof.
  unfold text_length. revert in_word.
  induction s as [|c s IH]; intros in_word; simpl length; simpl count_words.
  - lia.
  - destruct (is_space c).
    + specialize (IH false). lia.
    + specialize (IH true). destruct in_word; lia.
Qed.

(** Replaying a list of operations on a text. *)
Definition replay (s : text) (ops : list DocumentOperation) : text :=
  foldl (fun c t => applyOperation c (Some t)) s ops.

Section FlushResult.

Variable uuidv4 : nat -> string.
Variable JSON_stringify : Document -> Z -> string.

Lemma transform_first_unapplied (a b : DocumentOperation) (p : bool) (g : nat)
    (new : DocumentOperation) :
  op_applied a = false ->
  fst (fst (transform uuidv4 a b p g)) = Some new ->
  op_applied new = false.
Proof.
  intros Ha E. pose proof (proj1 (transform_outputs uuidv4 a b p g)) as H.
  rewrite E in H. destruct H as [->|(k & _ & R)]; [exact Ha|].
  apply R.
Qed.

Lemma transformAgainst_loop_unapplied (operations : list DocumentOperation)
    (t : DocumentOperation) (g : nat) (r : DocumentOperation) :
  op_applied t = false ->
  fst (transformAgainst_loop uuidv4 t operations g) = Some r ->
  op_applied r = false.
Proof.
  revert t g. induction operations as [|op ops IH]; intros t g Ht E.
  - simpl in E. by simplify_eq.
  - simpl in E. destruct (earlier op t); [|eauto].
    unfold gbind in E.
    pose proof (transform_first_unapplied t op false g) as P.
    destruct (transform uuidv4 t op false g) as [[[n|] o2] g1];
      simpl in *; [|discriminate].
    eapply IH; [|exact E]. eapply P; [exact Ht | reflexivity].
Qed.

(** What [apply_queue] keeps true of its state, for a batch in timestamp
    order. *)
Record flush_invariant (history0 : list DocumentOperation)
    (rest : list DocumentOperation) (a : Applying) : Prop := {
  inv_history : documentOperations a = history0 ++ appliedOperations a;
  inv_flagged : Forall (fun t => op_applied t = true) (appliedOperations a);
  inv_ordered : StronglySorted not_later (appliedOperations a);
  inv_before : Forall (fun t => Forall (not_later t) rest) (appliedOperations a)
}.

Lemma apply_queue_invariant (history0 : list DocumentOperation)
    (l : list DocumentOperation) (a : Applying) (g : nat) :
  StronglySorted not_later l ->
  flush_invariant history0 l a ->
  flush_invariant history0 [] (fst (apply_queue uuidv4 l a g)).
Proof.
  revert a g. induction l as [|op l IH]; intros a g Hso Hinv.
  - exact Hinv.
  - simpl. unfold gbind, transformAgainstOperations, gbind.
    rewrite clone_same.
    apply sorting.StronglySorted_cons in Hso as [Hle Hso].
    pose proof (transformAgainst_loop_payload uuidv4 (appliedOperations a) op
                  (S g)) as Hpay.
    destruct (transformAgainst_loop uuidv4 op (appliedOperations a) (S g))
      as [[t|] g1]; simpl in Hpay.
    + specialize (Hpay t eq_refl).
      destruct Hpay as (_ & _ & _ & Hts & _).
      destruct Hinv as [H1 H2 H3 H4].
      apply IH; [exact Hso|].
      constructor; cbn [currentContent appliedOperations documentOperations].
      * rewrite H1, app_assoc. reflexivity.
      * apply Forall_app. split; [exact H2 | repeat constructor].
      * apply sorting.StronglySorted_app. split; [|split; [exact H3 | repeat constructor]].
        intros x1 x2 Hx1 Hx2. apply list_elem_of_singleton in Hx2 as ->.
        rewrite Forall_forall in H4. specialize (H4 _ Hx1).
        apply Forall_cons in H4 as [H4 _].
        unfold not_later in *. simpl. lia.
      * apply Forall_app. split.
        -- eapply Forall_impl; [exact H4|]. intros x Hx.
           apply Forall_cons in Hx as [_ Hx]. exact Hx.
        -- constructor; [|constructor].
           eapply Forall_impl; [exact Hle|]. unfold not_later. simpl.
           intros; lia.
    + destruct Hinv as [H1 H2 H3 H4].
      apply IH; [exact Hso|]. constructor; try assumption.
      eapply Forall_impl; [exact H4|]. intros x Hx.
      apply Forall_cons in Hx as [_ Hx]. exact Hx.
Qed.

Lemma apply_queue_content (content0 : text) (l : list DocumentOperation)
    (a : Applying) (g : nat) :
  Forall (fun op => op_applied op = false) l ->
  currentContent a
  = replay content0 (map (fun t => set_applied t false) (appliedOperations a)) ->
  currentContent (fst (apply_queue uuidv4 l a g))
  = replay content0
      (map (fun t => set_applied t false)
         (appliedOperations (fst (apply_queue uuidv4 l a g)))).
Proof.
  revert a g. induction l as [|op l IH]; intros a g Hun Hc.
  - exact Hc.
  - simpl. unfold gbind, transformAgainstOperations, gbind.
    rewrite clone_same.
    apply Forall_cons in Hun as [Hop Hun].
    pose proof (transformAgainst_loop_unapplied (appliedOperations a) op
                  (S g)) as Hfl.
    destruct (transformAgainst_loop uuidv4 op (appliedOperations a) (S g))
      as [[t|] g1]; simpl in Hfl.
    + specialize (Hfl t Hop eq_refl).
      apply IH; [exact Hun|].
      cbn [currentContent appliedOperations].
      rewrite map_app. unfold replay in *. rewrite foldl_app.
      cbn [map foldl]. rewrite set_applied_undo by exact Hfl.
      rewrite <- Hc. reflexivity.
    + apply IH; assumption.
Qed.

Lemma merge_loop_unapplied (rest merged : list DocumentOperation)
    (current : DocumentOperation) (g : nat) :
  Forall (fun op => op_applied op = false) merged ->
  op_applied current = false ->
  Forall (fun op => op_applied op = false) rest ->
  Forall (fun op => op_applied op = false)
    (fst (merge_loop uuidv4 merged current rest g)).
Proof.
  revert merged current g.
  induction rest as [|op rest IH]; intros merged current g Hm Hc Hr; simpl.
  - apply Forall_app. split; [exact Hm | repeat constructor; exact Hc].
  - apply Forall_cons in Hr as [Hop Hr].
    repeat match goal with
           | |- context [if ?c then _ else _] => destruct c
           end.
    + apply IH; assumption.
    + apply IH; assumption.
    + unfold gbind. rewrite clone_same. apply IH; [|exact Hop | exact Hr].
      apply Forall_app. split; [exact Hm | repeat constructor; exact Hc].
Qed.

Lemma mergeOperations_unapplied (ops : list DocumentOperation) (g : nat) :
  Forall (fun op => op_applied op = false) ops ->
  Forall (fun op => op_applied op = false)
    (merged_ops (fst (mergeOperations uuidv4 ops g))).
Proof.
  intros H. destruct ops as [|a [|b ops]]; [constructor | exact H |].
  unfold mergeOperations.
  assert (Hs : Forall (fun op => op_applied op = false)
                 (js_sort by_position_then_timestamp (a :: b :: ops)))
    by (rewrite js_sort_Permutation; exact H).
  destruct (js_sort by_position_then_timestamp (a :: b :: ops))
    as [|first rest]; [constructor|].
  apply Forall_cons in Hs as [Hf Hr].
  unfold gbind. rewrite clone_same.
  pose proof (merge_loop_unapplied rest [] first (S g) (Forall_nil_2 _) Hf Hr)
    as Hm.
  destruct (merge_loop uuidv4 [] first rest (S g)) as [merged g2].
  simpl in *. destruct merged as [|m [|m' merged]]; exact Hm.
Qed.

Lemma group_push_Forall (P : DocumentOperation -> Prop) (op : DocumentOperation)
    (groups : list (string * list DocumentOperation)) :
  P op -> Forall (fun gr => Forall P (snd gr)) groups ->
  Forall (fun gr => Forall P (snd gr)) (group_push op groups).
Proof.
  intros Hop. induction 1 as [|[u ops] groups Hg Hgs IH]; simpl.
  - repeat constructor. exact Hop.
  - destruct (String.eqb u (op_userId op)).
    + constructor; [|exact Hgs]. simpl in *. apply Forall_app.
      split; [exact Hg | repeat constructor; exact Hop].
    + constructor; [exact Hg | exact IH].
Qed.

Lemma operationsByUser_Forall (P : DocumentOperation -> Prop)
    (queue : list DocumentOperation) :
  Forall P queue ->
  Forall (fun gr => Forall P (snd gr)) (operationsByUser queue).
Proof.
  unfold operationsByUser.
  enough (G : forall acc, Forall (fun gr => Forall P (snd gr)) acc ->
                          Forall P queue ->
                          Forall (fun gr => Forall P (snd gr))
                            (fold_left (fun groups op => group_push op groups)
                               queue acc)).
  { apply G. constructor. }
  induction queue as [|op queue IH]; intros acc Hacc Hq; [exact Hacc|].
  apply Forall_cons in Hq as [Hop Hq]. simpl.
  apply IH; [|exact Hq]. apply group_push_Forall; assumption.
Qed.

Lemma merge_groups_unapplied (groups : list (string * list DocumentOperation))
    (acc : list DocumentOperation) (g : nat) :
  Forall (fun gr => Forall (fun op => op_applied op = false) (snd gr)) groups ->
  Forall (fun op => op_applied op = false) acc ->
  Forall (fun op => op_applied op = false)
    (fst (merge_groups uuidv4 groups acc g)).
Proof.
  revert acc g. induction groups as [|[u ops] groups IH]; intros acc g Hg Hacc.
  - exact Hacc.
  - apply Forall_cons in Hg as [Hops Hg]. simpl in Hops. simpl.
    unfold gbind.
    pose proof (mergeOperations_unapplied ops g Hops) as Hm.
    destruct (mergeOperations uuidv4 ops g) as [r g1]. simpl in Hm.
    apply IH; [exact Hg|].
    destruct r; simpl in Hm; [exact Hacc | |];
      apply Forall_app; split; assumption.
Qed.

Lemma run_queue_invariant (document : Document)
    (queue : list DocumentOperation) (g : nat) :
  flush_invariant (doc_operations document) []
    (fst (run_queue uuidv4 document queue g)).
Proof.
  unfold run_queue, gbind.
  destruct (merge_groups uuidv4 (operationsByUser queue) [] g)
    as [processed g1].
  apply apply_queue_invariant.
  - apply js_sort_by_timestamp_sorted.
  - constructor; simpl; try constructor. rewrite app_nil_r. reflexivity.
Qed.

Lemma replay_flagged (s : text) (ops : list DocumentOperation) :
  Forall (fun t => op_applied t = true) ops -> replay s ops = s.
Proof.
  unfold replay. induction 1 as [|t ts Ht _ IH]; [reflexivity|].
  cbn [foldl].
  replace (applyOperation s (Some t)) with s
    by (unfold applyOperation; rewrite Ht; reflexivity).
  exact IH.
Qed.

(** X8 -- a flush applies a batch in timestamp order: the timestamps of
    the applied operations (the [operations] of the [document-sync]) never
    decrease, and each applied operation is flagged [applied]. *)
Theorem run_queue_in_timestamp_order (document : Document)
    (queue : list DocumentOperation) (g : nat) :
  StronglySorted not_later
    (appliedOperations (fst (run_queue uuidv4 document queue g)))
  /\ Forall (fun t => op_applied t = true)
       (appliedOperations (fst (run_queue uuidv4 document queue g))).
Proof.
  destruct (run_queue_invariant document queue g). split; assumption.
Qed.

(** X9 -- for a queue of operations none of which is flagged applied, the
    text a flush produces is the old text with the applied operations
    replayed in order once their [applied] flags are cleared; replayed as
    they are emitted, flagged, they change nothing. *)
Theorem run_queue_content_is_replay (document : Document)
    (queue : list DocumentOperation) (g : nat) :
  Forall (fun op => op_applied op = false) queue ->
  currentContent (fst (run_queue uuidv4 document queue g))
  = replay (doc_content document)
      (map (fun t => set_applied t false)
         (appliedOperations (fst (run_queue uuidv4 document queue g))))
  /\ replay (doc_content document)
       (appliedOperations (fst (run_queue uuidv4 document queue g)))
     = doc_content document.
Proof.
  intros Hq. split.
  - unfold run_queue, gbind.
    pose proof (merge_groups_unapplied (operationsByUser queue) [] g
                  (operationsByUser_Forall _ queue Hq) (Forall_nil_2 _)) as Hp.
    destruct (merge_groups uuidv4 (operationsByUser queue) [] g)
      as [processed g1]. simpl in Hp.
    apply apply_queue_content; [|reflexivity].
    rewrite js_sort_Permutation. exact Hp.
  - apply replay_flagged.
    apply (run_queue_invariant document queue g).
Qed.

(** X10 -- after a flush of a non-empty queue the document in memory has
    its history extended by exactly the applied operations, its
    [characterCount] equal to the length of the new text and a [wordCount]
    between 0 and that length; id, title, creation time and presence are
    untouched. *)
Theorem flush_history_and_counts (documentId : string) (socket : option string)
    (io : option Server) (now : Z) (w : World) (document : Document)
    (queue : list DocumentOperation) :
  activeDocuments (manager w) !! documentId = Some document ->
  operationQueues (manager w) !! documentId = Some queue ->
  queue <> [] ->
  exists document',
    activeDocuments
      (manager (processOperationQueue uuidv4 JSON_stringify documentId socket
                  io now w)) !! documentId = Some document'
    /\ doc_operations document'
       = doc_operations document
         ++ appliedOperations (fst (run_queue uuidv4 document queue (uuid_next w)))
    /\ characterCount (doc_metadata document')
       = text_length (doc_content document')
    /\ 0 <= wordCount (doc_metadata document')
         <= characterCount (doc_metadata document')
    /\ doc_updatedAt document' = now
    /\ (doc_id document', doc_title document', doc_createdAt document',
        doc_activeUsers document')
       = (doc_id document, doc_title document, doc_createdAt document,
          doc_activeUsers document).
Proof.
  intros Hd Hq Hne. eexists. split.
  { apply (processOperationQueue_document _ _ _ _ _ _ _ _ _ Hd Hq Hne). }
  destruct (run_queue_invariant document queue (uuid_next w)) as [Hh _ _ _].
  simpl. split; [exact Hh|]. split; [reflexivity|].
  split; [apply count_words_bounds|]. split; reflexivity.
Qed.

End FlushResult.

Definition scenarioC_unapplied :
  Forall (fun op => op_applied op = false) scenarioC_queue.
Proof. repeat constructor. Defined.

Lemma run_queue_content_is_replay_witness :
  replay (doc_content scenarioC_document)
    (appliedOperations
       (fst (run_queue demo_uuid scenarioC_document scenarioC_queue 0%nat)))
  = doc_content scenarioC_document.
Proof.
  exact (proj2 (run_queue_content_is_replay demo_uuid scenarioC_document
                  scenarioC_queue 0%nat scenarioC_unapplied)).
Defined.

Lemma flush_history_and_counts_witness :
  exists document',
    activeDocuments
      (manager (processOperationQueue demo_uuid demo_stringify "D" None
                  (Some IoServer) 302 scenarioC_queued)) !! "D"%string
    = Some document'
    /\ characterCount (doc_metadata document')
       = text_length (doc_content document').
Proof.
  destruct (flush_history_and_counts demo_uuid demo_stringify "D" None
              (Some IoServer) 302 scenarioC_queued scenarioC_document
              scenarioC_queue scenarioC_document_eq scenarioC_queue_eq)
    as (d & E & _ & Hc & _).
  - discriminate.
  - exists d. split; [exact E | exact Hc].
Defined.

(** ** Merging runs of keystrokes *)

(** A run of typing by [user] starting at [position]: inserts of non-empty
    content, each at the offset where the previous one ended. *)
Fixpoint typed_run (user : string) (position : Z)
    (ops : list DocumentOperation) : Prop :=
  match ops with
  | [] => True
  | op :: rest =>
      op_type op = Insert /\ op_userId op = user /\ op_position op = position
      /\ 0 < content_length op
      /\ typed_run user (position + content_length op) rest
  end.

(** The text typed by a run. *)
Definition typed_text (ops : list DocumentOperation) : text :=
  concat (map content_or_empty ops).

(** A run of backspaces by [user] at [position]: deletes at one offset. *)
Definition backspace_run (user : string) (position : Z)
    (ops : list DocumentOperation) : Prop :=
  Forall (fun op => op_type op = Delete /\ op_userId op = user
                    /\ op_position op = position) ops.

Definition total_length (ops : list DocumentOperation) : Z :=
  foldr (fun op z => length_or_0 op + z) 0 ops.

Lemma total_length_Permutation (l k : list DocumentOperation) :
  l ≡ₚ k -> total_length l = total_length k.
Proof.
  unfold total_length. induction 1; simpl; lia.
Qed.

Lemma typed_run_sorted (user : string) (ops : list DocumentOperation)
    (position : Z) :
  typed_run user position ops ->
  js_sort by_position_then_timestamp ops = ops.
Proof.
  revert position. induction ops as [|op rest IH]; intros position H.
  - reflexivity.
  - destruct H as (_ & _ & Hp & Hlen & Hrest). simpl.
    rewrite (IH _ Hrest). destruct rest as [|y rest']; [reflexivity|].
    destruct Hrest as (_ & _ & Hy & _). simpl.
    unfold by_position_then_timestamp.
    destruct (Z.eqb_spec (op_position y) (op_position op)); [lia|].
    destruct (Z.ltb_spec (op_position y - op_position op) 0); [lia|].
    reflexivity.
Qed.

Lemma set_content_same (op : DocumentOperation) (c : text) :
  op_content op = Some c -> set_content op (Some c) = op.
Proof. destruct op. simpl. intros ->. reflexivity. Qed.

Lemma content_length_set_content (op : DocumentOperation) (c : text) :
  content_length (set_content op (Some c)) = text_length c.
Proof. reflexivity. Qed.

Lemma text_length_app (a b : text) :
  text_length (a ++ b) = text_length a + text_length b.
Proof. unfold text_length. rewrite length_app. lia. Qed.

Lemma content_length_or_empty (op : DocumentOperation) :
  content_length op = text_length (content_or_empty op).
Proof.
  unfold content_length, content_or_empty. destruct (op_content op); reflexivity.
Qed.

(** Two inserts typed one after the other amount to one insert. *)
Lemma insert_then_insert (s : text) (a b : DocumentOperation) :
  op_type a = Insert -> op_type b = Insert ->
  op_applied a = false -> op_applied b = false ->
  0 <= op_position a <= text_length s ->
  op_position b = op_position a + content_length a ->
  applyOperation (applyOperation s (Some a)) (Some b)
  = applyOperation s
      (Some (set_content a (Some (content_or_empty a ++ content_or_empty b)))).
Proof.
  intros Ta Tb Ha Hb Hp Hq.
  rewrite content_length_or_empty in Hq.
  assert (E : forall (s' : text) (op : DocumentOperation),
             op_type op = Insert -> op_applied op = false ->
             0 <= op_position op <= text_length s' ->
             applyOperation s' (Some op)
             = splice (Z.to_nat (op_position op)) 0 (content_or_empty op) s').
  { intros s' op To Ho Hpo. unfold applyOperation. rewrite Ho, To.
    rewrite slice_prefix, slice_from_suffix by lia.
    unfold splice. rewrite Nat.add_0_r. reflexivity. }
  set (p := Z.to_nat (op_position a)).
  assert (Hs : s = take p s ++ [] ++ drop p s)
    by (simpl; symmetry; apply take_drop).
  assert (Hx : length (take p s) = p)
    by (rewrite length_take; unfold text_length in Hp; lia).
  rewrite (E s a) by assumption. fold p.
  rewrite (E s (set_content a _)) by assumption.
  cbn [op_position set_content content_or_empty op_content]. fold p.
  rewrite Hs at 1 2.
  rewrite !(splice_app3 p 0 _ (take p s) [] (drop p s)) by done.
  rewrite E; [|assumption..|].
  - replace (take p s ++ content_or_empty a ++ drop p s)
      with ((take p s ++ content_or_empty a) ++ [] ++ drop p s)
      by (rewrite <- !app_assoc; reflexivity).
    rewrite splice_app3; [|rewrite length_app; unfold text_length in Hq; lia|done].
    rewrite <- !app_assoc. reflexivity.
  - unfold text_length in *. rewrite !length_app, length_drop. lia.
Qed.

(** Two deletes at one offset amount to one delete of both lengths. *)
Lemma delete_then_delete (s : text) (p l1 l2 : nat) :
  splice p l2 [] (splice p l1 [] s) = splice p (l1 + l2) [] s.
Proof.
  unfold splice. simpl.
  destruct (decide (p <= length s)%nat) as [Hle|Hgt].
  - rewrite take_app_length' by (rewrite length_take; lia).
    rewrite drop_app_ge by (rewrite length_take; lia).
    rewrite length_take, drop_drop. do 2 f_equal. lia.
  - rewrite !(take_ge s), !(drop_ge s), !app_nil_r by lia.
    rewrite take_ge, drop_ge by lia. rewrite app_nil_r. reflexivity.
Qed.

Section MergeRuns.

Variable uuidv4 : nat -> string.

Lemma merge_loop_typed_run (rest merged : list DocumentOperation)
    (current : DocumentOperation) (g : nat) :
  op_type current = Insert ->
  typed_run (op_userId current) (op_position current + content_length current)
    rest ->
  merge_loop uuidv4 merged current rest g
  = (merged
     ++ [match rest with
         | [] => current
         | _ => set_content current
                  (Some (content_or_empty current ++ typed_text rest))
         end], g).
Proof.
  revert current. induction rest as [|op rest IH]; intros current Tc Hrun.
  - reflexivity.
  - destruct Hrun as (To & Hu & Hp & Hlen & Hrest). simpl.
    rewrite Tc, To. simpl.
    rewrite Hp, Z.eqb_refl, Hu, String.eqb_refl. simpl.
    rewrite IH.
    + unfold typed_text. simpl. destruct rest; simpl.
      * rewrite app_nil_r. reflexivity.
      * cbn [content_or_empty set_content op_content op_type op_position
             op_length op_userId op_timestamp op_clientId op_id op_version
             op_applied].
        rewrite <- !app_assoc. reflexivity.
    + exact Tc.
    + simpl. rewrite content_length_set_content, text_length_app.
      rewrite <- !content_length_or_empty.
      replace (op_position current + (content_length current + content_length op))
        with (op_position current + content_length current + content_length op)
        by lia.
      exact Hrest.
Qed.

Lemma replay_typed_run (s : text) (rest : list DocumentOperation)
    (current : DocumentOperation) :
  op_type current = Insert -> op_applied current = false ->
  Forall (fun op => op_applied op = false) rest ->
  0 <= op_position current <= text_length s ->
  typed_run (op_userId current) (op_position current + content_length current)
    rest ->
  replay s (current :: rest)
  = applyOperation s
      (Some (match rest with
             | [] => current
             | _ => set_content current
                      (Some (content_or_empty current ++ typed_text rest))
             end)).
Proof.
  revert current. induction rest as [|op rest IH]; intros current Tc Hc Hun Hp Hrun.
  - reflexivity.
  - destruct Hrun as (To & Hu & Hq & Hlen & Hrest).
    apply Forall_cons in Hun as [Ho Hun].
    change (replay s (current :: op :: rest))
      with (replay (applyOperation (applyOperation s (Some current)) (Some op))
              rest).
    rewrite insert_then_insert by assumption.
    change (replay (applyOperation s (Some ?c)) rest)
      with (replay s (c :: rest)).
    rewrite IH; try assumption; try reflexivity.
    + unfold typed_text. simpl. destruct rest; simpl.
      * rewrite app_nil_r. reflexivity.
      * cbn [content_or_empty set_content op_content op_type op_position
             op_length op_userId op_timestamp op_clientId op_id op_version
             op_applied].
        rewrite <- !app_assoc. reflexivity.
    + simpl. rewrite content_length_set_content, text_length_app.
      rewrite <- !content_length_or_empty.
      replace (op_position current + (content_length current + content_length op))
        with (op_position current + content_length current + content_length op)
        by lia.
      exact Hrest.
Qed.

(** X11 -- a run of two or more keystrokes of one user (inserts of
    non-empty content, each where the previous one ended) merges into a
    single insert: the first operation of the run, id included, carrying
    the whole typed text; applied to a text that contains the starting
    offset, the merged insert gives what the run gives in order. *)
Theorem mergeOperations_typed_run (first second : DocumentOperation)
    (rest : list DocumentOperation) (g : nat) :
  typed_run (op_userId first) (op_position first) (first :: second :: rest) ->
  mergeOperations uuidv4 (first :: second :: rest) g
  = (MergedOne (set_content first (Some (typed_text (first :: second :: rest)))),
     S g)
  /\ forall s,
       Forall (fun op => op_applied op = false) (first :: second :: rest) ->
       0 <= op_position first <= text_length s ->
       replay s (first :: second :: rest)
       = applyOperation s
           (Some (set_content first
                    (Some (typed_text (first :: second :: rest))))).
Proof.
  intros Hrun. pose proof (typed_run_sorted _ _ _ Hrun) as Hsorted.
  destruct Hrun as (Tf & _ & _ & Hlen & Hrun). split.
  - unfold mergeOperations. rewrite Hsorted. unfold gbind.
    rewrite clone_same. rewrite merge_loop_typed_run by assumption.
    reflexivity.
  - intros s Hun Hp. apply Forall_cons in Hun as [Hf Hun].
    rewrite replay_typed_run by assumption. reflexivity.
Qed.

Lemma merge_loop_backspace_run (user : string) (position : Z)
    (rest merged : list DocumentOperation) (current : DocumentOperation)
    (g : nat) :
  op_type current = Delete -> op_userId current = user ->
  op_position current = position ->
  backspace_run user position rest ->
  merge_loop uuidv4 merged current rest g
  = (merged
     ++ [match rest with
         | [] => current
         | _ => set_length current
                  (Some (length_or_0 current + total_length rest))
         end], g).
Proof.
  intros Tc Hu Hp Hrun. revert current Tc Hu Hp.
  induction Hrun as [|op rest (To & Huo & Hpo) Hrest IH]; intros current Tc Hu Hp.
  - reflexivity.
  - simpl. rewrite Tc, To. simpl.
    rewrite Hp, Hpo, Z.eqb_refl, Hu, Huo, String.eqb_refl. simpl.
    rewrite IH by (simpl; congruence).
    destruct rest; simpl.
    + rewrite Z.add_0_r. reflexivity.
    + match goal with
      | |- context [set_length (set_length current ?x) (Some (?l + ?r))] =>
          change (set_length (set_length current x) (Some (l + r)))
            with (set_length current
                    (Some (length_or_0 current + length_or_0 op + r)))
      end.
      rewrite <- Z.add_assoc. reflexivity.
Qed.

Lemma replay_backspace_run (user : string) (position : Z) (s : text)
    (ops : list DocumentOperation) :
  backspace_run user position ops ->
  Forall (fun op => op_applied op = false /\ 0 <= length_or_0 op) ops ->
  0 <= position -> position + total_length ops <= text_length s ->
  replay s ops
  = splice (Z.to_nat position) (Z.to_nat (total_length ops)) [] s.
Proof.
  intros Hrun. revert s.
  induction Hrun as [|op rest (To & _ & Hpo) Hrest IH]; intros s Hun Hp Hb.
  - unfold replay, splice. simpl. rewrite Nat.add_0_r, take_drop. reflexivity.
  - apply Forall_cons in Hun as [[Ha Hl] Hun].
    assert (Hrest_len : 0 <= total_length rest).
    { clear -Hun. induction Hun as [|x l [_ Hx] _ IHl]; simpl; [lia|].
      unfold total_length in *. simpl. lia. }
    change (replay s (op :: rest)) with (replay (applyOperation s (Some op)) rest).
    unfold total_length in Hb. simpl in Hb. fold (total_length rest) in Hb.
    rewrite (applyOperation_splice s op);
      unfold edits, span_length, inserted; rewrite ?To; try done; try lia.
    rewrite IH; try assumption.
    + rewrite Hpo, delete_then_delete. unfold total_length at 2. simpl.
      fold (total_length rest). f_equal. lia.
    + unfold text_length in *. rewrite length_splice by lia. simpl. lia.
Qed.

(** X12 -- a run of two or more backspaces of one user (deletes at one
    offset) merges into a single delete: whichever operation the sort puts
    first, with the sum of the lengths; applied to a text that contains
    the whole span, it removes what the run removes. *)
Theorem mergeOperations_backspace_run (user : string) (position : Z)
    (ops : list DocumentOperation) (g : nat) :
  (2 <= length ops)%nat ->
  backspace_run user position ops ->
  (exists first,
     head (js_sort by_position_then_timestamp ops) = Some first
     /\ mergeOperations uuidv4 ops g
        = (MergedOne (set_length first (Some (total_length ops))), S g))
  /\ forall s merged,
       fst (mergeOperations uuidv4 ops g) = MergedOne merged ->
       Forall (fun op => op_applied op = false /\ 0 <= length_or_0 op) ops ->
       0 <= position -> position + total_length ops <= text_length s ->
       replay s ops = applyOperation s (Some merged).
Proof.
  intros Hlen Hrun.
  pose proof (js_sort_Permutation by_position_then_timestamp ops) as Hperm.
  assert (Hsrun : backspace_run user position
                    (js_sort by_position_then_timestamp ops))
    by (unfold backspace_run; rewrite Hperm; exact Hrun).
  pose proof (total_length_Permutation _ _ Hperm) as Htot.
  pose proof (js_sort_length by_position_then_timestamp ops) as Hslen.
  assert (Hm : exists first,
             head (js_sort by_position_then_timestamp ops) = Some first
             /\ mergeOperations uuidv4 ops g
                = (MergedOne (set_length first (Some (total_length ops))), S g)
             /\ op_type first = Delete /\ op_position first = position
             /\ op_applied (set_length first (Some (total_length ops)))
                = op_applied first
             /\ first ∈ ops).
  { destruct ops as [|a [|b ops]]; simpl in Hlen; [lia | lia|].
    unfold mergeOperations.
    destruct (js_sort by_position_then_timestamp (a :: b :: ops))
      as [|first [|second rest]] eqn:Es; simpl in Hslen; [lia | lia|].
    apply Forall_cons in Hsrun as [(Tf & Hu & Hp) Hsrest].
    exists first. split; [reflexivity|].
    unfold gbind. rewrite clone_same.
    rewrite (merge_loop_backspace_run user position) by assumption.
    rewrite <- Htot. repeat split; try assumption; try reflexivity.
    rewrite <- Hperm. left. }
  destruct Hm as (first & Hhead & Hmerge & Tf & Hp & Happ & Hin).
  split; [exists first; split; assumption|].
  intros s merged E Hun Hpos Hb. rewrite Hmerge in E. simpl in E.
  injection E as <-.
  rewrite (replay_backspace_run user position) by assumption.
  assert (Hfa : op_applied first = false /\ 0 <= length_or_0 first)
    by (rewrite Forall_forall in Hun; apply Hun; exact Hin).
  assert (Htl : 0 <= total_length ops).
  { clear -Hun. induction Hun as [|x l [_ Hx] _ IHl]; simpl; [lia|].
    unfold total_length in *. simpl. lia. }
  rewrite applyOperation_splice;
    unfold edits, span_length, inserted, length_or_0;
    cbn [op_type op_applied op_position op_length set_length];
    rewrite ?Tf, ?Hp; try done; try lia.
  apply Hfa.
Qed.

Lemma merge_loop_other_kinds (rest merged : list DocumentOperation)
    (current : DocumentOperation) (g : nat) :
  Forall (fun op => is_insert (op_type op) = false
                    /\ is_delete (op_type op) = false) rest ->
  fst (merge_loop uuidv4 merged current rest g) = merged ++ current :: rest.
Proof.
  intros H. revert merged current g.
  induction H as [|op rest [Hi Hd] _ IH]; intros merged current g.
  - reflexivity.
  - simpl. rewrite Hi, Hd, !andb_false_r. simpl.
    unfold gbind. rewrite clone_same. rewrite IH, <- app_assoc. reflexivity.
Qed.

(** X13 -- operations that are neither inserts nor deletes (replaces in
    particular) are never merged: [mergeOperations] only puts them in
    (position, timestamp) order. *)
Theorem mergeOperations_keeps_replaces (ops : list DocumentOperation) (g : nat) :
  Forall (fun op => is_insert (op_type op) = false
                    /\ is_delete (op_type op) = false) ops ->
  merged_ops (fst (mergeOperations uuidv4 ops g))
  = js_sort by_position_then_timestamp ops.
Proof.
  intros H. destruct ops as [|a [|b ops]]; [reflexivity | reflexivity|].
  unfold mergeOperations.
  assert (Hs : Forall (fun op => is_insert (op_type op) = false
                                 /\ is_delete (op_type op) = false)
                 (js_sort by_position_then_timestamp (a :: b :: ops)))
    by (rewrite js_sort_Permutation; exact H).
  destruct (js_sort by_position_then_timestamp (a :: b :: ops))
    as [|first rest]; [reflexivity|].
  apply Forall_cons in Hs as [_ Hr].
  unfold gbind. rewrite clone_same.
  pose proof (merge_loop_other_kinds rest [] first (S g) Hr) as Hm.
  destruct (merge_loop uuidv4 [] first rest (S g)) as [merged g2].
  simpl in *. subst merged. destruct rest; reflexivity.
Qed.

Lemma merge_loop_length (rest merged : list DocumentOperation)
    (current : DocumentOperation) (g : nat) :
  (length (fst (merge_loop uuidv4 merged current rest g))
   <= length merged + S (length rest))%nat.
Proof.
  revert merged current g.
  induction rest as [|op rest IH]; intros merged current g; simpl.
  - rewrite length_app. simpl. lia.
  - repeat match goal with
           | |- context [if ?c then _ else _] => destruct c
           end.
    + specialize (IH merged (set_content current
                     (Some (content_or_empty current ++ content_or_empty op))) g).
      lia.
    + specialize (IH merged (set_length current
                     (Some (length_or_0 current + length_or_0 op))) g).
      lia.
    + unfold gbind. rewrite clone_same.
      specialize (IH (merged ++ [current]) op (S g)).
      rewrite length_app in IH. simpl in IH. lia.
Qed.

(** X14 -- merging never invents or loses a whole batch: the result has at
    most as many operations as the input, and at least one whenever the
    input has one. *)
Theorem mergeOperations_count (ops : list DocumentOperation) (g : nat) :
  (Nat.min 1 (length ops)
   <= length (merged_ops (fst (mergeOperations uuidv4 ops g)))
   <= length ops)%nat.
Proof.
  split.
  - destruct ops as [|a ops]; [simpl; lia|].
    pose proof (mergeOperations_not_nil uuidv4 (a :: ops) g) as H.
    destruct (merged_ops (fst (mergeOperations uuidv4 (a :: ops) g)));
      [exfalso; apply H; done | simpl; lia].
  - destruct ops as [|a [|b ops]]; [simpl; lia | simpl; lia|].
    unfold mergeOperations.
    pose proof (js_sort_length by_position_then_timestamp (a :: b :: ops)) as Hl.
    destruct (js_sort by_position_then_timestamp (a :: b :: ops))
      as [|first rest]; [simpl; lia|].
    unfold gbind. rewrite clone_same.
    pose proof (merge_loop_length rest [] first (S g)) as Hm.
    destruct (merge_loop uuidv4 [] first rest (S g)) as [merged g2].
    simpl in *. destruct merged as [|m [|m' merged]]; simpl in *; lia.
Qed.

End MergeRuns.

(** Three keystrokes "a", "b", "c" typed at offset 2, and three backspaces
    at offset 2. *)
Definition keystrokes : list DocumentOperation :=
  [demo_op Insert 2 (Some (txt "a")) None "u1" 10 "k1";
   demo_op Insert 3 (Some (txt "b")) None "u1" 11 "k2";
   demo_op Insert 4 (Some (txt "c")) None "u1" 12 "k3"].

Definition backspaces : list DocumentOperation :=
  [demo_op Delete 2 None (Some 1) "u1" 12 "b3";
   demo_op Delete 2 None (Some 1) "u1" 10 "b1";
   demo_op Delete 2 None (Some 1) "u1" 11 "b2"].

Lemma mergeOperations_typed_run_witness :
  mergeOperations demo_uuid keystrokes 0%nat
  = (MergedOne (demo_op Insert 2 (Some (txt "abc")) None "u1" 10 "k1"), 1%nat).
Proof.
  refine (proj1 (mergeOperations_typed_run demo_uuid _ _ _ 0%nat _)).
  repeat split; vm_compute; reflexivity.
Defined.

Lemma mergeOperations_backspace_run_witness :
  exists first,
    head (js_sort by_position_then_timestamp backspaces) = Some first
    /\ mergeOperations demo_uuid backspaces 0%nat
       = (MergedOne (set_length first (Some (total_length backspaces))), 1%nat).
Proof.
  refine (proj1 (mergeOperations_backspace_run demo_uuid "u1" 2 backspaces
                   0%nat _ _)).
  - simpl. lia.
  - repeat constructor.
Defined.

Lemma mergeOperations_keeps_replaces_witness :
  merged_ops (fst (mergeOperations demo_uuid [replace_bc; replace_ab] 0%nat))
  = js_sort by_position_then_timestamp [replace_bc; replace_ab].
Proof.
  apply (mergeOperations_keeps_replaces demo_uuid).
  repeat constructor.
Defined.

(** ** The snapshot store *)

Section Store.

Variable uuidv4 : nat -> string.
Variable JSON_parse : string -> option Document.
Variable JSON_stringify : Document -> Z -> string.

(** The queues after a snapshot of [docId] has been loaded. *)
Definition queues_with (docId : string)
    (queues : gmap string (list DocumentOperation))
    : gmap string (list DocumentOperation) :=
  match queues !! docId with
  | Some _ => queues
  | None => <[docId := []]> queues
  end.

(** X16 -- round trip through the store: once a document that is not in
    memory has been saved, loading its id returns what [JSON.parse] makes
    of the saved text, registers it under that id with a queue (an
    existing queue is kept), touches no file, and a second load returns
    the same document without changing anything. *)
Theorem save_then_load (document parsed : Document) (now later : Z) (w : World) :
  writable (fs w) = true ->
  activeDocuments (manager w) !! doc_id document = None ->
  forallb is_space (list_ascii_of_string (JSON_stringify document now)) = false ->
  JSON_parse (JSON_stringify document now) = Some parsed ->
  let saved := snd (saveDocument JSON_stringify document now w) in
  let loaded :=
    loadDocument uuidv4 JSON_parse JSON_stringify (doc_id document) later saved in
  fst loaded = Ok (Some (doc_id document, parsed))
  /\ activeDocuments (manager (snd loaded)) !! doc_id document = Some parsed
  /\ operationQueues (manager (snd loaded))
     = queues_with (doc_id document) (operationQueues (manager w))
  /\ fs (snd loaded) = fs saved
  /\ loadDocument uuidv4 JSON_parse JSON_stringify (doc_id document) later
       (snd loaded)
     = (Ok (Some (doc_id document, parsed)), snd loaded).
Proof.
  intros Hw Hd Hblank Hparse. cbv zeta.
  set (saved := snd (saveDocument JSON_stringify document now w)).
  assert (Hm : manager saved = manager w)
    by (subst saved; unfold saveDocument; rewrite Hw; reflexivity).
  assert (Hf : files (fs saved)
               !! file_path (documentsDir (manager saved)) (doc_id document)
               = Some (JSON_stringify document now)).
  { subst saved. unfold saveDocument. rewrite Hw. cbn.
    apply lookup_insert_eq. }
  assert (E : loadDocument uuidv4 JSON_parse JSON_stringify (doc_id document)
                later saved
              = (Ok (Some (doc_id document, parsed)),
                 set_manager saved
                   (set_operationQueues
                      (set_activeDocuments (manager saved)
                         (<[doc_id document := parsed]>
                            (activeDocuments (manager saved))))
                      (queues_with (doc_id document)
                         (operationQueues (manager saved)))))).
  { unfold loadDocument. rewrite Hf, Hblank, Hparse, Hm, Hd. reflexivity. }
  rewrite E. cbn [fst snd].
  split; [reflexivity|]. split; [cbn; apply lookup_insert_eq|].
  split; [cbn; rewrite Hm; reflexivity|]. split; [reflexivity|].
  unfold loadDocument. cbn [manager set_manager set_operationQueues
    set_activeDocuments activeDocuments].
  rewrite lookup_insert_eq. reflexivity.
Qed.

Lemma createDocument_store_down (title userId : option string) (now : Z)
    (w : World) :
  writable (fs w) = false ->
  fst (createDocument uuidv4 JSON_stringify title userId now w) = Throw IoError
  /\ manager (snd (createDocument uuidv4 JSON_stringify title userId now w))
     = manager w.
Proof.
  intros Hw. unfold createDocument, draw, uuid, saveDocument.
  cbn [fs manager effect set_fs]. rewrite Hw. split; reflexivity.
Qed.

(** X17 -- loading an id without a usable snapshot while the store rejects
    writes creates nothing: memory is unchanged, and the caller gets
    [null] when the snapshot is missing or blank but the write error
    itself when the snapshot is there and does not parse. *)
Theorem loadDocument_store_down (docId : string) (now : Z) (w : World) :
  activeDocuments (manager w) !! docId = None ->
  snapshot_unusable JSON_parse w docId ->
  writable (fs w) = false ->
  manager (snd (loadDocument uuidv4 JSON_parse JSON_stringify docId now w))
  = manager w
  /\ fst (loadDocument uuidv4 JSON_parse JSON_stringify docId now w)
     = match files (fs w) !! file_path (documentsDir (manager w)) docId with
       | Some data =>
           if forallb is_space (list_ascii_of_string data) then Ok None
           else Throw IoError
       | None => Ok None
       end.
Proof.
  intros Hd Hs Hw. unfold loadDocument, snapshot_unusable in *. rewrite Hd.
  assert (G : forall w1, manager w1 = manager w -> writable (fs w1) = false ->
              manager (snd (create_in_try uuidv4 JSON_stringify docId now w1))
              = manager w
              /\ fst (create_in_try uuidv4 JSON_stringify docId now w1)
                 = Ok None).
  { intros w1 Hm Hw1. unfold create_in_try, create_for.
    pose proof (createDocument_store_down (Some ("Document " +:+ docId)%string)
                  None now w1 Hw1) as [E1 E2].
    destruct (createDocument uuidv4 JSON_stringify
                (Some ("Document " +:+ docId)%string) None now w1) as [r w2].
    simpl in E1, E2. subst r. cbn. split; congruence. }
  assert (G' : forall w1, manager w1 = manager w -> writable (fs w1) = false ->
              manager (snd (create_for uuidv4 JSON_stringify docId now w1))
              = manager w
              /\ fst (create_for uuidv4 JSON_stringify docId now w1)
                 = Throw IoError).
  { intros w1 Hm Hw1. unfold create_for.
    pose proof (createDocument_store_down (Some ("Document " +:+ docId)%string)
                  None now w1 Hw1) as [E1 E2].
    destruct (createDocument uuidv4 JSON_stringify
                (Some ("Document " +:+ docId)%string) None now w1) as [r w2].
    simpl in E1, E2. subst r. cbn. split; congruence. }
  destruct (files (fs w) !! file_path (documentsDir (manager w)) docId)
    as [data|].
  - destruct (forallb is_space (list_ascii_of_string data)).
    + apply G; done.
    + destruct Hs as [Hs|Hs]; [discriminate|]. rewrite Hs.
      unfold loadDocument_catch. apply G'; done.
  - apply G; done.
Qed.

End Store.

Definition stored : World :=
  snd (saveDocument demo_stringify digits 5 (initial_world "/docs")).

Lemma save_then_load_witness :
  fst (loadDocument demo_uuid parse_digits demo_stringify "D" 6 stored)
  = Ok (Some ("D"%string, digits)).
Proof.
  refine (proj1 (save_then_load demo_uuid parse_digits demo_stringify digits
                   digits 5 6 (initial_world "/docs") _ _ _ _));
    reflexivity.
Defined.

Lemma loadDocument_store_down_witness :
  fst (loadDocument demo_uuid parse_nothing demo_stringify "D" 1
         (set_writable stored false))
  = Throw IoError.
Proof.
  refine (eq_trans
            (proj2 (loadDocument_store_down demo_uuid parse_nothing
                      demo_stringify "D" 1 (set_writable stored false) _ _ _))
            _).
  - reflexivity.
  - right. reflexivity.
  - reflexivity.
  - vm_compute. reflexivity.
Defined.

(** ** Debounce timers and a flush in progress

    [processOperationQueue] gives up control at
    [await this.saveDocument(document)]: [saveDocument] starts with
    [await fs.ensureDir(...)], and the handlers of other messages run
    before it serializes the document.  The flush is split at that point. *)

Section FlushInProgress.

Variable uuidv4 : nat -> string.
Variable JSON_stringify : Document -> Z -> string.

(** [processOperationQueue] up to the [await] of its save: the document in
    memory is updated and nothing is written yet.  The answer is the
    document as updated and the local [appliedOperations], or [None] when
    the flush has returned at once. *)
Definition flush_begin (documentId : string) (now : Z) (w : World)
    : option (Document * list DocumentOperation) * World :=
  match activeDocuments (manager w) !! documentId with
  | None => (None, w)
  | Some document =>
      match default [] (operationQueues (manager w) !! documentId) with
      | [] => (None, w)
      | queue =>
          let w1 := effect (ConsoleLog "Processing queued operations") w in
          let (a, w2) := draw (run_queue uuidv4 document queue) w1 in
          let document' := flushed document a now in
          (Some (document', appliedOperations a),
           store_document documentId document' w2)
      end
  end.

(** [processOperationQueue] from the [await] of its save on.  [document]
    is the document object held by the flush, as it is when the flush
    resumes, and [applied] is the local [appliedOperations]. *)
Definition flush_resume (documentId : string) (document : Document)
    (applied : list DocumentOperation) (io : option Server) (now : Z)
    (w : World) : World :=
  match saveDocument JSON_stringify document now w with
  | (Some _, w4) => effect (ConsoleError "Error processing operation queue:") w4
  | (None, w4) =>
      match io with
      | None => effect (ConsoleError "Error processing operation queue:") w4
      | Some _ =>
          let w5 :=
            effect (IoToRoom documentId
                      (DocumentSync (doc_content document) (doc_version document)
                         applied (doc_metadata document))) w4 in
          let m := manager w5 in
          set_manager w5
            (set_debouncedSaves
               (set_operationQueues m (<[documentId := []]> (operationQueues m)))
               (delete documentId (debouncedSaves m)))
      end
  end.

(** With nothing served in between, the two halves are the flush. *)
Lemma flush_begin_resume (documentId : string) (socket : option string)
    (io : option Server) (now : Z) (w : World) :
  processOperationQueue uuidv4 JSON_stringify documentId socket io now w
  = match flush_begin documentId now w with
    | (Some (document', applied), w1) =>
        flush_resume documentId document' applied io now w1
    | (None, w1) => w1
    end.
Proof.
  unfold processOperationQueue, flush_begin.
  destruct (activeDocuments (manager w) !! documentId) as [document|];
    [|reflexivity].
  destruct (default [] (operationQueues (manager w) !! documentId)) as [|o q];
    [reflexivity|].
  destruct (draw (run_queue uuidv4 document (o :: q))
              (effect (ConsoleLog "Processing queued operations") w)) as [a w2].
  reflexivity.
Qed.





End FlushInProgress.


(** ** Eviction of idle documents *)

(** The test of [cleanupInactiveDocuments]: no active user and no update
    for more than [maxIdleTime]. *)
Definition inactive (maxIdleTime now : Z) (document : Document) : bool :=
  negb (0 <? Z.of_nat (length (doc_activeUsers document)))
  && (now - doc_updatedAt document >? maxIdleTime).

(** [docId] is in [documentsToCleanup]. *)
Definition to_cleanup (maxIdleTime now : Z) (m : Manager) (docId : string) : bool :=
  match activeDocuments m !! docId with
  | Some document => inactive maxIdleTime now document
  | None => false
  end.

(** [cleanupInactiveDocuments(maxIdleTime)] at time [now]: the documents to
    clean up are collected first, then each is removed from memory with its
    queue, and its recorded timer is cleared. *)
Definition cleanupInactiveDocuments (maxIdleTime now : Z) (w : World) : World :=
  let m := manager w in
  let doomed := to_cleanup maxIdleTime now m in
  let handles :=
    map snd
      (filter (fun kh : string * nat => doomed (fst kh) = true)
         (map_to_list (debouncedSaves m))) in
  let w1 :=
    set_timers
      (set_manager w
         {| documentsDir := documentsDir m;
            activeDocuments :=
              filter (fun kd : string * Document => doomed (fst kd) = false)
                (activeDocuments m);
            operationQueues :=
              filter (fun kq : string * list DocumentOperation =>
                        doomed (fst kq) = false)
                (operationQueues m);
            debouncedSaves :=
              filter (fun kh : string * nat => doomed (fst kh) = false)
                (debouncedSaves m);
            userSessions := userSessions m |})
      (foldr delete (timers w) handles) (next_timer w) in
  match map_to_list
          (filter (fun kd : string * Document => doomed (fst kd) = true)
             (activeDocuments m)) with
  | [] => w1
  | _ => effect (ConsoleLog "Cleaned up inactive documents from memory") w1
  end.

Lemma lookup_foldr_delete (t : gmap nat (string * string)) (hs : list nat)
    (h : nat) :
  h ∈ hs -> foldr delete t hs !! h = None.
Proof.
  induction hs as [|x hs IH]; intros H; [inversion H|].
  simpl. destruct (decide (h = x)) as [->|Hne]; [apply lookup_delete_eq|].
  rewrite lookup_delete_ne by congruence. apply IH.
  apply elem_of_cons in H as [?|?]; [done | assumption].
Qed.

Lemma inactive_spec (maxIdleTime now : Z) (document : Document) :
  inactive maxIdleTime now document = true
  <-> doc_activeUsers document = [] /\ maxIdleTime < now - doc_updatedAt document.
Proof.
  unfold inactive. rewrite andb_true_iff, negb_true_iff.
  rewrite Z.ltb_ge, Z.gtb_ltb, Z.ltb_lt.
  destruct (doc_activeUsers document); simpl; split; intros [? ?];
    split; first [done | lia].
Qed.

(** X19 -- the periodic clean-up evicts exactly the idle documents: a
    document with no active user and no update for more than
    [maxIdleTime] leaves memory together with its queue (operations still
    queued are dropped without a flush), its debounce entry and the timer
    recorded for it; a document with an active user, or updated within
    the window, keeps all three. *)
Theorem cleanup_evicts_only_idle (maxIdleTime now : Z) (w : World)
    (docId : string) (document : Document) :
  activeDocuments (manager w) !! docId = Some document ->
  let w' := cleanupInactiveDocuments maxIdleTime now w in
  (doc_activeUsers document = []
   /\ maxIdleTime < now - doc_updatedAt document ->
   activeDocuments (manager w') !! docId = None
   /\ operationQueues (manager w') !! docId = None
   /\ debouncedSaves (manager w') !! docId = None
   /\ forall h, debouncedSaves (manager w) !! docId = Some h ->
                timers w' !! h = None)
  /\ (doc_activeUsers document <> []
      \/ now - doc_updatedAt document <= maxIdleTime ->
      activeDocuments (manager w') !! docId = Some document
      /\ operationQueues (manager w') !! docId
         = operationQueues (manager w) !! docId
      /\ debouncedSaves (manager w') !! docId
         = debouncedSaves (manager w) !! docId).
Proof.
  intros Hd. cbv zeta.
  assert (Hdoomed : to_cleanup maxIdleTime now (manager w) docId
                    = inactive maxIdleTime now document)
    by (unfold to_cleanup; rewrite Hd; reflexivity).
  unfold cleanupInactiveDocuments.
  set (w1 := set_timers _ _ _).
  assert (Hw : forall l : list (string * Document),
             manager (match l with
                      | [] => w1
                      | _ :: _ =>
                          effect (ConsoleLog
                            "Cleaned up inactive documents from memory") w1
                      end) = manager w1
             /\ timers (match l with
                        | [] => w1
                        | _ :: _ =>
                            effect (ConsoleLog
                              "Cleaned up inactive documents from memory") w1
                        end) = timers w1)
    by (intros []; split; reflexivity).
  match goal with
  | |- context [match ?l with [] => w1 | _ => _ end] =>
      destruct (Hw l) as [Hm Ht]; rewrite !Hm, !Ht
  end.
  subst w1. cbn [set_timers set_manager manager timers activeDocuments
                 operationQueues debouncedSaves].
  split.
  - intros Hidle. apply inactive_spec in Hidle. rewrite <- Hdoomed in Hidle.
    split; [|split; [|split]].
    + apply map_lookup_filter_None. right. intros x _. simpl. congruence.
    + apply map_lookup_filter_None. right. intros x _. simpl. congruence.
    + apply map_lookup_filter_None. right. intros x _. simpl. congruence.
    + intros h Hh. apply lookup_foldr_delete.
      apply list_elem_of_fmap. exists (docId, h). split; [reflexivity|].
      apply list_elem_of_filter. split; [exact Hidle|].
      apply elem_of_map_to_list. exact Hh.
  - intros Hkept.
    assert (Hno : to_cleanup maxIdleTime now (manager w) docId = false).
    { rewrite Hdoomed. destruct (inactive maxIdleTime now document) eqn:E;
        [|reflexivity].
      apply inactive_spec in E. destruct E, Hkept; [done | lia]. }
    split; [|split].
    + apply map_lookup_filter_Some. split; [exact Hd | exact Hno].
    + destruct (operationQueues (manager w) !! docId) as [q|] eqn:Eq.
      * apply map_lookup_filter_Some. split; [exact Eq | exact Hno].
      * apply map_lookup_filter_None. left. exact Eq.
    + destruct (debouncedSaves (manager w) !! docId) as [h|] eqn:Eh.
      * apply map_lookup_filter_Some. split; [exact Eh | exact Hno].
      * apply map_lookup_filter_None. left. exact Eh.
Qed.

(** Everyone has left "D" and half an hour has gone by with two deletes
    still queued. *)
Definition abandoned : World :=
  on_disconnect demo_uuid demo_stringify "s2" 401
    (on_disconnect demo_uuid demo_stringify "s1" 400 scenarioC_queued).

Lemma cleanup_evicts_only_idle_witness :
  operationQueues
    (manager (cleanupInactiveDocuments 1800000 1800100 abandoned)) !! "D"%string
  = None.
Proof.
  refine (proj1 (proj2 (proj1
            (cleanup_evicts_only_idle 1800000 1800100 abandoned "D"
               (default digits (activeDocuments (manager abandoned) !! "D"%string))
               _) _))).
  - vm_compute. reflexivity.
  - split; vm_compute; reflexivity.
Defined.

(** ** Presence *)

Lemma Map_delete_elem {V} (socket k : string) (v : V) (m : list (string * V)) :
  (k, v) ∈ Map_delete socket m <-> (k, v) ∈ m /\ k <> socket.
Proof.
  unfold Map_delete. rewrite list_elem_of_filter. simpl.
  destruct (String.eqb_spec k socket); simpl; split; intros [? ?];
    split; first [done | congruence].
Qed.

Lemma Map_delete_set {V} (socket : string) (v : V) (m : list (string * V)) :
  Map_delete socket (Map_set socket v m) = Map_delete socket m.
Proof.
  unfold Map_delete. induction m as [|[k' v'] m IH].
  - cbn [Map_set]. rewrite filter_cons. cbn [fst].
    rewrite String.eqb_refl. reflexivity.
  - cbn [Map_set]. destruct (String.eqb_spec k' socket) as [->|Hne].
    + rewrite !filter_cons. cbn [fst]. rewrite String.eqb_refl. reflexivity.
    + rewrite !filter_cons. cbn [fst]. rewrite IH. reflexivity.
Qed.

Lemma Map_delete_absent {V} (socket : string) (m : list (string * V)) :
  socket ∉ map fst m -> Map_delete socket m = m.
Proof.
  unfold Map_delete. induction m as [|[k v] m IH]; intros H; [reflexivity|].
  rewrite filter_cons. simpl in *.
  apply not_elem_of_cons in H as [Hne Hm].
  destruct (String.eqb_spec k socket); [congruence|]. simpl.
  rewrite IH by exact Hm. reflexivity.
Qed.

Section Presence.

Variable uuidv4 : nat -> string.
Variable JSON_parse : string -> option Document.
Variable JSON_stringify : Document -> Z -> string.

(** The presence record a join writes for [user]. *)
Definition joined (user : User) (now : Z) : ActiveUser :=
  {| au_user := user; au_joinedAt := now;
     au_cursor := {| cursor_position := 0; cursor_selection := None |} |}.

(** The document after [user] has joined it on [socket]. *)
Definition with_user (d : Document) (socket : string) (user : User) (now : Z)
    : Document :=
  set_presence d (Map_set socket (joined user now) (doc_activeUsers d))
    (set_lastAccessed (doc_metadata d) (user_id user) now).

(** The document after [socket] has left it. *)
Definition without_socket (d : Document) (socket : string) : Document :=
  set_presence d (Map_delete socket (doc_activeUsers d)) (doc_metadata d).

(** X20 -- a join to a document that is in memory registers the session
    and adds the presence record (cursor at 0) without touching the text,
    the version or the queue.  When the save succeeds the joiner gets
    [document-state] and the room gets [user-joined] and [users-updated];
    when the save fails the joiner is told the join failed, nobody else is
    told anything, and the session and the presence stay registered. *)
Theorem join_of_active_document (socket documentId : string) (i j : nat)
    (now : Z) (w : World) (d : Document) :
  activeDocuments (manager w) !! documentId = Some d ->
  let user := fst (generateDummyUser uuidv4 i j (uuid_next w)) in
  let d' := with_user d socket user now in
  let w' := on_join_document uuidv4 JSON_parse JSON_stringify socket documentId
              i j now w in
  userSessions (manager w') !! socket
  = Some {| session_user := user; session_documentId := documentId;
            session_socketId := socket |}
  /\ activeDocuments (manager w') !! documentId = Some d'
  /\ (doc_content d', doc_version d', doc_operations d')
     = (doc_content d, doc_version d, doc_operations d)
  /\ operationQueues (manager w') = operationQueues (manager w)
  /\ new_effects w w'
     = if writable (fs w)
       then [ConsoleLog ("Document " +:+ doc_id d +:+ " saved successfully");
             SocketJoin socket documentId;
             SocketEmit socket
               (DocumentState (doc_content d) (doc_version d) (doc_metadata d')
                  (doc_activeUsers d'));
             SocketToRoom socket documentId (UserJoined user socket);
             IoToRoom documentId (UsersUpdated (doc_activeUsers d'));
             ConsoleLog "User joined document"]
       else [ConsoleError "Error saving document:";
             ConsoleError "Error joining document:";
             SocketEmit socket (ErrorMessage "Failed to join document")].
Proof.
  intros Hd. cbv zeta.
  unfold on_join_document, draw.
  destruct (generateDummyUser uuidv4 i j (uuid_next w)) as [user g1].
  cbn [fst]. unfold addUserToDocument, loadDocument.
  cbn [manager activeDocuments]. rewrite Hd.
  unfold saveDocument.
  cbn [store_document set_manager fs manager set_userSessions].
  unfold new_effects.
  destruct (writable (fs w)); cbn;
    rewrite !lookup_insert_eq;
    rewrite <- ?app_assoc, drop_app_length; repeat split.
Qed.

(** X21 -- a disconnect of a session whose document is in memory removes
    the session and its presence record and nobody else's.  When the save
    succeeds the room gets [user-left] and a [users-updated] without the
    leaver; when the save fails the room is told nothing although the
    presence is already gone. *)
Theorem disconnect_removes_presence (socket : string) (now : Z) (w : World)
    (us : UserSession) (d : Document) :
  userSessions (manager w) !! socket = Some us ->
  activeDocuments (manager w) !! session_documentId us = Some d ->
  let w' := on_disconnect uuidv4 JSON_stringify socket now w in
  userSessions (manager w') = delete socket (userSessions (manager w))
  /\ activeDocuments (manager w') !! session_documentId us
     = Some (without_socket d socket)
  /\ (forall k v, (k, v) ∈ doc_activeUsers (without_socket d socket)
                  <-> (k, v) ∈ doc_activeUsers d /\ k <> socket)
  /\ new_effects w w'
     = if writable (fs w)
       then [ConsoleLog ("Document " +:+ doc_id d +:+ " saved successfully");
             SocketToRoom socket (session_documentId us) (UserLeft us socket);
             IoToRoom (session_documentId us)
               (UsersUpdated (doc_activeUsers (without_socket d socket)));
             ConsoleLog "User disconnected from document"]
       else [ConsoleError "Error saving document:";
             ConsoleError "Error handling user disconnect:"].
Proof.
  intros Hs Hd. cbv zeta.
  unfold on_disconnect. rewrite Hs.
  unfold removeUserFromDocument. rewrite Hd.
  cbn [store_document set_manager manager set_userSessions userSessions
       set_activeDocuments activeDocuments].
  rewrite lookup_delete_eq.
  cbn [set_manager manager set_userSessions set_activeDocuments
       activeDocuments].
  rewrite lookup_insert_eq.
  unfold saveDocument. cbn [fs set_manager store_document].
  unfold new_effects.
  destruct (writable (fs w)); cbn;
    rewrite ?lookup_insert_eq; cbn;
    rewrite <- ?app_assoc, drop_app_length;
    (split; [reflexivity|];
     split; [first [reflexivity | apply lookup_insert_eq]|];
     split; [intros k v; apply Map_delete_elem | reflexivity]).
Qed.

Lemma join_active_facts (socket documentId : string) (i j : nat) (now : Z)
    (w : World) (d : Document) :
  activeDocuments (manager w) !! documentId = Some d ->
  writable (fs w) = true ->
  let user := fst (generateDummyUser uuidv4 i j (uuid_next w)) in
  let w' := on_join_document uuidv4 JSON_parse JSON_stringify socket documentId
              i j now w in
  userSessions (manager w') !! socket
  = Some {| session_user := user; session_documentId := documentId;
            session_socketId := socket |}
  /\ activeDocuments (manager w') !! documentId
     = Some (with_user d socket user now)
  /\ writable (fs w') = true.
Proof.
  intros Hd Hw. cbv zeta.
  unfold on_join_document, draw.
  destruct (generateDummyUser uuidv4 i j (uuid_next w)) as [user g1].
  cbn [fst]. unfold addUserToDocument, loadDocument.
  cbn [manager activeDocuments]. rewrite Hd.
  unfold saveDocument.
  cbn [store_document set_manager fs manager set_userSessions].
  rewrite Hw. cbn. rewrite !lookup_insert_eq. repeat split.
Qed.

Lemma disconnect_facts (socket : string) (now : Z) (w : World)
    (us : UserSession) (d : Document) :
  userSessions (manager w) !! socket = Some us ->
  activeDocuments (manager w) !! session_documentId us = Some d ->
  writable (fs w) = true ->
  let w' := on_disconnect uuidv4 JSON_stringify socket now w in
  userSessions (manager w') !! socket = None
  /\ activeDocuments (manager w') !! session_documentId us
     = Some (without_socket d socket)
  /\ new_effects w w'
     = [ConsoleLog ("Document " +:+ doc_id d +:+ " saved successfully");
        SocketToRoom socket (session_documentId us) (UserLeft us socket);
        IoToRoom (session_documentId us)
          (UsersUpdated (doc_activeUsers (without_socket d socket)));
        ConsoleLog "User disconnected from document"].
Proof.
  intros Hs Hd Hw. cbv zeta.
  unfold on_disconnect. rewrite Hs.
  unfold removeUserFromDocument. rewrite Hd.
  cbn [store_document set_manager manager set_userSessions userSessions
       set_activeDocuments activeDocuments].
  rewrite lookup_delete_eq.
  cbn [set_manager manager set_userSessions set_activeDocuments
       activeDocuments].
  rewrite lookup_insert_eq.
  unfold saveDocument. cbn [fs set_manager store_document].
  unfold new_effects. rewrite Hw. cbn.
  rewrite ?lookup_insert_eq. cbn.
  rewrite <- ?app_assoc, drop_app_length.
  split; [apply lookup_delete_eq|].
  split; [first [reflexivity | apply lookup_insert_eq] | reflexivity].
Qed.

(** X22 -- no ghost users: when a socket that is not present joins a
    document in memory and then disconnects (the store accepting both
    saves), the presence list is what it was before the join, text and
    version are untouched, and the [users-updated] sent on the disconnect
    lists exactly the users present before the join. *)
Theorem join_then_disconnect (socket documentId : string) (i j : nat)
    (now later : Z) (w : World) (d : Document) :
  activeDocuments (manager w) !! documentId = Some d ->
  socket ∉ map fst (doc_activeUsers d) ->
  writable (fs w) = true ->
  let w1 := on_join_document uuidv4 JSON_parse JSON_stringify socket documentId
              i j now w in
  let w2 := on_disconnect uuidv4 JSON_stringify socket later w1 in
  (exists d2,
     activeDocuments (manager w2) !! documentId = Some d2
     /\ doc_activeUsers d2 = doc_activeUsers d
     /\ (doc_content d2, doc_version d2) = (doc_content d, doc_version d))
  /\ userSessions (manager w2) !! socket = None
  /\ exists session,
       new_effects w1 w2
       = [ConsoleLog ("Document " +:+ doc_id d +:+ " saved successfully");
          SocketToRoom socket documentId (UserLeft session socket);
          IoToRoom documentId (UsersUpdated (doc_activeUsers d));
          ConsoleLog "User disconnected from document"].
Proof.
  intros Hd Habsent Hw. cbv zeta.
  destruct (join_active_facts socket documentId i j now w d Hd Hw)
    as (Hs1 & Hd1 & Hw1).
  cbv zeta in Hs1, Hd1, Hw1.
  set (w1 := on_join_document uuidv4 JSON_parse JSON_stringify socket
               documentId i j now w) in *.
  set (user := fst (generateDummyUser uuidv4 i j (uuid_next w))) in *.
  destruct (disconnect_facts socket later w1 _ _ Hs1 Hd1 Hw1) as (Hs2 & Hd2 & He).
  cbv zeta in Hs2, Hd2, He. cbn [session_documentId] in Hd2, He.
  assert (Hback : doc_activeUsers (without_socket (with_user d socket user now)
                                     socket) = doc_activeUsers d).
  { unfold without_socket, with_user.
    cbn [doc_activeUsers set_presence].
    rewrite Map_delete_set. apply Map_delete_absent. exact Habsent. }
  split; [eexists; split; [exact Hd2 | split; [exact Hback | reflexivity]]|].
  split; [exact Hs2|].
  eexists. rewrite He, Hback. reflexivity.
Qed.

End Presence.

Definition two_users_document : Document :=
  Eval vm_compute in
    default digits (activeDocuments (manager two_users) !! "D"%string).

Lemma two_users_document_eq :
  activeDocuments (manager two_users) !! "D"%string = Some two_users_document.
Proof. vm_compute. reflexivity. Qed.

Lemma join_of_active_document_witness :
  fmap (fun d => map fst (doc_activeUsers d))
    (activeDocuments
       (manager (on_join_document demo_uuid parse_digits demo_stringify "s3"
                   "D" 2 2 12 two_users)) !! "D"%string)
  = Some ["s1"; "s2"; "s3"]%string.
Proof.
  destruct (join_of_active_document demo_uuid parse_digits demo_stringify
              "s3" "D" 2 2 12 two_users two_users_document
              two_users_document_eq) as (_ & E & _).
  rewrite E. reflexivity.
Defined.

Lemma disconnect_removes_presence_witness :
  userSessions (manager (on_disconnect demo_uuid demo_stringify "s1" 13 two_users))
  = delete "s1"%string (userSessions (manager two_users)).
Proof.
  refine (proj1
            (disconnect_removes_presence demo_uuid demo_stringify "s1" 13
               two_users
               {| session_user :=
                    {| user_id := "uuid-0"; user_name := "Alice";
                       user_color := "#FF6B6B"; user_avatar := "A" |};
                  session_documentId := "D"; session_socketId := "s1" |}
               two_users_document _ two_users_document_eq)).
  vm_compute. reflexivity.
Defined.

Lemma join_then_disconnect_witness :
  userSessions
    (manager
       (on_disconnect demo_uuid demo_stringify "s3" 13
          (on_join_document demo_uuid parse_digits demo_stringify "s3" "D" 2 2
             12 two_users))) !! "s3"%string
  = None.
Proof.
  refine (proj1 (proj2
            (join_then_disconnect demo_uuid parse_digits demo_stringify "s3"
               "D" 2 2 12 13 two_users two_users_document
               two_users_document_eq _ _))).
  - vm_compute. intros H. repeat (apply elem_of_cons in H as [H|H]; [discriminate|]).
    inversion H.
  - reflexivity.
Defined.

(** ** A burst of typing in one flush *)

Lemma typed_run_user (user : string) (ops : list DocumentOperation)
    (position : Z) :
  typed_run user position ops -> Forall (fun op => op_userId op = user) ops.
Proof.
  revert position. induction ops as [|op ops IH]; intros position H.
  - constructor.
  - destruct H as (_ & Hu & _ & _ & Hrest). constructor; [exact Hu | eauto].
Qed.

Lemma operationsByUser_one_user (user : string)
    (queue acc : list DocumentOperation) :
  Forall (fun op => op_userId op = user) queue ->
  fold_left (fun groups op => group_push op groups) queue [(user, acc)]
  = [(user, acc ++ queue)].
Proof.
  intros H. revert acc. induction H as [|op queue Hop _ IH]; intros acc.
  - rewrite app_nil_r. reflexivity.
  - simpl. rewrite Hop, String.eqb_refl. rewrite IH, <- app_assoc. reflexivity.
Qed.

Section Burst.

Variable uuidv4 : nat -> string.

(** X23 -- debounce coalescing: when the queue of a flush is a run of two
    or more keystrokes of one user, starting at an offset inside the text
    and none flagged applied, the flush applies exactly one operation --
    the first keystroke carrying the whole typed text, flagged applied --
    and the new text is the old one with the typed text put in at that
    offset. *)
Theorem run_queue_typed_run (document : Document)
    (first second : DocumentOperation) (rest : list DocumentOperation)
    (g : nat) :
  typed_run (op_userId first) (op_position first) (first :: second :: rest) ->
  Forall (fun op => op_applied op = false) (first :: second :: rest) ->
  0 <= op_position first <= text_length (doc_content document) ->
  let a := fst (run_queue uuidv4 document (first :: second :: rest) g) in
  appliedOperations a
  = [set_applied
       (set_content first (Some (typed_text (first :: second :: rest)))) true]
  /\ currentContent a
     = take (Z.to_nat (op_position first)) (doc_content document)
       ++ typed_text (first :: second :: rest)
       ++ drop (Z.to_nat (op_position first)) (doc_content document).
Proof.
  intros Hrun Hun Hp. cbv zeta.
  pose proof (typed_run_user _ _ _ Hrun) as Huser.
  pose proof (typed_run_sorted _ _ _ Hrun) as Hsorted.
  unfold run_queue, operationsByUser.
  assert (Hgroups :
            fold_left (fun groups op => group_push op groups)
              (first :: second :: rest) []
            = [(op_userId first, first :: second :: rest)]).
  { apply Forall_cons in Huser as [_ Huser].
    exact (operationsByUser_one_user (op_userId first) (second :: rest)
             [first] Huser). }
  rewrite Hgroups. unfold gbind.
  cbn [merge_groups]. unfold gbind.
  destruct Hrun as (Tf & _ & _ & Hlen & Hrun').
  unfold mergeOperations. rewrite Hsorted. unfold gbind.
  rewrite clone_same, merge_loop_typed_run by assumption.
  cbn [gret app js_sort foldr sort_insert apply_queue].
  unfold gbind, transformAgainstOperations, gbind.
  rewrite clone_same. cbn [transformAgainst_loop gret fst appliedOperations
                           currentContent app].
  split; [reflexivity|].
  apply Forall_cons in Hun as [Hf _].
  rewrite applyOperation_splice;
    unfold edits, span_length, inserted;
    cbn [op_type op_applied op_position set_content content_or_empty
         op_content];
    rewrite ?Tf; try done; try lia.
  unfold splice. rewrite Nat.add_0_r. reflexivity.
Qed.

End Burst.

Lemma run_queue_typed_run_witness :
  currentContent (fst (run_queue demo_uuid (document_with "HELLO") keystrokes 0%nat))
  = txt "HEabcLLO".
Proof.
  refine (eq_trans
            (proj2 (run_queue_typed_run demo_uuid (document_with "HELLO")
                      _ _ _ 0%nat _ _ _))
            _).
  - repeat split; vm_compute; reflexivity.
  - repeat constructor.
  - split; vm_compute; discriminate.
  - reflexivity.
Defined.
